(** * Loan amortization engine: LoanCalculator and the code around it

    Shallow embedding of
    - [LoanCalculator] (class with the static methods [calculateSchedule],
      [calculateNetRent], [calculateInvestmentMetrics],
      [calculateYearlyBreakdown] and [calculateAnnuityPayment]),
    - [RentalCalculator] ([calculateMonthlyBreakdown], [calculateCashflow],
      [calculateBreakEvenRent], [calculateCapRate], [calculateGRM] and
      [projectRentalIncome]),
    - the functions of loan-calculations.js ([calculateStandardLoan],
      [calculateIndexedLoan], [calculateEqualPrincipalLoan],
      [calculateRentalIncome], [calculateCashflow], [estimateVaxtabaetur]),
    - [Utils.validateLoanParams], and
    - the arrays of [ScenarioManager] and [CustomCostsManager] and
      [ChartManager.getBalanceAtMonth].

    Numbers.  A JavaScript number is modelled by an exact rational [Q]:
    rounding, NaN and the infinities are outside the model, and a quotient
    whose divisor is zero is [Qdiv]'s 0.  Equality of numbers is [==]
    ([Qeq]).  [Math.pow] has no rational counterpart (twelfth roots), so it
    is a parameter of the development, the class [MathPow]; what a theorem
    needs to know about it is one of its hypotheses.

    Dates ([startDate], the [date] of an entry) carry no arithmetic and are
    left out of the records. *)

From Stdlib Require Import String.
From Stdlib Require Import QArith Qround Qabs Qminmax Lqa Lia ZArith List Bool.
Import ListNotations.
Local Open Scope Q_scope.

(** ** JavaScript primitives on numbers *)

Module JS.

(** [a <= b], [a < b], [a >= b], [a > b], [a === b] *)
Definition le (a b : Q) : bool := Qle_bool a b.
Definition lt (a b : Q) : bool := negb (le b a).
Definition ge (a b : Q) : bool := le b a.
Definition gt (a b : Q) : bool := lt b a.
Definition strict_eq (a b : Q) : bool := Qeq_bool a b.

(** [Math.max(a, b)], [Math.min(a, b)] *)
Definition Math_max (a b : Q) : Q := if le a b then b else a.
Definition Math_min (a b : Q) : Q := if le a b then a else b.

(** a loop counter used as a number *)
Definition of_nat (n : nat) : Q := inject_Z (Z.of_nat n).

(** [x || 0] on a number: 0 is the only falsy rational *)
Definition or0 (x : Q) : Q := if strict_eq x 0 then 0 else x.

(** [arr[i]] with a number as index: an element only at a whole,
    non-negative index below the length; [undefined] otherwise *)
Definition index {A : Type} (arr : list A) (i : Q) : option A :=
  if le 0 i && strict_eq i (inject_Z (Qfloor i))
  then nth_error arr (Z.to_nat (Qfloor i))
  else None.

(** a destructuring default: [{ f = d } = obj] *)
Definition dflt {A : Type} (d : A) (o : option A) : A :=
  match o with Some v => v | None => d end.

(** [xs.reduce((s, x) => s + f(x), 0)] *)
Definition sum_by {A : Type} (f : A -> Q) (xs : list A) : Q :=
  fold_left (fun s x => s + f x) xs 0.

(** a number that may be [Infinity] *)
Inductive Number : Type :=
  | Finite (q : Q)
  | Infinity.

(** [Math.round(a)]: the nearest whole number, halves rounded up;
    [Math.abs(a)] *)
Definition Math_round (a : Q) : Q := inject_Z (Qfloor (a + (1 # 2))).
Definition Math_abs (a : Q) : Q := Qabs a.

(** [o || 0] on a number that may be left out *)
Definition opt_or0 (o : option Q) : Q :=
  match o with Some v => or0 v | None => 0 end.

End JS.

(** [Math.pow] *)
Class MathPow := Math_pow : Q -> Q -> Q.

(** ** LoanCalculator *)

Module LoanCalculator.

Inductive LoanType : Type :=
  | indexedAnnuity
  | nonIndexedAnnuity
  | nonIndexedEqualPrincipal.

Definition LoanType_eqb (a b : LoanType) : bool :=
  match a, b with
  | indexedAnnuity, indexedAnnuity => true
  | nonIndexedAnnuity, nonIndexedAnnuity => true
  | nonIndexedEqualPrincipal, nonIndexedEqualPrincipal => true
  | _, _ => false
  end.

(** The rental object.  A field of type [option] may be left out; the
    method that reads it supplies the default. *)
Record RentalIncomeConfig : Type := {
  grossRent : Q;
  taxRate : option Q;
  vacancyRate : option Q;
  operatingCosts : option Q;
  indexed : option bool;
  indexCosts : option bool;
  applyToLoan : bool;
  rentalDurationMonths : option Q
}.

Record LoanConfiguration : Type := {
  loanAmount : Q;
  annualInterestRate : Q;
  annualInflationRate : option Q;
  loanTermYears : Q;
  monthlyFee : option Q;
  loanType : option LoanType;
  extraPayment : option Q;
  indexExtraPayment : option bool;
  fixedPayment : option Q;
  rentalIncome : option RentalIncomeConfig;
  acceleratedPayoff : option bool
}.

Record ScheduleEntry : Type := {
  month : nat;
  balanceStart : Q;
  inflation : Q;
  interest : Q;
  principal : Q;
  fee : Q;
  requiredPayment : Q;
  manualExtra : Q;
  rentBasedExtra : Q;
  rentalContribution : Q;
  totalPaymentToLoan : Q;
  userOutOfPocket : Q;
  balance : Q
}.

Record ScheduleSummary : Type := {
  originalLoan : Q;
  summaryLoanType : LoanType;
  termMonths : nat;
  termYears : Q;
  totalPaidByUser : Q;
  totalPaidToLoan : Q;
  totalInterest : Q;
  totalInflation : Q;
  totalFees : Q;
  totalRentalContribution : Q;
  firstPayment : Q;
  firstUserPayment : Q;
  lastPayment : Q;
  averageMonthlyPayment : Q
}.

Record ScheduleResult : Type := {
  schedule : list ScheduleEntry;
  summary : ScheduleSummary
}.

(** the variables the [while] loop of [calculateSchedule] updates *)
Record LoopState : Type := {
  st_month : nat;
  st_balance : Q;
  st_schedule : list ScheduleEntry;
  st_totalInterest : Q;
  st_totalInflation : Q;
  st_totalPaidByUser : Q;
  st_totalPaidToLoan : Q;
  st_totalFees : Q;
  st_totalRentalContribution : Q;
  st_cumulativeInflationFactor : Q
}.

(** the [const]s and [let]s of one pass through the loop body *)
Record Period : Type := {
  p_month : nat;
  p_remainingMonths : Q;
  p_inflationAmount : Q;
  p_balanceAfterInflation : Q;
  p_interest : Q;
  p_requiredPayment : Q;
  p_manualExtra : Q;
  p_paymentBeforeRental : Q;
  p_rentalApplied : bool;
  p_netRent : Q;
  p_rentalContribution : Q;
  p_rentBasedExtra : Q;
  p_userOutOfPocket : Q;
  p_totalPaymentToLoan : Q;
  p_actualPrincipal : Q;
  p_balance : Q
}.

Section Engine.
Context {MP : MathPow}.

(** [LoanCalculator.calculateAnnuityPayment] *)
Definition calculateAnnuityPayment (principal monthlyRate months : Q) : Q :=
  if JS.le principal 0 then 0
  else if JS.strict_eq monthlyRate 0 then principal / months
  else
    let factor := Math_pow (1 + monthlyRate) months in
    principal * (monthlyRate * factor) / (factor - 1).

(** [LoanCalculator.calculateNetRent]; the caller that leaves
    [inflationFactor] out passes 1 *)
Definition calculateNetRent (rental : RentalIncomeConfig) (inflationFactor : Q) : Q :=
  let taxRate := JS.dflt (11 # 100) (taxRate rental) in
  let vacancyRate := JS.dflt (5 # 100) (vacancyRate rental) in
  let operatingCosts := JS.dflt 0 (operatingCosts rental) in
  let indexed := JS.dflt true (indexed rental) in
  let indexCosts := JS.dflt true (indexCosts rental) in
  let adjustedGrossRent :=
    if indexed then grossRent rental * inflationFactor else grossRent rental in
  let adjustedCosts :=
    if indexCosts then operatingCosts * inflationFactor else operatingCosts in
  let taxAmount := adjustedGrossRent * taxRate in
  let vacancyLoss := adjustedGrossRent * vacancyRate in
  JS.Math_max 0 (adjustedGrossRent - taxAmount - vacancyLoss - adjustedCosts).

Section Schedule.
Variable config : LoanConfiguration.

(** the destructured configuration, defaults applied *)
Definition cfg_annualInflationRate : Q := JS.dflt 0 (annualInflationRate config).
Definition cfg_monthlyFee : Q := JS.dflt 0 (monthlyFee config).
Definition cfg_loanType : LoanType := JS.dflt indexedAnnuity (loanType config).
Definition cfg_extraPayment : Q := JS.dflt 0 (extraPayment config).
Definition cfg_indexExtraPayment : bool := JS.dflt false (indexExtraPayment config).
Definition cfg_fixedPayment : Q := JS.dflt 0 (fixedPayment config).
Definition cfg_acceleratedPayoff : bool := JS.dflt false (acceleratedPayoff config).

Definition isIndexed : bool := LoanType_eqb cfg_loanType indexedAnnuity.
Definition isEqualPrincipal : bool := LoanType_eqb cfg_loanType nonIndexedEqualPrincipal.

Definition monthlyInterestRate : Q := annualInterestRate config / 12.
Definition monthlyInflationRate : Q :=
  if isIndexed then Math_pow (1 + cfg_annualInflationRate) (1 / 12) - 1 else 0.
Definition totalMonths : Q := loanTermYears config * 12.

Definition basePayment : Q :=
  if isEqualPrincipal then loanAmount config / totalMonths
  else if JS.strict_eq monthlyInterestRate 0 then loanAmount config / totalMonths
  else loanAmount config
       * (monthlyInterestRate * Math_pow (1 + monthlyInterestRate) totalMonths)
       / (Math_pow (1 + monthlyInterestRate) totalMonths - 1).

(** [rentalIncome && month <= rentalDurationMonths], the duration being
    [Infinity] when the rental object has none *)
Definition rentalActive (month : nat) : bool :=
  match rentalIncome config with
  | None => false
  | Some rental =>
      match rentalDurationMonths rental with
      | None => true
      | Some d => JS.le (JS.of_nat month) d
      end
  end.

(** the loop condition *)
Definition loopCond (st : LoopState) : bool :=
  (if cfg_acceleratedPayoff
   then JS.gt (st_balance st) (1 # 100)
   else JS.lt (JS.of_nat (st_month st)) totalMonths)
  && (st_month st <? 600)%nat.

(** the loop body up to the new balance (steps 1 to 8) *)
Definition period (st : LoopState) : Period :=
  let month := S (st_month st) in
  let cumulativeInflationFactor := st_cumulativeInflationFactor st in
  let remainingMonths := JS.Math_max 1 (totalMonths - JS.of_nat month + 1) in
  let inflationAmount := st_balance st * monthlyInflationRate in
  let balanceAfterInflation := st_balance st + inflationAmount in
  let interest := balanceAfterInflation * monthlyInterestRate in
  let requiredPayment :=
    if isEqualPrincipal then
      if cfg_acceleratedPayoff
      then (loanAmount config / totalMonths) + interest
      else balanceAfterInflation / remainingMonths + interest
    else if isIndexed then
      if cfg_acceleratedPayoff
      then basePayment * cumulativeInflationFactor
      else
        let realBalance := balanceAfterInflation / cumulativeInflationFactor in
        calculateAnnuityPayment realBalance monthlyInterestRate remainingMonths
        * cumulativeInflationFactor
    else
      if cfg_acceleratedPayoff
      then basePayment
      else calculateAnnuityPayment balanceAfterInflation monthlyInterestRate
             remainingMonths in
  let manualExtra0 :=
    if JS.gt cfg_extraPayment 0
    then if cfg_indexExtraPayment
         then cfg_extraPayment * cumulativeInflationFactor
         else cfg_extraPayment
    else 0 in
  let override :=
    JS.gt cfg_fixedPayment 0 && JS.gt cfg_fixedPayment requiredPayment in
  let paymentBeforeRental := if override then cfg_fixedPayment else requiredPayment in
  let manualExtra := if override then 0 else manualExtra0 in
  let rentalApplied :=
    rentalActive month
    && match rentalIncome config with
       | Some rental => applyToLoan rental
       | None => false
       end in
  let netRent :=
    match rentalIncome config with
    | Some rental =>
        if rentalApplied
        then calculateNetRent rental cumulativeInflationFactor
        else 0
    | None => 0
    end in
  let covers := JS.ge netRent paymentBeforeRental in
  let rentalContribution :=
    if rentalApplied then if covers then paymentBeforeRental else netRent else 0 in
  let rentBasedExtra :=
    if rentalApplied then if covers then netRent - paymentBeforeRental else 0 else 0 in
  let userOutOfPocket :=
    if rentalApplied
    then if covers then manualExtra else (paymentBeforeRental - netRent) + manualExtra
    else paymentBeforeRental + manualExtra in
  let totalPaymentToLoan := paymentBeforeRental + manualExtra + rentBasedExtra in
  let principalPaid := JS.Math_min (totalPaymentToLoan - interest) balanceAfterInflation in
  let actualPrincipal := JS.Math_max 0 principalPaid in
  let balance1 := balanceAfterInflation - actualPrincipal in
  let balance := if JS.lt balance1 (1 # 100) then 0 else balance1 in
  {| p_month := month;
     p_remainingMonths := remainingMonths;
     p_inflationAmount := inflationAmount;
     p_balanceAfterInflation := balanceAfterInflation;
     p_interest := interest;
     p_requiredPayment := requiredPayment;
     p_manualExtra := manualExtra;
     p_paymentBeforeRental := paymentBeforeRental;
     p_rentalApplied := rentalApplied;
     p_netRent := netRent;
     p_rentalContribution := rentalContribution;
     p_rentBasedExtra := rentBasedExtra;
     p_userOutOfPocket := userOutOfPocket;
     p_totalPaymentToLoan := totalPaymentToLoan;
     p_actualPrincipal := actualPrincipal;
     p_balance := balance |}.

(** the object pushed onto [schedule] (step 11) *)
Definition entryOf (p : Period) : ScheduleEntry :=
  {| month := p_month p;
     balanceStart := p_balance p + p_actualPrincipal p;
     inflation := p_inflationAmount p;
     interest := p_interest p;
     principal := p_actualPrincipal p;
     fee := cfg_monthlyFee;
     requiredPayment := p_requiredPayment p;
     manualExtra := p_manualExtra p;
     rentBasedExtra := p_rentBasedExtra p;
     rentalContribution := p_rentalContribution p;
     totalPaymentToLoan := p_totalPaymentToLoan p + cfg_monthlyFee;
     userOutOfPocket := p_userOutOfPocket p + cfg_monthlyFee;
     balance := p_balance p |}.

(** one pass through the loop body *)
Definition loopBody (st : LoopState) : LoopState :=
  let p := period st in
  {| st_month := p_month p;
     st_balance := p_balance p;
     st_schedule := st_schedule st ++ [entryOf p];
     st_totalInterest := st_totalInterest st + p_interest p;
     st_totalInflation := st_totalInflation st + p_inflationAmount p;
     st_totalPaidByUser :=
       st_totalPaidByUser st + (p_userOutOfPocket p + cfg_monthlyFee);
     st_totalPaidToLoan :=
       st_totalPaidToLoan st + (p_totalPaymentToLoan p + cfg_monthlyFee);
     st_totalFees := st_totalFees st + cfg_monthlyFee;
     st_totalRentalContribution :=
       if p_rentalApplied p
       then st_totalRentalContribution st
            + (p_rentalContribution p + p_rentBasedExtra p)
       else st_totalRentalContribution st;
     st_cumulativeInflationFactor :=
       st_cumulativeInflationFactor st * (1 + monthlyInflationRate) |}.

(** [while (cond) body], unrolled at most [fuel] times; the condition
    itself stops at month 600, see [loop_exits] *)
Fixpoint loop (fuel : nat) (st : LoopState) : LoopState :=
  match fuel with
  | O => st
  | S fuel' => if loopCond st then loop fuel' (loopBody st) else st
  end.

Definition initialState : LoopState :=
  {| st_month := 0;
     st_balance := loanAmount config;
     st_schedule := [];
     st_totalInterest := 0;
     st_totalInflation := 0;
     st_totalPaidByUser := 0;
     st_totalPaidToLoan := 0;
     st_totalFees := 0;
     st_totalRentalContribution := 0;
     st_cumulativeInflationFactor := 1 |}.

(** the state at the start of period [k + 1] *)
Definition stateAt (k : nat) : LoopState := Nat.iter k loopBody initialState.

Definition summaryOf (st : LoopState) : ScheduleSummary :=
  {| originalLoan := loanAmount config;
     summaryLoanType := cfg_loanType;
     termMonths := st_month st;
     termYears := JS.of_nat (st_month st) / 12;
     totalPaidByUser := st_totalPaidByUser st;
     totalPaidToLoan := st_totalPaidToLoan st;
     totalInterest := st_totalInterest st;
     totalInflation := st_totalInflation st;
     totalFees := st_totalFees st;
     totalRentalContribution := st_totalRentalContribution st;
     firstPayment :=
       match nth_error (st_schedule st) 0 with
       | Some e => JS.or0 (totalPaymentToLoan e)
       | None => 0
       end;
     firstUserPayment :=
       match nth_error (st_schedule st) 0 with
       | Some e => JS.or0 (userOutOfPocket e)
       | None => 0
       end;
     lastPayment :=
       match nth_error (st_schedule st) (length (st_schedule st) - 1) with
       | Some e => JS.or0 (totalPaymentToLoan e)
       | None => 0
       end;
     averageMonthlyPayment := st_totalPaidToLoan st / JS.of_nat (st_month st) |}.

(** [LoanCalculator.calculateSchedule]; [None] is [null] *)
Definition calculateSchedule : option ScheduleResult :=
  if JS.le (loanAmount config) 0 then None
  else
    let final := loop 600 initialState in
    Some {| schedule := st_schedule final; summary := summaryOf final |}.

End Schedule.

Record InvestmentConfig : Type := {
  propertyPrice : Q;
  downPaymentPercent : Q;
  loanFee : Q;
  ic_schedule : option (list ScheduleEntry);
  holdingYears : Q;
  appreciationRate : Q;
  sellingCostRate : Q;
  ic_rentalIncome : option RentalIncomeConfig
}.

Record YearlyPoint : Type := {
  year : nat;
  propertyValue : Q;
  loanBalance : Q;
  equity : Q
}.

Record InvestmentMetrics : Type := {
  totalInvested : Q;
  futurePropertyValue : Q;
  loanBalanceAtSale : Q;
  sellingCosts : Q;
  equityAtSale : Q;
  totalProfit : Q;
  cashOnCashReturn : Q;
  totalROI : Q;
  annualizedROI : Q;
  totalCashInvested : Q;
  totalCashFromRent : Q;
  breakdownByYear : list YearlyPoint
}.

(** [LoanCalculator.calculateYearlyBreakdown] *)
Definition calculateYearlyBreakdown
    (schedule : list ScheduleEntry) (propertyPrice appreciationRate : Q)
    : list YearlyPoint :=
  let maxYears := Z.to_nat (Qceiling (JS.of_nat (length schedule) / 12)) in
  map (fun year =>
         let propertyValue :=
           propertyPrice * Math_pow (1 + appreciationRate) (JS.of_nat year) in
         let monthIndex := JS.of_nat year * 12 - 1 in
         let balance :=
           if (year =? 0)%nat then
             match nth_error schedule 0 with
             | Some e => JS.or0 (balanceStart e)
             | None => 0
             end
           else if JS.ge monthIndex (JS.of_nat (length schedule)) then 0
           else match JS.index schedule monthIndex with
                | Some e => JS.or0 (balance e)
                | None => 0
                end in
         {| year := year;
            propertyValue := propertyValue;
            loanBalance := balance;
            equity := propertyValue - balance |})
      (seq 0 (S maxYears)).

(** [LoanCalculator.calculateInvestmentMetrics]; [None] is [null] *)
Definition calculateInvestmentMetrics (config : InvestmentConfig)
    : option InvestmentMetrics :=
  match ic_schedule config with
  | None => None
  | Some schedule =>
      let downPayment := propertyPrice config * (downPaymentPercent config / 100) in
      let totalInvested := downPayment + loanFee config in
      let futureValue :=
        propertyPrice config
        * Math_pow (1 + appreciationRate config) (holdingYears config) in
      let sellingCosts := futureValue * sellingCostRate config in
      let monthsHeld := holdingYears config * 12 in
      let loanBalanceAtSale :=
        if JS.ge monthsHeld (JS.of_nat (length schedule)) then 0
        else match JS.index schedule (monthsHeld - 1) with
             | Some e => JS.or0 (balance e)
             | None => 0
             end in
      let equityAtSale := futureValue - loanBalanceAtSale - sellingCosts in
      let totalProfit := equityAtSale - totalInvested in
      let monthsToCount := JS.Math_min monthsHeld (JS.of_nat (length schedule)) in
      let counted := firstn (Z.to_nat (Qceiling monthsToCount)) schedule in
      let totalCashInvested :=
        fold_left (fun s e => s + userOutOfPocket e) counted totalInvested in
      let totalCashFromRent :=
        fold_left (fun s e => s + (rentalContribution e + rentBasedExtra e)) counted 0 in
      let firstYearUserPayments := JS.sum_by userOutOfPocket (firstn 12 schedule) in
      let firstYearRentalNet :=
        match ic_rentalIncome config with
        | Some rental => calculateNetRent rental 1 * 12
        | None => 0
        end in
      let firstYearCashflow := firstYearRentalNet - firstYearUserPayments in
      let cashOnCashReturn :=
        if JS.gt totalInvested 0 then (firstYearCashflow / totalInvested) * 100 else 0 in
      let totalROI :=
        if JS.gt totalInvested 0 then (totalProfit / totalInvested) * 100 else 0 in
      let annualizedROI :=
        if JS.gt (holdingYears config) 0
        then (Math_pow (1 + totalROI / 100) (1 / holdingYears config) - 1) * 100
        else 0 in
      Some {| totalInvested := totalInvested;
              futurePropertyValue := futureValue;
              loanBalanceAtSale := loanBalanceAtSale;
              sellingCosts := sellingCosts;
              equityAtSale := equityAtSale;
              totalProfit := totalProfit;
              cashOnCashReturn := cashOnCashReturn;
              totalROI := totalROI;
              annualizedROI := annualizedROI;
              totalCashInvested := totalCashInvested;
              totalCashFromRent := totalCashFromRent;
              breakdownByYear :=
                calculateYearlyBreakdown schedule (propertyPrice config)
                  (appreciationRate config) |}
  end.

End Engine.

End LoanCalculator.

(** ** RentalCalculator *)

Module RentalCalculator.

Record CustomCost : Type := {
  name : string;
  amount : Q
}.

(** the argument of [calculateMonthlyBreakdown] *)
Record RentalConfig : Type := {
  grossRent : Q;
  taxRate : option Q;
  vacancyRate : option Q;
  propertyTax : option Q;
  insurance : option Q;
  maintenance : option Q;
  hoaFees : option Q;
  customCosts : option (list CustomCost);
  indexed : option bool;
  inflationFactor : option Q
}.

Record Deductions : Type := {
  tax : Q;
  vacancy : Q;
  operating : Q
}.

Record OperatingBreakdown : Type := {
  ob_propertyTax : Q;
  ob_insurance : Q;
  ob_maintenance : Q;
  ob_hoaFees : Q;
  custom : list CustomCost
}.

Record MonthlyBreakdown : Type := {
  mb_grossRent : Q;
  deductions : Deductions;
  operatingBreakdown : OperatingBreakdown;
  totalDeductions : Q;
  netRent : Q
}.

(** [RentalCalculator.calculateMonthlyBreakdown] *)
Definition calculateMonthlyBreakdown (config : RentalConfig) : MonthlyBreakdown :=
  let taxRate := JS.dflt (11 # 100) (taxRate config) in
  let vacancyRate := JS.dflt (5 # 100) (vacancyRate config) in
  let propertyTax := JS.dflt 0 (propertyTax config) in
  let insurance := JS.dflt 0 (insurance config) in
  let maintenance := JS.dflt 0 (maintenance config) in
  let hoaFees := JS.dflt 0 (hoaFees config) in
  let customCosts := JS.dflt [] (customCosts config) in
  let indexed := JS.dflt true (indexed config) in
  let inflationFactor := JS.dflt 1 (inflationFactor config) in
  let adjustedGrossRent :=
    if indexed then grossRent config * inflationFactor else grossRent config in
  let taxAmount := adjustedGrossRent * taxRate in
  let vacancyLoss := adjustedGrossRent * vacancyRate in
  let baseOperatingCosts :=
    propertyTax + insurance + maintenance + hoaFees
    + JS.sum_by (fun c => JS.or0 (amount c)) customCosts in
  let adjustedOperatingCosts :=
    if indexed then baseOperatingCosts * inflationFactor else baseOperatingCosts in
  let netRent :=
    JS.Math_max 0
      (adjustedGrossRent - taxAmount - vacancyLoss - adjustedOperatingCosts) in
  {| mb_grossRent := adjustedGrossRent;
     deductions :=
       {| tax := taxAmount;
          vacancy := vacancyLoss;
          operating := adjustedOperatingCosts |};
     operatingBreakdown :=
       {| ob_propertyTax :=
            if indexed then propertyTax * inflationFactor else propertyTax;
          ob_insurance := if indexed then insurance * inflationFactor else insurance;
          ob_maintenance :=
            if indexed then maintenance * inflationFactor else maintenance;
          ob_hoaFees := if indexed then hoaFees * inflationFactor else hoaFees;
          custom :=
            map (fun c =>
                   {| name := name c;
                      amount :=
                        if indexed then amount c * inflationFactor else amount c |})
                customCosts |};
     totalDeductions := taxAmount + vacancyLoss + adjustedOperatingCosts;
     netRent := netRent |}.

Record CashflowConfig : Type := {
  rentalConfig : RentalConfig;
  loanPayment : Q;
  applyRentToLoan : option bool
}.

Record Cashflow : Type := {
  cf_rental : MonthlyBreakdown;
  cf_loanPayment : Q;
  cf_applyRentToLoan : bool;
  rentCoversLoan : bool;
  surplusTowardsPrincipal : Q;
  userOutOfPocket : Q;
  monthlyBenefit : Q;
  annualBenefit : Q
}.

(** [RentalCalculator.calculateCashflow] *)
Definition calculateCashflow (config : CashflowConfig) : Cashflow :=
  let loanPayment := loanPayment config in
  let applyRentToLoan := JS.dflt false (applyRentToLoan config) in
  let rental := calculateMonthlyBreakdown (rentalConfig config) in
  let netRent := netRent rental in
  let covers := JS.ge netRent loanPayment in
  let monthlyBenefit :=
    if applyRentToLoan
    then if covers then netRent - loanPayment else - (loanPayment - netRent)
    else netRent - loanPayment in
  {| cf_rental := rental;
     cf_loanPayment := loanPayment;
     cf_applyRentToLoan := applyRentToLoan;
     rentCoversLoan := covers;
     surplusTowardsPrincipal :=
       if applyRentToLoan then if covers then netRent - loanPayment else 0 else 0;
     userOutOfPocket :=
       if applyRentToLoan
       then if covers then 0 else loanPayment - netRent
       else loanPayment;
     monthlyBenefit := monthlyBenefit;
     annualBenefit := monthlyBenefit * 12 |}.



(** [RentalCalculator.calculateCapRate], on the two fields of its argument *)
Definition calculateCapRate (annualNetOperatingIncome propertyValue : Q) : Q :=
  if JS.le propertyValue 0 then 0
  else annualNetOperatingIncome / propertyValue.

(** [RentalCalculator.calculateGRM] *)
Definition calculateGRM (propertyPrice annualGrossRent : Q) : JS.Number :=
  if JS.le annualGrossRent 0 then JS.Infinity
  else JS.Finite (propertyPrice / annualGrossRent).

Record ProjectionConfig : Type := {
  baseRentalConfig : RentalConfig;
  annualRentIncrease : option Q;
  annualCostIncrease : option Q
}.

Record Projection : Type := {
  year : nat;
  monthlyGross : Q;
  monthlyNet : Q;
  annualGross : Q;
  annualNet : Q
}.

Section Projection.
Context {MP : MathPow}.

(** the configuration [projectRentalIncome] builds for one year *)
Definition yearConfig (config : ProjectionConfig) (year : nat) : RentalConfig :=
  let base := baseRentalConfig config in
  let annualRentIncrease := JS.dflt (3 # 100) (annualRentIncrease config) in
  let annualCostIncrease := JS.dflt (2 # 100) (annualCostIncrease config) in
  let rentFactor := Math_pow (1 + annualRentIncrease) (JS.of_nat year - 1) in
  let costFactor := Math_pow (1 + annualCostIncrease) (JS.of_nat year - 1) in
  {| grossRent := grossRent base * rentFactor;
     taxRate := taxRate base;
     vacancyRate := vacancyRate base;
     propertyTax := Some (JS.opt_or0 (propertyTax base) * costFactor);
     insurance := Some (JS.opt_or0 (insurance base) * costFactor);
     maintenance := Some (JS.opt_or0 (maintenance base) * costFactor);
     hoaFees := Some (JS.opt_or0 (hoaFees base) * costFactor);
     customCosts :=
       Some (map (fun c => {| name := name c; amount := amount c * costFactor |})
               (JS.dflt [] (customCosts base)));
     indexed := indexed base;
     inflationFactor := inflationFactor base |}.

(** [RentalCalculator.projectRentalIncome]: one row for each whole year
    from 1 to [years] *)
Definition projectRentalIncome (config : ProjectionConfig) (years : Q)
    : list Projection :=
  map (fun year =>
         let breakdown := calculateMonthlyBreakdown (yearConfig config year) in
         {| year := year;
            monthlyGross := mb_grossRent breakdown;
            monthlyNet := netRent breakdown;
            annualGross := mb_grossRent breakdown * 12;
            annualNet := netRent breakdown * 12 |})
      (seq 1 (Z.to_nat (Qfloor years))).

End Projection.

End RentalCalculator.

(** ** loan-calculations.js: the separate engines and their helpers *)

Module LoanCalculations.

Record Entry : Type := {
  month : nat;
  inflation : Q;
  interest : Q;
  principal : Q;
  payment : Q;
  balance : Q
}.

Record Summary : Type := {
  originalPrincipal : Q;
  totalPaid : Q;
  totalInterest : Q;
  totalInflation : Q;
  termMonths : nat;
  firstPayment : Q;
  lastPayment : Q
}.

Record Result : Type := {
  schedule : list Entry;
  summary : Summary
}.

(** the variables of the [for] loop of [calculateStandardLoan] *)
Record LoopState : Type := {
  st_month : nat;
  st_balance : Q;
  st_schedule : list Entry;
  st_totalInterest : Q;
  st_totalPaid : Q
}.

Section Standard.
Context {MP : MathPow}.
Variables (principal0 annualRate years : Q) (extraPayment0 paymentFee0 : option Q).

Definition extraPayment : Q := JS.dflt 0 extraPayment0.
Definition paymentFee : Q := JS.dflt 0 paymentFee0.
Definition monthlyRate : Q := annualRate / 12.
Definition totalMonths : Q := years * 12.

Definition basePayment : Q :=
  principal0 * (monthlyRate * Math_pow (1 + monthlyRate) totalMonths)
  / (Math_pow (1 + monthlyRate) totalMonths - 1).

Definition loopCond (st : LoopState) : bool :=
  (st_month st <=? 600)%nat && JS.gt (st_balance st) (1 # 100).

(** the loop body up to the [push]; [st_month] is left for the
    increment of the [for] statement *)
Definition loopBody (st : LoopState) : LoopState :=
  let interest := st_balance st * monthlyRate in
  let payment := basePayment + extraPayment in
  let principalPayment := JS.Math_min (payment - interest) (st_balance st) in
  let balance := st_balance st - principalPayment in
  {| st_month := st_month st;
     st_balance := balance;
     st_schedule :=
       st_schedule st
       ++ [{| month := st_month st;
              inflation := 0;
              interest := interest;
              principal := principalPayment;
              payment := payment + paymentFee;
              balance := JS.Math_max 0 balance |}];
     st_totalInterest := st_totalInterest st + interest;
     st_totalPaid := st_totalPaid st + (payment + paymentFee) |}.

Definition increment (st : LoopState) : LoopState :=
  {| st_month := S (st_month st);
     st_balance := st_balance st;
     st_schedule := st_schedule st;
     st_totalInterest := st_totalInterest st;
     st_totalPaid := st_totalPaid st |}.

(** [for (...; cond; month++) { body; if (balance <= 0) break; }] *)
Fixpoint loop (fuel : nat) (st : LoopState) : LoopState :=
  match fuel with
  | O => st
  | S fuel' =>
      if loopCond st then
        let st' := loopBody st in
        if JS.le (st_balance st') 0 then st'
        else loop fuel' (increment st')
      else st
  end.

Definition initialState : LoopState :=
  {| st_month := 1;
     st_balance := principal0;
     st_schedule := [];
     st_totalInterest := 0;
     st_totalPaid := 0 |}.

(** [calculateStandardLoan]; [None] is [null] *)
Definition calculateStandardLoan : option Result :=
  if JS.le principal0 0 || JS.le years 0 then None
  else
    let final := loop 600 initialState in
    Some {| schedule := st_schedule final;
            summary :=
              {| originalPrincipal := principal0;
                 totalPaid := st_totalPaid final;
                 totalInterest := st_totalInterest final;
                 totalInflation := 0;
                 termMonths := length (st_schedule final);
                 firstPayment :=
                   match nth_error (st_schedule final) 0 with
                   | Some e => JS.or0 (payment e)
                   | None => 0
                   end;
                 lastPayment :=
                   match nth_error (st_schedule final)
                           (length (st_schedule final) - 1) with
                   | Some e => JS.or0 (payment e)
                   | None => 0
                   end |} |}.

End Standard.

(** the variables of the loop of [calculateIndexedLoan] *)
Record IndexedState : Type := {
  ix_month : nat;
  ix_balance : Q;
  ix_schedule : list Entry;
  ix_totalInterest : Q;
  ix_totalInflation : Q;
  ix_totalPaid : Q;
  ix_inflationFactor : Q
}.

Section Indexed.
Context {MP : MathPow}.
Variables (principal0 annualRate annualInflation years : Q).
Variables (extraPayment0 paymentFee0 : option Q).

Definition monthlyInflation : Q := Math_pow (1 + annualInflation) (1 / 12) - 1.

Definition indexedCond (st : IndexedState) : bool :=
  (ix_month st <=? 600)%nat && JS.gt (ix_balance st) (1 # 100).

(** the body of the loop up to the update of the inflation factor *)
Definition indexedBody (st : IndexedState) : IndexedState :=
  let inflationAmount := ix_balance st * monthlyInflation in
  let balance1 := ix_balance st + inflationAmount in
  let interest := balance1 * monthlyRate annualRate in
  let payment :=
    basePayment principal0 annualRate years * ix_inflationFactor st
    + extraPayment extraPayment0 in
  let principalPayment := JS.Math_min (payment - interest) balance1 in
  let balance := balance1 - principalPayment in
  {| ix_month := ix_month st;
     ix_balance := balance;
     ix_schedule :=
       ix_schedule st
       ++ [{| month := ix_month st;
              inflation := inflationAmount;
              interest := interest;
              principal := principalPayment;
              payment := payment + paymentFee paymentFee0;
              balance := JS.Math_max 0 balance |}];
     ix_totalInterest := ix_totalInterest st + interest;
     ix_totalInflation := ix_totalInflation st + inflationAmount;
     ix_totalPaid := ix_totalPaid st + (payment + paymentFee paymentFee0);
     ix_inflationFactor := ix_inflationFactor st * (1 + monthlyInflation) |}.

Definition indexedIncrement (st : IndexedState) : IndexedState :=
  {| ix_month := S (ix_month st);
     ix_balance := ix_balance st;
     ix_schedule := ix_schedule st;
     ix_totalInterest := ix_totalInterest st;
     ix_totalInflation := ix_totalInflation st;
     ix_totalPaid := ix_totalPaid st;
     ix_inflationFactor := ix_inflationFactor st |}.

Fixpoint indexedLoop (fuel : nat) (st : IndexedState) : IndexedState :=
  match fuel with
  | O => st
  | S fuel' =>
      if indexedCond st then
        let st' := indexedBody st in
        if JS.le (ix_balance st') 0 then st'
        else indexedLoop fuel' (indexedIncrement st')
      else st
  end.

Definition indexedInitial : IndexedState :=
  {| ix_month := 1;
     ix_balance := principal0;
     ix_schedule := [];
     ix_totalInterest := 0;
     ix_totalInflation := 0;
     ix_totalPaid := 0;
     ix_inflationFactor := 1 |}.

(** [calculateIndexedLoan]; [None] is [null] *)
Definition calculateIndexedLoan : option Result :=
  if JS.le principal0 0 || JS.le years 0 then None
  else
    let final := indexedLoop 600 indexedInitial in
    Some {| schedule := ix_schedule final;
            summary :=
              {| originalPrincipal := principal0;
                 totalPaid := ix_totalPaid final;
                 totalInterest := ix_totalInterest final;
                 totalInflation := ix_totalInflation final;
                 termMonths := length (ix_schedule final);
                 firstPayment :=
                   match nth_error (ix_schedule final) 0 with
                   | Some e => JS.or0 (payment e)
                   | None => 0
                   end;
                 lastPayment :=
                   match nth_error (ix_schedule final)
                           (length (ix_schedule final) - 1) with
                   | Some e => JS.or0 (payment e)
                   | None => 0
                   end |} |}.

End Indexed.

Section EqualPrincipal.
Variables (principal0 annualRate years : Q) (paymentFee0 : option Q).

Definition monthlyPrincipal : Q := principal0 / totalMonths years.

(** [month <= totalMonths && balance > 0.01] *)
Definition equalCond (st : LoopState) : bool :=
  JS.le (JS.of_nat (st_month st)) (totalMonths years)
  && JS.gt (st_balance st) (1 # 100).

(** the loop body and the increment of the [for] statement *)
Definition equalBody (st : LoopState) : LoopState :=
  let interest := st_balance st * monthlyRate annualRate in
  let principalPayment := JS.Math_min monthlyPrincipal (st_balance st) in
  let payment := principalPayment + interest in
  let balance := st_balance st - principalPayment in
  {| st_month := S (st_month st);
     st_balance := balance;
     st_schedule :=
       st_schedule st
       ++ [{| month := st_month st;
              inflation := 0;
              interest := interest;
              principal := principalPayment;
              payment := payment + paymentFee paymentFee0;
              balance := JS.Math_max 0 balance |}];
     st_totalInterest := st_totalInterest st + interest;
     st_totalPaid := st_totalPaid st + (payment + paymentFee paymentFee0) |}.

(** the loop, unrolled at most [fuel] times; the counter runs from 1 to
    the whole part of [totalMonths], which is the fuel
    [calculateEqualPrincipalLoan] gives it *)
Fixpoint equalLoop (fuel : nat) (st : LoopState) : LoopState :=
  match fuel with
  | O => st
  | S fuel' => if equalCond st then equalLoop fuel' (equalBody st) else st
  end.

(** [calculateEqualPrincipalLoan]; [None] is [null] *)
Definition calculateEqualPrincipalLoan : option Result :=
  if JS.le principal0 0 || JS.le years 0 then None
  else
    let final :=
      equalLoop (Z.to_nat (Qfloor (totalMonths years))) (initialState principal0) in
    Some {| schedule := st_schedule final;
            summary :=
              {| originalPrincipal := principal0;
                 totalPaid := st_totalPaid final;
                 totalInterest := st_totalInterest final;
                 totalInflation := 0;
                 termMonths := length (st_schedule final);
                 firstPayment :=
                   match nth_error (st_schedule final) 0 with
                   | Some e => JS.or0 (payment e)
                   | None => 0
                   end;
                 lastPayment :=
                   match nth_error (st_schedule final)
                           (length (st_schedule final) - 1) with
                   | Some e => JS.or0 (payment e)
                   | None => 0
                   end |} |}.

End EqualPrincipal.

(** the argument of [calculateRentalIncome] *)
Record RentalParams : Type := {
  monthlyRent : Q;
  taxRate : option Q;
  vacancyRate : option Q;
  propertyTax : option Q;
  insurance : option Q;
  maintenance : option Q;
  hoaFees : option Q;
  otherCosts : option Q
}.

Record RentalFigures : Type := {
  gross : Q;
  tax : Q;
  vacancyLoss : Q;
  operatingCosts : Q;
  net : Q
}.

Record RentalIncome : Type := {
  monthly : RentalFigures;
  annual : RentalFigures
}.

(** [calculateRentalIncome] *)
Definition calculateRentalIncome (params : RentalParams) : RentalIncome :=
  let taxRate := JS.dflt (11 # 100) (taxRate params) in
  let vacancyRate := JS.dflt (5 # 100) (vacancyRate params) in
  let propertyTax := JS.dflt 0 (propertyTax params) in
  let insurance := JS.dflt 0 (insurance params) in
  let maintenance := JS.dflt 0 (maintenance params) in
  let hoaFees := JS.dflt 0 (hoaFees params) in
  let otherCosts := JS.dflt 0 (otherCosts params) in
  let grossRent := monthlyRent params in
  let taxAmount := grossRent * taxRate in
  let vacancyLoss := grossRent * vacancyRate in
  let totalOperatingCosts :=
    propertyTax + insurance + maintenance + hoaFees + otherCosts in
  let netRent := grossRent - taxAmount - vacancyLoss - totalOperatingCosts in
  {| monthly :=
       {| gross := grossRent;
          tax := taxAmount;
          vacancyLoss := vacancyLoss;
          operatingCosts := totalOperatingCosts;
          net := netRent |};
     annual :=
       {| gross := grossRent * 12;
          tax := taxAmount * 12;
          vacancyLoss := vacancyLoss * 12;
          operatingCosts := totalOperatingCosts * 12;
          net := netRent * 12 |} |}.

Record Cashflow : Type := {
  monthlyLoanPayment : Q;
  monthlyRentalIncome : Q;
  monthlyCashflow : Q;
  annualCashflow : Q;
  outOfPocket : Q;
  surplus : Q;
  isPositive : bool
}.

(** [calculateCashflow]; the caller that leaves [netRentalIncome] out
    passes 0 *)
Definition calculateCashflow (loanPayment netRentalIncome : Q) : Cashflow :=
  let monthlyCashflow := netRentalIncome - loanPayment in
  {| monthlyLoanPayment := loanPayment;
     monthlyRentalIncome := netRentalIncome;
     monthlyCashflow := monthlyCashflow;
     annualCashflow := monthlyCashflow * 12;
     outOfPocket := if JS.lt monthlyCashflow 0 then JS.Math_abs monthlyCashflow else 0;
     surplus := if JS.gt monthlyCashflow 0 then monthlyCashflow else 0;
     isPositive := JS.ge monthlyCashflow 0 |}.

(** the argument of [estimateVaxtabaetur] *)
Record HouseholdParams : Type := {
  annualInterestPaid : Q;
  annualIncome : Q;
  householdType : option string;
  numChildren : option Q
}.

(** [estimateVaxtabaetur] *)
Definition estimateVaxtabaetur (params : HouseholdParams) : Q :=
  let householdType := JS.dflt "single"%string (householdType params) in
  let numChildren := JS.dflt 0 (numChildren params) in
  let single := String.eqb householdType "single"%string in
  let incomeThreshold :=
    (if single then 5500000 else 8000000) + numChildren * 500000 in
  let maxBenefit := (if single then 500000 else 600000) + numChildren * 50000 in
  let benefit0 := JS.Math_min (annualInterestPaid params * (30 # 100)) maxBenefit in
  let benefit :=
    if JS.gt (annualIncome params) incomeThreshold
    then
      let reduction := (annualIncome params - incomeThreshold) * (4 # 100) in
      JS.Math_max 0 (benefit0 - reduction)
    else benefit0 in
  JS.Math_round benefit.

End LoanCalculations.

(** ** Utils.validateLoanParams *)

Module Utils.

Record LoanParams : Type := {
  propertyPrice : option Q;
  loanAmount : option Q;
  annualInterestRate : option Q;
  loanTermYears : option Q;
  downPaymentPercent : option Q
}.

Record Validation : Type := {
  valid : bool;
  errors : list string;
  warnings : list string
}.

(** [!x || x <= 0] on a field that may be left out: 0 is the falsy number *)
Definition missingOrNonPositive (x : option Q) : bool :=
  match x with
  | None => true
  | Some v => JS.strict_eq v 0 || JS.le v 0
  end.

(** [x > c] and [x < c] on a field that may be left out: a comparison with
    [undefined] is false *)
Definition above (x : option Q) (c : Q) : bool :=
  match x with Some v => JS.gt v c | None => false end.

Definition below (x : option Q) (c : Q) : bool :=
  match x with Some v => JS.lt v c | None => false end.

(** [if (c) list.push(msg)] *)
Definition pushIf (c : bool) (msg : string) (l : list string) : list string :=
  if c then l ++ [msg] else l.

(** [Utils.validateLoanParams] *)
Definition validateLoanParams (params : LoanParams) : Validation :=
  let errors :=
    pushIf (missingOrNonPositive (loanTermYears params))
      "Lánstími verður að vera stærri en 0"
      (pushIf (missingOrNonPositive (annualInterestRate params))
         "Vextir verða að vera stærri en 0"
         (pushIf (missingOrNonPositive (loanAmount params))
            "Lánsfjárhæð verður að vera stærri en 0"
            (pushIf (missingOrNonPositive (propertyPrice params))
               "Kaupverð eignar verður að vera stærra en 0" []))) in
  let warnings :=
    pushIf (match loanAmount params, propertyPrice params with
            | Some a, Some p => JS.gt a (p * (95 # 100))
            | _, _ => false
            end)
      "Lánshlutfall (LTV) er yfir 95%"
      (pushIf (below (downPaymentPercent params) 10)
         "Útborgun er undir 10% - gæti þurft sérstakt samþykki"
         (pushIf (above (loanTermYears params) 40)
            "Lánstími er óvenju langur (>40 ár)"
            (pushIf (above (annualInterestRate params) (20 # 100))
               "Vextir eru óvenju háir (>20%)" []))) in
  {| valid := (length errors =? 0)%nat;
     errors := errors;
     warnings := warnings |}.

End Utils.

(** ** Arrays *)

Module JSArray.

(** the whole part of a number, as [Array.prototype.splice] takes its
    [start] *)
Definition toInteger (i : Q) : Z := if JS.lt i 0 then Qceiling i else Qfloor i.

(** [arr.splice(start, 1)], the array it leaves: a negative [start] counts
    from the end, a [start] at or past the length removes nothing *)
Definition splice1 {A : Type} (start : Q) (arr : list A) : list A :=
  let len := Z.of_nat (length arr) in
  let relativeStart := toInteger start in
  let actualStart :=
    if (relativeStart <? 0)%Z then Z.max (len + relativeStart) 0
    else Z.min relativeStart len in
  firstn (Z.to_nat actualStart) arr ++ skipn (S (Z.to_nat actualStart)) arr.

(** [arr[i] = x] where [arr[i]] is there *)
Fixpoint set_at {A : Type} (arr : list A) (i : nat) (x : A) : list A :=
  match arr, i with
  | [], _ => []
  | _ :: rest, O => x :: rest
  | y :: rest, S j => y :: set_at rest j x
  end.

End JSArray.

(** ** ScenarioManager and CustomCostsManager

    Each manager keeps an array ([scenarios], [costs]) and writes it to
    [localStorage] after every change.  The model is the array: a method is
    a function from the array before the call to the array after it, paired
    with the value the method returns where it returns one.  The write to
    storage, which the methods shield with [try]/[catch], and the
    notification of listeners change neither. *)

Module ScenarioManager.

Section Scenarios.
(** the type of the [params] object a scenario stores *)
Variable Params : Type.

Record Scenario : Type := {
  name : string;
  params : Params;
  savedAt : string
}.

(** [add(name, params)]; [now] is [new Date().toISOString()].  The result
    is the index of the new scenario. *)
Definition add (name : string) (params : Params) (now : string)
    (scenarios : list Scenario) : nat * list Scenario :=
  let scenarios' :=
    scenarios ++ [{| name := name; params := params; savedAt := now |}] in
  ((length scenarios' - 1)%nat, scenarios').

(** [get(index)]; [None] is [undefined] *)
Definition get (index : Q) (scenarios : list Scenario) : option Scenario :=
  JS.index scenarios index.

Definition getAll (scenarios : list Scenario) : list Scenario := scenarios.

Definition remove (index : Q) (scenarios : list Scenario) : list Scenario :=
  JSArray.splice1 index scenarios.

(** [update(index, name, params)] *)
Definition update (index : Q) (name : string) (params : Params) (now : string)
    (scenarios : list Scenario) : list Scenario :=
  match JS.index scenarios index with
  | Some _ =>
      JSArray.set_at scenarios (Z.to_nat (Qfloor index))
        {| name := name; params := params; savedAt := now |}
  | None => scenarios
  end.

Definition clear (scenarios : list Scenario) : list Scenario := [].

End Scenarios.

End ScenarioManager.

Module CustomCostsManager.

Local Abbreviation CustomCost := RentalCalculator.CustomCost.

(** [add(name, amount)]: the result says whether the cost was taken *)
Definition add (name : string) (amount : Q) (costs : list CustomCost)
    : bool * list CustomCost :=
  if String.eqb name "" || JS.le amount 0 then (false, costs)
  else
    (true,
     costs ++ [{| RentalCalculator.name := name; RentalCalculator.amount := amount |}]).

Definition remove (index : Q) (costs : list CustomCost) : list CustomCost :=
  JSArray.splice1 index costs.

Definition getAll (costs : list CustomCost) : list CustomCost := costs.

(** [getTotal()] *)
Definition getTotal (costs : list CustomCost) : Q :=
  JS.sum_by (fun c => JS.or0 (RentalCalculator.amount c)) costs.

Definition clear (costs : list CustomCost) : list CustomCost := [].

End CustomCostsManager.

(** ** ChartManager.getBalanceAtMonth *)

Module ChartManager.


End ChartManager.

(** An instance of [Math.pow] for running the engines on concrete
    configurations: exact at a whole exponent, which is all a non-indexed loan
    over a whole number of months asks for; at any other exponent the result
    is not a rational in general and 1 stands in for it. *)
Definition Qpow : MathPow :=
  fun x y =>
    if JS.strict_eq y (inject_Z (Qfloor y)) then Qpower x (Qfloor y) else 1.

(** [{ ...config, rentalIncome: r }] *)
Definition withRentalIncome
    (config : LoanCalculator.LoanConfiguration)
    (r : option LoanCalculator.RentalIncomeConfig)
    : LoanCalculator.LoanConfiguration :=
  {| LoanCalculator.loanAmount := LoanCalculator.loanAmount config;
     LoanCalculator.annualInterestRate := LoanCalculator.annualInterestRate config;
     LoanCalculator.annualInflationRate := LoanCalculator.annualInflationRate config;
     LoanCalculator.loanTermYears := LoanCalculator.loanTermYears config;
     LoanCalculator.monthlyFee := LoanCalculator.monthlyFee config;
     LoanCalculator.loanType := LoanCalculator.loanType config;
     LoanCalculator.extraPayment := LoanCalculator.extraPayment config;
     LoanCalculator.indexExtraPayment := LoanCalculator.indexExtraPayment config;
     LoanCalculator.fixedPayment := LoanCalculator.fixedPayment config;
     LoanCalculator.rentalIncome := r;
     LoanCalculator.acceleratedPayoff := LoanCalculator.acceleratedPayoff config |}.

(** The net rent as section 4.2 of the specification words it: gross rent
    and operating costs scaled by the inflation factor under their flags,
    tax, vacancy and costs subtracted, the result floored at 0. *)
Definition RentalIncomeModel_netRent
    (grossRent taxRate vacancyRate operatingCosts : Q) (indexed indexCosts : bool)
    (inflationFactor : Q) : Q :=
  let gross := if indexed then grossRent * inflationFactor else grossRent in
  let costs := if indexCosts then operatingCosts * inflationFactor else operatingCosts in
  Qmax 0 (gross - gross * taxRate - gross * vacancyRate - costs).

(** the balance a period starts from, read off the schedule: the loan
    amount for the first period, the balance of the entry before otherwise *)
Definition balanceBefore
    (config : LoanCalculator.LoanConfiguration)
    (schedule : list LoanCalculator.ScheduleEntry) (k : nat) : Q :=
  match k with
  | O => LoanCalculator.loanAmount config
  | S j =>
      match nth_error schedule j with
      | Some e => LoanCalculator.balance e
      | None => 0
      end
  end.

(** Invariants of an equal-principal schedule of [N] slices [u].  The
    balance at the start of period [j + 1] is the slices not yet paid, or 0
    after the rounding guard cleared a remainder below 0.01; a principal is
    the slice, or 0 after that. *)
Definition ep_balance (u : Q) (N j : nat) (b : Q) : Prop :=
  ((j <= N)%nat /\ b == u * (JS.of_nat N - JS.of_nat j))
  \/ (b == 0 /\ u < 1 # 100).

Definition ep_principal (u a : Q) : Prop :=
  a == u \/ (a == 0 /\ u < 1 # 100).

(** the configuration that asks [calculateSchedule] for what
    [calculateStandardLoan] computes: a non-indexed annuity under
    [acceleratedPayoff], every other option left out *)
Definition standardAsSchedule
    (principal annualRate years : Q) (extraPayment paymentFee : option Q)
    : LoanCalculator.LoanConfiguration :=
  {| LoanCalculator.loanAmount := principal;
     LoanCalculator.annualInterestRate := annualRate;
     LoanCalculator.annualInflationRate := None;
     LoanCalculator.loanTermYears := years;
     LoanCalculator.monthlyFee := paymentFee;
     LoanCalculator.loanType := Some LoanCalculator.nonIndexedAnnuity;
     LoanCalculator.extraPayment := extraPayment;
     LoanCalculator.indexExtraPayment := None;
     LoanCalculator.fixedPayment := None;
     LoanCalculator.rentalIncome := None;
     LoanCalculator.acceleratedPayoff := Some true |}.

(** an entry of [calculateStandardLoan] against the entry of
    [calculateSchedule] for the same month: same interest and principal, and
    the balance up to the rounding guard only [calculateSchedule] has *)
Definition entriesAgree
    (el : LoanCalculations.Entry) (ec : LoanCalculator.ScheduleEntry) : Prop :=
  LoanCalculations.month el = LoanCalculator.month ec
  /\ LoanCalculations.interest el == LoanCalculator.interest ec
  /\ LoanCalculations.principal el == LoanCalculator.principal ec
  /\ LoanCalculator.balance ec
     == (if JS.lt (LoanCalculations.balance el) (1 # 100) then 0
         else LoanCalculations.balance el).

(** the two loops in step: the legacy counter is one ahead, the schedules
    agree, and the balances are equal until the rounding guard clears the
    canonical one *)
Definition loopsInStep
    (principal : Q) (sl : LoanCalculations.LoopState)
    (sc : LoanCalculator.LoopState) : Prop :=
  LoanCalculations.st_month sl = S (LoanCalculator.st_month sc)
  /\ Forall2 entriesAgree
       (LoanCalculations.st_schedule sl) (LoanCalculator.st_schedule sc)
  /\ ((LoanCalculator.st_balance sc == LoanCalculations.st_balance sl
       /\ 0 <= LoanCalculations.st_balance sl <= principal)
      \/ (LoanCalculator.st_balance sc == 0
          /\ 0 <= LoanCalculations.st_balance sl < 1 # 100)).

(** the net rent of a [RentalCalculator] breakdown from its inputs: rent,
    rates, summed operating costs, indexation flag and inflation factor *)
Definition netRentOf (gross tax vac costs : Q) (indexed : bool) (factor : Q) : Q :=
  let g := if indexed then gross * factor else gross in
  let c := if indexed then costs * factor else costs in
  JS.Math_max 0 (g - g * tax - g * vac - c).

(** two entries of the loan-calculations.js engines with the same month
    and the same figures *)
Definition entryEq (a b : LoanCalculations.Entry) : Prop :=
  LoanCalculations.month a = LoanCalculations.month b
  /\ LoanCalculations.inflation a == LoanCalculations.inflation b
  /\ LoanCalculations.interest a == LoanCalculations.interest b
  /\ LoanCalculations.principal a == LoanCalculations.principal b
  /\ LoanCalculations.payment a == LoanCalculations.payment b
  /\ LoanCalculations.balance a == LoanCalculations.balance b.

(** ** Sample configurations

    Most run a quarter of a year: three periods, short enough to run the
    engines on unreduced fractions. *)

(** a loan at no interest with every option but fee and type left out *)
Definition sampleLoan
    (amount years : Q) (fee : option Q) (type : LoanCalculator.LoanType)
    : LoanCalculator.LoanConfiguration :=
  {| LoanCalculator.loanAmount := amount;
     LoanCalculator.annualInterestRate := 0;
     LoanCalculator.annualInflationRate := None;
     LoanCalculator.loanTermYears := years;
     LoanCalculator.monthlyFee := fee;
     LoanCalculator.loanType := Some type;
     LoanCalculator.extraPayment := None;
     LoanCalculator.indexExtraPayment := None;
     LoanCalculator.fixedPayment := None;
     LoanCalculator.rentalIncome := None;
     LoanCalculator.acceleratedPayoff := None |}.

(** 1200 over three months, with a monthly fee of 10 *)
Definition feeLoan : LoanCalculator.LoanConfiguration :=
  sampleLoan 1200 (1 # 4) (Some 10) LoanCalculator.nonIndexedAnnuity.

(** no loan amount; no term *)
Definition nullLoan : LoanCalculator.LoanConfiguration :=
  sampleLoan 0 (1 # 4) None LoanCalculator.nonIndexedAnnuity.

Definition noTermLoan : LoanCalculator.LoanConfiguration :=
  sampleLoan 1200 0 None LoanCalculator.nonIndexedAnnuity.

(** equal principal: 12,000,000 over ten years, and over an eighth of a year,
    which is a month and a half *)
Definition tenYearLoan : LoanCalculator.LoanConfiguration :=
  sampleLoan 12000000 10 None LoanCalculator.nonIndexedEqualPrincipal.

Definition oddTermLoan : LoanCalculator.LoanConfiguration :=
  sampleLoan 12000000 (1 # 8) None LoanCalculator.nonIndexedEqualPrincipal.

(** a rental object with a gross rent of 1000 and the default rates: the net
    rent is 840 *)
Definition sampleRental (apply : bool) (duration : option Q)
    : LoanCalculator.RentalIncomeConfig :=
  {| LoanCalculator.grossRent := 1000;
     LoanCalculator.taxRate := None;
     LoanCalculator.vacancyRate := None;
     LoanCalculator.operatingCosts := None;
     LoanCalculator.indexed := None;
     LoanCalculator.indexCosts := None;
     LoanCalculator.applyToLoan := apply;
     LoanCalculator.rentalDurationMonths := duration |}.

(** [feeLoan] with the rent applied to the loan *)
Definition rentedLoan : LoanCalculator.LoanConfiguration :=
  withRentalIncome feeLoan (Some (sampleRental true None)).

(** a schedule of four entries for the investment metrics *)
Definition sampleEntry (m : nat) (bal : Q) : LoanCalculator.ScheduleEntry :=
  {| LoanCalculator.month := m;
     LoanCalculator.balanceStart := bal + 300;
     LoanCalculator.inflation := 0;
     LoanCalculator.interest := 0;
     LoanCalculator.principal := 300;
     LoanCalculator.fee := 0;
     LoanCalculator.requiredPayment := 300;
     LoanCalculator.manualExtra := 0;
     LoanCalculator.rentBasedExtra := 0;
     LoanCalculator.rentalContribution := 0;
     LoanCalculator.totalPaymentToLoan := 300;
     LoanCalculator.userOutOfPocket := 300;
     LoanCalculator.balance := bal |}.

Definition sampleSchedule : list LoanCalculator.ScheduleEntry :=
  [sampleEntry 1 900; sampleEntry 2 600; sampleEntry 3 300; sampleEntry 4 0].


(** an investment in a property bought at 6000 on the given schedule *)
Definition investmentOn
    (schedule : list LoanCalculator.ScheduleEntry) (holding : Q)
    : LoanCalculator.InvestmentConfig :=
  {| LoanCalculator.propertyPrice := 6000;
     LoanCalculator.downPaymentPercent := 80;
     LoanCalculator.loanFee := 0;
     LoanCalculator.ic_schedule := Some schedule;
     LoanCalculator.holdingYears := holding;
     LoanCalculator.appreciationRate := 0;
     LoanCalculator.sellingCostRate := 0;
     LoanCalculator.ic_rentalIncome := None |}.

(** a schedule of thirteen entries, a year and a month, held for a year *)
Definition yearSchedule : list LoanCalculator.ScheduleEntry :=
  map (fun m => sampleEntry m (JS.of_nat (13 - m) * 300)) (seq 1 13).

Definition yearInvestment : LoanCalculator.InvestmentConfig :=
  investmentOn yearSchedule 1.


(** the rental of [sampleRental] as [RentalCalculator] takes it, a loan
    payment of 400 against it, and its projection *)
Definition sampleRentalConfig : RentalCalculator.RentalConfig :=
  {| RentalCalculator.grossRent := 1000;
     RentalCalculator.taxRate := None;
     RentalCalculator.vacancyRate := None;
     RentalCalculator.propertyTax := None;
     RentalCalculator.insurance := None;
     RentalCalculator.maintenance := None;
     RentalCalculator.hoaFees := None;
     RentalCalculator.customCosts := None;
     RentalCalculator.indexed := None;
     RentalCalculator.inflationFactor := None |}.

Definition sampleCashflowConfig : RentalCalculator.CashflowConfig :=
  {| RentalCalculator.rentalConfig := sampleRentalConfig;
     RentalCalculator.loanPayment := 400;
     RentalCalculator.applyRentToLoan := Some true |}.

Definition sampleProjection : RentalCalculator.ProjectionConfig :=
  {| RentalCalculator.baseRentalConfig := sampleRentalConfig;
     RentalCalculator.annualRentIncrease := None;
     RentalCalculator.annualCostIncrease := None |}.



(** the arguments of the loan-calculations.js functions *)
Definition sampleRentalParams : LoanCalculations.RentalParams :=
  {| LoanCalculations.monthlyRent := 1000;
     LoanCalculations.taxRate := None;
     LoanCalculations.vacancyRate := None;
     LoanCalculations.propertyTax := None;
     LoanCalculations.insurance := None;
     LoanCalculations.maintenance := None;
     LoanCalculations.hoaFees := None;
     LoanCalculations.otherCosts := None |}.

Definition sampleHousehold (income : Q) : LoanCalculations.HouseholdParams :=
  {| LoanCalculations.annualInterestPaid := 1000000;
     LoanCalculations.annualIncome := income;
     LoanCalculations.householdType := None;
     LoanCalculations.numChildren := None |}.

(** the parameters of [feeLoan] as the form hands them to the validation *)
Definition sampleLoanParams : Utils.LoanParams :=
  {| Utils.propertyPrice := Some 2000;
     Utils.loanAmount := Some 1200;
     Utils.annualInterestRate := Some (5 # 100);
     Utils.loanTermYears := Some (1 # 4);
     Utils.downPaymentPercent := Some 40 |}.

(** a stored scenario and a stored cost *)
Definition sampleScenarios : list (ScenarioManager.Scenario nat) :=
  [{| ScenarioManager.name := "first";
      ScenarioManager.params := 1%nat;
      ScenarioManager.savedAt := "2024-01-01T00:00:00.000Z" |}].

Definition sampleCosts : list RentalCalculator.CustomCost :=
  [{| RentalCalculator.name := "waste"; RentalCalculator.amount := 5 |}].

(** * Properties *)

(** ** The primitives *)

Module JSFacts.

Lemma le_true a b : JS.le a b = true -> a <= b.
Proof. apply Qle_bool_imp_le. Qed.

Lemma le_false a b : JS.le a b = false -> b < a.
Proof.
  unfold JS.le; intros H; apply Qnot_le_lt; intros Hle.
  apply Qle_bool_iff in Hle; congruence.
Qed.

Lemma lt_true a b : JS.lt a b = true -> a < b.
Proof. unfold JS.lt; intros H; apply negb_true_iff in H; now apply le_false. Qed.

Lemma lt_false a b : JS.lt a b = false -> b <= a.
Proof. unfold JS.lt; intros H; apply negb_false_iff in H; now apply le_true. Qed.

Lemma strict_eq_true a b : JS.strict_eq a b = true -> a == b.
Proof. apply Qeq_bool_iff. Qed.

Lemma strict_eq_false a b : JS.strict_eq a b = false -> ~ a == b.
Proof. apply Qeq_bool_neq. Qed.

Lemma le_intro a b : a <= b -> JS.le a b = true.
Proof. apply Qle_bool_iff. Qed.

Lemma le_intro_false a b : b < a -> JS.le a b = false.
Proof.
  intros H; destruct (JS.le a b) eqn:E; [|reflexivity].
  apply le_true in E; lra.
Qed.

Lemma lt_intro a b : a < b -> JS.lt a b = true.
Proof. intros H; unfold JS.lt; now rewrite (le_intro_false b a H). Qed.

Lemma lt_intro_false a b : b <= a -> JS.lt a b = false.
Proof. intros H; unfold JS.lt; now rewrite (le_intro b a H). Qed.

Lemma of_nat_S n : JS.of_nat (S n) == JS.of_nat n + 1.
Proof.
  unfold JS.of_nat; rewrite Nat2Z.inj_succ, <- Z.add_1_r, inject_Z_plus; reflexivity.
Qed.

Lemma of_nat_le n m : (n <= m)%nat -> JS.of_nat n <= JS.of_nat m.
Proof. intros H; unfold JS.of_nat; rewrite <- Zle_Qle; lia. Qed.

Lemma of_nat_lt n m : JS.of_nat n < JS.of_nat m -> (n < m)%nat.
Proof. unfold JS.of_nat; rewrite <- Zlt_Qlt; lia. Qed.

Lemma of_nat_nonneg n : 0 <= JS.of_nat n.
Proof. apply (of_nat_le 0 n); lia. Qed.

Lemma or0_eq x : JS.or0 x == x.
Proof.
  unfold JS.or0; destruct (JS.strict_eq x 0) eqn:E; [|reflexivity].
  apply strict_eq_true in E; now rewrite E.
Qed.

Lemma Qfloor_of_nat k : Qfloor (JS.of_nat k) = Z.of_nat k.
Proof. unfold JS.of_nat; apply Qfloor_Z. Qed.

(** an array read at a whole index is the list lookup *)
Lemma index_whole {A} (arr : list A) (i : Q) (k : nat) :
  i == JS.of_nat k -> JS.index arr i = nth_error arr k.
Proof.
  intros Hi; unfold JS.index.
  assert (Hf : Qfloor i = Z.of_nat k) by (rewrite Hi; apply Qfloor_of_nat).
  rewrite Hf, Nat2Z.id.
  replace (JS.le 0 i) with true
    by (symmetry; apply le_intro; rewrite Hi; apply of_nat_nonneg).
  replace (JS.strict_eq i (inject_Z (Z.of_nat k))) with true
    by (symmetry; apply Qeq_bool_iff; exact Hi).
  reflexivity.
Qed.

Lemma Math_max_ge_l a b : a <= JS.Math_max a b.
Proof.
  unfold JS.Math_max; destruct (JS.le a b) eqn:E;
    [apply le_true in E; lra | lra].
Qed.

Lemma Math_max_Qmax a b : JS.Math_max a b == Qmax a b.
Proof.
  unfold JS.Math_max; destruct (JS.le a b) eqn:E.
  - apply le_true in E; symmetry; now apply Q.max_r.
  - apply le_false in E; symmetry; apply Q.max_l; lra.
Qed.

End JSFacts.

(** turn the comparisons that decide a branch into propositions *)
Ltac js_prop :=
  repeat match goal with
    | H : JS.le _ _ = true |- _ => apply JSFacts.le_true in H
    | H : JS.le _ _ = false |- _ => apply JSFacts.le_false in H
    | H : JS.lt _ _ = true |- _ => apply JSFacts.lt_true in H
    | H : JS.lt _ _ = false |- _ => apply JSFacts.lt_false in H
    | H : JS.strict_eq _ _ = true |- _ => apply JSFacts.strict_eq_true in H
    | H : JS.strict_eq _ _ = false |- _ => apply JSFacts.strict_eq_false in H
    end.

Ltac js_case :=
  unfold JS.Math_max, JS.Math_min, JS.gt, JS.ge in *;
  repeat (js_prop;
          match goal with
          | |- context [if JS.le ?a ?b then _ else _] => destruct (JS.le a b) eqn:?
          | |- context [if JS.lt ?a ?b then _ else _] => destruct (JS.lt a b) eqn:?
          | |- context [if JS.strict_eq ?a ?b then _ else _] =>
              destruct (JS.strict_eq a b) eqn:?
          | H : context [if JS.le ?a ?b then _ else _] |- _ =>
              destruct (JS.le a b) eqn:?
          | H : context [if JS.lt ?a ?b then _ else _] |- _ =>
              destruct (JS.lt a b) eqn:?
          | H : context [if JS.strict_eq ?a ?b then _ else _] |- _ =>
              destruct (JS.strict_eq a b) eqn:?
          end);
  js_prop.

Section Properties.
Context {MP : MathPow}.
Import LoanCalculator.

(** ** The net rent *)

(** C6: [calculateNetRent] scales gross rent by the inflation factor
    exactly under the [indexed] flag and the operating costs exactly under
    [indexCosts], subtracts tax, vacancy loss and costs, and floors the
    result at 0; the net rent is never negative. *)
Theorem calculateNetRent_spec (rental : RentalIncomeConfig) (inflationFactor : Q) :
  calculateNetRent rental inflationFactor
  == RentalIncomeModel_netRent
       (grossRent rental)
       (JS.dflt (11 # 100) (taxRate rental))
       (JS.dflt (5 # 100) (vacancyRate rental))
       (JS.dflt 0 (operatingCosts rental))
       (JS.dflt true (indexed rental))
       (JS.dflt true (indexCosts rental))
       inflationFactor
  /\ 0 <= calculateNetRent rental inflationFactor.
Proof.
  split.
  - unfold calculateNetRent, RentalIncomeModel_netRent; cbv zeta.
    apply JSFacts.Math_max_Qmax.
  - unfold calculateNetRent; cbv zeta; apply JSFacts.Math_max_ge_l.
Qed.

(** ** The annuity payment *)

(** C8, amended: at a zero monthly rate the annuity payment of a positive
    principal is [P / n]; a principal that is zero or negative gives 0. *)
Theorem calculateAnnuityPayment_zero_rate (P n : Q) :
  (0 < P -> calculateAnnuityPayment P 0 n == P / n)
  /\ (P <= 0 -> calculateAnnuityPayment P 0 n == 0).
Proof.
  unfold calculateAnnuityPayment; split; intros HP.
  - rewrite (JSFacts.le_intro_false P 0 HP); reflexivity.
  - rewrite (JSFacts.le_intro P 0 HP); reflexivity.
Qed.

(** ** The loop of [calculateSchedule] *)

Section Loop.
Variable config : LoanConfiguration.

Lemma stateAt_S k : stateAt config (S k) = loopBody config (stateAt config k).
Proof. reflexivity. Qed.

Lemma stateAt_month k : st_month (stateAt config k) = k.
Proof. induction k as [|k IH]; [reflexivity|]. rewrite stateAt_S; simpl; now rewrite IH. Qed.

Lemma stateAt_length k : length (st_schedule (stateAt config k)) = k.
Proof.
  induction k as [|k IH]; [reflexivity|].
  rewrite stateAt_S; simpl; rewrite length_app, IH; simpl; lia.
Qed.

(** the entry of period [j + 1] is the one its pass through the body pushed *)
Lemma stateAt_nth j k :
  (j < k)%nat ->
  nth_error (st_schedule (stateAt config k)) j
  = Some (entryOf config (period config (stateAt config j))).
Proof.
  induction k as [|k IH]; intros Hj; [lia|].
  rewrite stateAt_S; simpl.
  destruct (Nat.eq_dec j k) as [->|Hne].
  - rewrite nth_error_app2 by (rewrite stateAt_length; lia).
    rewrite stateAt_length, Nat.sub_diag; reflexivity.
  - rewrite nth_error_app1 by (rewrite stateAt_length; lia).
    apply IH; lia.
Qed.

Lemma stateAt_balance k :
  st_balance (stateAt config (S k)) = p_balance (period config (stateAt config k)).
Proof. reflexivity. Qed.

(** the loop runs the body from period to period until its condition fails
    or the fuel is spent *)
Lemma loop_stateAt fuel : forall k,
  exists n,
    loop config fuel (stateAt config k) = stateAt config n
    /\ (k <= n <= k + fuel)%nat
    /\ (forall j, (k <= j < n)%nat -> loopCond config (stateAt config j) = true)
    /\ ((n < k + fuel)%nat -> loopCond config (stateAt config n) = false).
Proof.
  induction fuel as [|fuel IH]; intros k; simpl.
  - exists k; split; [reflexivity|split; [lia|split; intros; lia]].
  - destruct (loopCond config (stateAt config k)) eqn:Hc.
    + rewrite <- stateAt_S.
      destruct (IH (S k)) as (n & Hn & Hb & Ht & Hf).
      exists n; split; [exact Hn|split; [lia|split]].
      * intros j Hj; destruct (Nat.eq_dec j k) as [->|Hne]; [exact Hc|apply Ht; lia].
      * intros; apply Hf; lia.
    + exists k; split; [reflexivity|split; [lia|split]].
      * intros; lia.
      * intros; exact Hc.
Qed.

Lemma loopCond_cap st : (600 <= st_month st)%nat -> loopCond config st = false.
Proof.
  intros H; unfold loopCond.
  replace (st_month st <? 600)%nat with false by (symmetry; apply Nat.ltb_ge; exact H).
  apply andb_false_r.
Qed.

(** the loop stops on its own condition: 600 units of fuel are never spent
    with the condition still true *)
Lemma loop_exits : loopCond config (loop config 600 (initialState config)) = false.
Proof.
  destruct (loop_stateAt 600 0) as (n & Hn & Hb & _ & Hf).
  change (stateAt config 0) with (initialState config) in Hn; rewrite Hn.
  destruct (Nat.eq_dec n 600) as [->|Hne].
  - apply loopCond_cap; rewrite stateAt_month; lia.
  - apply Hf; lia.
Qed.

(** what [calculateSchedule] returns: the state after [n] periods, [n] the
    first period count at which the loop condition fails *)
Lemma calculateSchedule_run r :
  calculateSchedule config = Some r ->
  exists n,
    (n <= 600)%nat
    /\ schedule r = st_schedule (stateAt config n)
    /\ summary r = summaryOf config (stateAt config n)
    /\ (forall j, (j < n)%nat -> loopCond config (stateAt config j) = true)
    /\ loopCond config (stateAt config n) = false.
Proof.
  pose proof loop_exits as Hex.
  destruct (loop_stateAt 600 0) as (n & Hn & Hb & Ht & _).
  change (stateAt config 0) with (initialState config) in Hn.
  rewrite Hn in Hex.
  unfold calculateSchedule; destruct (JS.le (loanAmount config) 0); [discriminate|].
  cbv zeta; rewrite Hn; intros H; injection H as <-; cbn [schedule summary].
  exists n; split; [lia|split; [reflexivity|split; [reflexivity|split]]].
  - intros; apply Ht; lia.
  - exact Hex.
Qed.

Lemma calculateSchedule_some :
  0 < loanAmount config -> exists r, calculateSchedule config = Some r.
Proof.
  intros H; unfold calculateSchedule.
  rewrite (JSFacts.le_intro_false _ _ H); eexists; reflexivity.
Qed.

Lemma calculateSchedule_nth r k e :
  calculateSchedule config = Some r ->
  nth_error (schedule r) k = Some e ->
  e = entryOf config (period config (stateAt config k))
  /\ loopCond config (stateAt config k) = true.
Proof.
  intros Hr He.
  destruct (calculateSchedule_run r Hr) as (n & Hn & Hs & _ & Ht & _).
  rewrite Hs in He.
  assert (Hk : (k < n)%nat).
  { rewrite <- (stateAt_length n); apply nth_error_Some; congruence. }
  rewrite (stateAt_nth k n Hk) in He; injection He as <-.
  split; [reflexivity|apply Ht; exact Hk].
Qed.


End Loop.

(** ** Bounds *)


(** ** Null and empty results *)

(** C4, amended: [calculateSchedule] is total; it returns null exactly for a
    loan amount of 0 or less and a schedule with its summary otherwise; a
    term of 0 or less leaves the schedule empty unless [acceleratedPayoff] is
    set.  (A rate of 0 or less is not signalled.) *)
Theorem calculateSchedule_null_or_result (config : LoanConfiguration) :
  (loanAmount config <= 0 -> calculateSchedule config = None)
  /\ (0 < loanAmount config ->
      exists r,
        calculateSchedule config = Some r
        /\ (loanTermYears config <= 0 -> cfg_acceleratedPayoff config = false ->
            schedule r = [])).
Proof.
  split.
  - intros H; unfold calculateSchedule; now rewrite (JSFacts.le_intro _ _ H).
  - intros H; destruct (calculateSchedule_some config H) as [r Hr].
    exists r; split; [exact Hr|]; intros Hterm Hacc.
    destruct (calculateSchedule_run config r Hr) as (n & _ & Hs & _ & Ht & _).
    destruct n as [|n]; [rewrite Hs; reflexivity|].
    specialize (Ht 0%nat ltac:(lia)).
    unfold loopCond in Ht; rewrite Hacc, stateAt_month in Ht.
    apply andb_true_iff in Ht; destruct Ht as [Ht _]; apply JSFacts.lt_true in Ht.
    unfold totalMonths in Ht; change (JS.of_nat 0) with 0 in Ht; lra.
Qed.

(** ** Per-period rules *)

Lemma Math_min_compat a a' b b' :
  a == a' -> b == b' -> JS.Math_min a b == JS.Math_min a' b'.
Proof. intros Ha Hb; js_case; lra. Qed.

Lemma Math_max_compat a a' b b' :
  a == a' -> b == b' -> JS.Math_max a b == JS.Math_max a' b'.
Proof. intros Ha Hb; js_case; lra. Qed.

Lemma period_principal config st :
  p_actualPrincipal (period config st)
  = JS.Math_max 0
      (JS.Math_min
         (p_totalPaymentToLoan (period config st) - p_interest (period config st))
         (st_balance st + p_inflationAmount (period config st))).
Proof. reflexivity. Qed.

Lemma balanceBefore_stateAt config r k :
  calculateSchedule config = Some r ->
  (k <= length (schedule r))%nat ->
  balanceBefore config (schedule r) k = st_balance (stateAt config k).
Proof.
  intros Hr Hk; destruct k as [|k]; [reflexivity|]; simpl balanceBefore.
  destruct (nth_error (schedule r) k) as [e|] eqn:He.
  - destruct (calculateSchedule_nth config r k e Hr He) as [-> _]; reflexivity.
  - apply nth_error_None in He; lia.
Qed.

(** C2, amended: the principal of every entry is
    [max(0, min(totalPaymentToLoan - fee - interest, balanceAfterInflation))],
    the recorded total payment taken without the monthly fee it includes, and
    the balance after indexation being the balance the period starts from plus
    the entry's inflation amount. *)
Theorem principal_rule (config : LoanConfiguration) r k e :
  0 < loanAmount config ->
  calculateSchedule config = Some r ->
  nth_error (schedule r) k = Some e ->
  principal e
  == JS.Math_max 0
       (JS.Math_min (totalPaymentToLoan e - fee e - interest e)
          (balanceBefore config (schedule r) k + inflation e)).
Proof.
  intros _ Hr He.
  rewrite (balanceBefore_stateAt config r k Hr)
    by (apply Nat.lt_le_incl, nth_error_Some; congruence).
  destruct (calculateSchedule_nth config r k e Hr He) as [-> _].
  cbn [entryOf principal totalPaymentToLoan fee interest inflation].
  rewrite period_principal.
  apply Math_max_compat; [reflexivity|].
  apply Math_min_compat; [ring|reflexivity].
Qed.

Lemma period_rent_covers config st rental :
  rentalIncome config = Some rental ->
  applyToLoan rental = true ->
  rentalActive config (S (st_month st)) = true ->
  p_paymentBeforeRental (period config st)
  <= calculateNetRent rental (st_cumulativeInflationFactor st) ->
  p_rentalContribution (period config st) = p_paymentBeforeRental (period config st)
  /\ p_rentBasedExtra (period config st)
     = calculateNetRent rental (st_cumulativeInflationFactor st)
       - p_paymentBeforeRental (period config st)
  /\ p_userOutOfPocket (period config st) = p_manualExtra (period config st).
Proof.
  intros Hri Happly Hact Hcov.
  apply JSFacts.le_intro in Hcov.
  unfold period in *; cbv zeta in *.
  cbn [p_paymentBeforeRental p_rentalContribution p_rentBasedExtra
       p_userOutOfPocket p_manualExtra] in *.
  rewrite Hri, Hact, Happly; cbn [andb]; unfold JS.ge; rewrite Hcov.
  repeat split; reflexivity.
Qed.

(** C3, amended: in a period within the rental duration in which the rent is
    applied to the loan and the net rent covers the payment (the fixed
    payment where it overrides, the required payment otherwise), the entry
    has [rentalContribution] = payment, [rentBasedExtra] = net rent - payment
    and [userOutOfPocket] = [manualExtra] + the monthly fee. *)
Theorem rent_covers_payment (config : LoanConfiguration) r k e rental :
  calculateSchedule config = Some r ->
  nth_error (schedule r) k = Some e ->
  rentalIncome config = Some rental ->
  applyToLoan rental = true ->
  rentalActive config (S k) = true ->
  let st := stateAt config k in
  let netRent := calculateNetRent rental (st_cumulativeInflationFactor st) in
  let payment := p_paymentBeforeRental (period config st) in
  payment <= netRent ->
  rentalContribution e == payment
  /\ rentBasedExtra e == netRent - payment
  /\ userOutOfPocket e == manualExtra e + fee e.
Proof.
  intros Hr He Hri Happly Hact st netRent payment Hcov.
  destruct (calculateSchedule_nth config r k e Hr He) as [-> _].
  rewrite <- (stateAt_month config k) in Hact.
  destruct (period_rent_covers config st rental Hri Happly Hact Hcov) as (H1 & H2 & H3).
  cbn [entryOf rentalContribution rentBasedExtra userOutOfPocket manualExtra fee].
  fold st; rewrite H1, H2, H3; repeat split; reflexivity.
Qed.

(** ** Rental income that is not applied *)

Lemma period_unapplied config rental st :
  applyToLoan rental = false ->
  period (withRentalIncome config (Some rental)) st
  = period (withRentalIncome config None) st.
Proof.
  intros H; unfold period; cbv zeta.
  cbn [rentalIncome withRentalIncome]; rewrite H, andb_false_r; reflexivity.
Qed.

Lemma loop_unapplied config rental fuel : forall st,
  applyToLoan rental = false ->
  loop (withRentalIncome config (Some rental)) fuel st
  = loop (withRentalIncome config None) fuel st.
Proof.
  induction fuel as [|fuel IH]; intros st H; [reflexivity|]; simpl.
  change (loopCond (withRentalIncome config (Some rental)) st)
    with (loopCond (withRentalIncome config None) st).
  destruct (loopCond (withRentalIncome config None) st); [|reflexivity].
  unfold loopBody; rewrite (period_unapplied config rental st H).
  apply IH; exact H.
Qed.

(** C10: a rental object whose [applyToLoan] flag is false has no influence:
    the run with it and the run with [rentalIncome = null] return the same
    schedule and the same summary. *)
Theorem unapplied_rental_is_ignored (config : LoanConfiguration) rental :
  applyToLoan rental = false ->
  calculateSchedule (withRentalIncome config (Some rental))
  = calculateSchedule (withRentalIncome config None).
Proof.
  intros H; unfold calculateSchedule.
  change (loanAmount (withRentalIncome config (Some rental)))
    with (loanAmount (withRentalIncome config None)).
  destruct (JS.le (loanAmount (withRentalIncome config None)) 0); [reflexivity|].
  cbv zeta.
  change (initialState (withRentalIncome config (Some rental)))
    with (initialState (withRentalIncome config None)).
  rewrite (loop_unapplied config rental 600 _ H); reflexivity.
Qed.

(** ** The loan balance at sale *)


(** ** Equal principal *)

Section EqualPrincipal.
Variable config : LoanConfiguration.
Variable N : nat.
Hypothesis Hamount : 0 < loanAmount config.
Hypothesis Htype : cfg_loanType config = nonIndexedEqualPrincipal.
Hypothesis HN : (1 <= N)%nat.
Hypothesis Hterm : loanTermYears config * 12 == JS.of_nat N.
Hypothesis Hextra : cfg_extraPayment config <= 0.
Hypothesis Hfixed : cfg_fixedPayment config <= 0.
Hypothesis Hrental :
  forall rental, rentalIncome config = Some rental -> applyToLoan rental = false.

(** the constant slice *)
Local Abbreviation u := (loanAmount config / totalMonths config).

Lemma ep_N_pos : 0 < JS.of_nat N.
Proof. unfold JS.of_nat; change 0 with (inject_Z 0); rewrite <- Zlt_Qlt; lia. Qed.

Lemma ep_slice_total : loanAmount config == u * JS.of_nat N.
Proof.
  unfold u, totalMonths; rewrite Hterm; field.
  pose proof ep_N_pos; lra.
Qed.

Lemma ep_slice_pos : 0 < u.
Proof.
  pose proof ep_slice_total as Ht; pose proof ep_N_pos as Hn.
  destruct (Qlt_le_dec 0 u) as [H|H]; [exact H|exfalso].
  assert (u * JS.of_nat N <= 0) by nra.
  lra.
Qed.

Lemma ep_rentalApplied m :
  rentalActive config m
  && match rentalIncome config with
     | Some rental => applyToLoan rental
     | None => false
     end = false.
Proof.
  destruct (rentalIncome config) as [rental|] eqn:E; [|apply andb_false_r].
  rewrite (Hrental rental eq_refl); apply andb_false_r.
Qed.

(** the principal and the new balance of a period of a plain equal-principal
    loan, as the body computes them *)
Lemma ep_period st :
  let b := st_balance st in
  let i := (b + b * 0) * monthlyInterestRate config in
  let x :=
    if cfg_acceleratedPayoff config
    then loanAmount config / totalMonths config
    else (b + b * 0)
         / JS.Math_max 1 (totalMonths config - JS.of_nat (S (st_month st)) + 1) in
  let a := JS.Math_max 0 (JS.Math_min (x + i + 0 + 0 - i) (b + b * 0)) in
  p_actualPrincipal (period config st) = a
  /\ p_balance (period config st)
     = (if JS.lt (b + b * 0 - a) (1 # 100) then 0 else b + b * 0 - a).
Proof.
  cbv zeta; unfold period; cbv zeta; cbn [p_actualPrincipal p_balance].
  rewrite ep_rentalApplied.
  unfold monthlyInflationRate, isIndexed, isEqualPrincipal; rewrite Htype.
  cbn [LoanType_eqb].
  unfold JS.gt; rewrite (JSFacts.lt_intro_false _ _ Hextra).
  rewrite (JSFacts.lt_intro_false _ _ Hfixed); cbn [andb].
  destruct (cfg_acceleratedPayoff config); split; reflexivity.
Qed.

Lemma ep_remaining j :
  (j < N)%nat ->
  JS.Math_max 1 (totalMonths config - JS.of_nat (S j) + 1)
  == JS.of_nat N - JS.of_nat j
  /\ 1 <= JS.of_nat N - JS.of_nat j.
Proof.
  intros Hj.
  assert (H1 : JS.of_nat (S j) <= JS.of_nat N) by (apply JSFacts.of_nat_le; lia).
  pose proof (JSFacts.of_nat_S j) as HS.
  unfold totalMonths; js_case; split; lra.
Qed.

Lemma ep_step st :
  loopCond config st = true ->
  ep_balance u N (st_month st) (st_balance st) ->
  ep_principal u (p_actualPrincipal (period config st))
  /\ ep_balance u N (S (st_month st)) (p_balance (period config st)).
Proof.
  intros Hc Hb.
  destruct (ep_period st) as [Ha Hbal]; rewrite Ha, Hbal; clear Ha Hbal.
  pose proof ep_slice_pos as Hu.
  unfold loopCond in Hc; apply andb_true_iff in Hc; destruct Hc as [Hc _].
  set (j := st_month st) in *; set (b := st_balance st) in *.
  set (s := loanAmount config / totalMonths config) in *; clearbody s.
  pose proof (JSFacts.of_nat_S j) as HS.
(* every branch continues with a slice [x] that is [u], or 0 on an empty balance *)
  assert (Hx : exists x : Q,
             (if cfg_acceleratedPayoff config
              then s
              else (b + b * 0)
                   / JS.Math_max 1 (totalMonths config - JS.of_nat (S j) + 1)) = x
             /\ (((j < N)%nat /\ b == s * (JS.of_nat N - JS.of_nat j)
                  /\ 1 <= JS.of_nat N - JS.of_nat j /\ x == s)
                 \/ (b == 0 /\ s < 1 # 100 /\ x == 0))).
  { eexists; split; [reflexivity|].
    destruct (cfg_acceleratedPayoff config).
    - apply JSFacts.lt_true in Hc.
      destruct Hb as [[Hj Hb]|[Hb _]]; [|lra].
      assert (Hlt : (j < N)%nat).
      { destruct (Nat.eq_dec j N) as [->|]; [|lia].
        assert (b == 0) by (rewrite Hb; ring). lra. }
      left; split; [exact Hlt|split; [exact Hb|split; [|reflexivity]]].
      assert (JS.of_nat (S j) <= JS.of_nat N) by (apply JSFacts.of_nat_le; lia).
      lra.
    - apply JSFacts.lt_true in Hc.
      assert (Hlt : (j < N)%nat).
      { apply JSFacts.of_nat_lt; unfold totalMonths in Hc; rewrite Hterm in Hc; exact Hc. }
      destruct (ep_remaining j Hlt) as [HR H1].
      destruct Hb as [[Hj Hb]|[Hb Hsmall]].
      + left; split; [exact Hlt|split; [exact Hb|split; [exact H1|]]].
        rewrite HR, Hb; field; intros H0; lra.
      + right; split; [exact Hb|split; [exact Hsmall|]].
        rewrite HR, Hb; field; intros H0; lra. }
  destruct Hx as (x & -> & Hx).
  set (i := (b + b * 0) * monthlyInterestRate config); clearbody i.
  unfold ep_principal, ep_balance.
  destruct Hx as [(Hlt & Hb' & H1 & Hxu)|(Hb0 & Hsmall & Hx0)].
  - assert (Hub : s <= b) by (rewrite Hb'; nra).
    assert (Hnext : b - s == s * (JS.of_nat N - JS.of_nat (S j)))
      by (rewrite Hb', HS; ring).
    destruct (Nat.eq_dec (S j) N) as [HeqN|HneN].
    + assert (Hz : b - s == 0) by (rewrite Hnext, HeqN; ring).
      js_case; (split; [left; lra|left; split; [lia|]]); rewrite <- Hnext; lra.
    + assert (H2 : JS.of_nat (S (S j)) <= JS.of_nat N) by (apply JSFacts.of_nat_le; lia).
      rewrite JSFacts.of_nat_S in H2.
      assert (Hrest : s <= b - s) by (rewrite Hnext; nra).
      js_case; (split; [left; lra|]);
        first [ right; split; lra
              | left; split; [lia|rewrite <- Hnext; lra] ].
  - js_case; split; right; split; lra.
Qed.

Lemma ep_stateAt n :
  (forall j, (j < n)%nat -> loopCond config (stateAt config j) = true) ->
  ep_balance u N n (st_balance (stateAt config n))
  /\ forall j, (j < n)%nat ->
       ep_principal u (p_actualPrincipal (period config (stateAt config j))).
Proof.
  induction n as [|n IH]; intros Hc.
  - split; [|intros; lia].
    left; split; [lia|]; cbn [stateAt Nat.iter initialState st_balance].
    pose proof ep_slice_total as Ht; change (JS.of_nat 0) with 0.
    set (s := loanAmount config / totalMonths config) in *; rewrite Ht; ring.
  - destruct IH as [Hb Hp]; [intros; apply Hc; lia|].
    pose proof (ep_step (stateAt config n) (Hc n ltac:(lia))) as Hs.
    rewrite stateAt_month in Hs; destruct (Hs Hb) as [Hp' Hb'].
    split; [rewrite stateAt_balance; exact Hb'|].
    intros j Hj; destruct (Nat.eq_dec j n) as [->|]; [exact Hp'|apply Hp; lia].
Qed.

Lemma ep_entries r e :
  calculateSchedule config = Some r ->
  In e (schedule r) ->
  ep_principal u (principal e).
Proof.
  intros Hr Hin.
  apply In_nth_error in Hin; destruct Hin as [k Hk].
  destruct (calculateSchedule_run config r Hr) as (n & _ & Hs & _ & Ht & _).
  assert (Hkn : (k < n)%nat).
  { rewrite <- (stateAt_length config n), <- Hs; apply nth_error_Some; congruence. }
  destruct (calculateSchedule_nth config r k e Hr Hk) as [-> _].
  cbn [entryOf principal]; apply (proj2 (ep_stateAt n Ht)); exact Hkn.
Qed.

End EqualPrincipal.

(** C5, amended: for an equal-principal loan over a whole number [N >= 1] of
    months, with no extra payment, no fixed payment and no rent applied, every
    entry's principal is [loanAmount / totalMonths], or 0 once the rounding
    guard has cleared a balance below 0.01, which needs a slice below 0.01;
    for 12,000,000 over 10 years every principal is 100,000. *)
Theorem equal_principal_constant (config : LoanConfiguration) (N : nat) :
  0 < loanAmount config ->
  cfg_loanType config = nonIndexedEqualPrincipal ->
  (1 <= N)%nat ->
  loanTermYears config * 12 == JS.of_nat N ->
  cfg_extraPayment config <= 0 ->
  cfg_fixedPayment config <= 0 ->
  (forall rental, rentalIncome config = Some rental -> applyToLoan rental = false) ->
  exists r,
    calculateSchedule config = Some r
    /\ Forall
         (fun e =>
            (principal e == loanAmount config / totalMonths config
             \/ (principal e == 0
                 /\ loanAmount config / totalMonths config < 1 # 100))
            /\ (loanAmount config == 12000000 -> loanTermYears config == 10 ->
                principal e == 100000))
         (schedule r).
Proof.
  intros Hamount Htype HN Hterm Hextra Hfixed Hrental.
  destruct (calculateSchedule_some config Hamount) as [r Hr].
  exists r; split; [exact Hr|].
  apply Forall_forall; intros e Hin.
  pose proof (ep_entries config N Hamount Htype HN Hterm Hextra Hfixed Hrental r e Hr Hin) as H.
  unfold ep_principal in H; split; [exact H|].
  intros HL HY.
  assert (Hu : loanAmount config / totalMonths config == 100000).
  { unfold totalMonths; rewrite HL, HY; reflexivity. }
  rewrite Hu in H; destruct H as [H|[_ H]]; [exact H|].
  exfalso; revert H; apply Qle_not_lt; discriminate.
Qed.

(** ** The two annuity engines *)

Lemma loop_stop config fuel st :
  loopCond config st = false -> loop config fuel st = st.
Proof. intros H; destruct fuel; simpl; [reflexivity|now rewrite H]. Qed.

Lemma Forall2_nth_error {A B} (R : A -> B -> Prop) l1 l2 :
  Forall2 R l1 l2 ->
  forall k a b, nth_error l1 k = Some a -> nth_error l2 k = Some b -> R a b.
Proof.
  induction 1 as [|x y l1 l2 Hxy _ IH]; intros [|k] a b Ha Hb;
    simpl in *; try discriminate.
  - injection Ha as <-; injection Hb as <-; exact Hxy.
  - eapply IH; eassumption.
Qed.

Lemma lt_compat a a' b : a == a' -> JS.lt b a = JS.lt b a'.
Proof.
  intros H; destruct (JS.lt b a) eqn:E1, (JS.lt b a') eqn:E2;
    try reflexivity; js_prop; lra.
Qed.

(** the [for] loop of [calculateStandardLoan] stops on its own: by its
    condition or by its [break], never for want of fuel *)
Lemma std_loop_exits_from P rate years extra fee fuel : forall st,
  (601 <= LoanCalculations.st_month st + fuel)%nat ->
  let final := LoanCalculations.loop P rate years extra fee fuel st in
  LoanCalculations.loopCond final = false
  \/ JS.le (LoanCalculations.st_balance final) 0 = true.
Proof.
  induction fuel as [|fuel IH]; intros st Hm; cbn [LoanCalculations.loop].
  - left; unfold LoanCalculations.loopCond.
    replace (LoanCalculations.st_month st <=? 600)%nat with false; [reflexivity|].
    symmetry; apply Nat.leb_gt; lia.
  - destruct (LoanCalculations.loopCond st) eqn:Hc; [|left; exact Hc].
    destruct (JS.le (LoanCalculations.st_balance
                       (LoanCalculations.loopBody P rate years extra fee st)) 0)
      eqn:Hb; [right; exact Hb|].
    apply IH; cbn [LoanCalculations.increment LoanCalculations.loopBody
                   LoanCalculations.st_month]; lia.
Qed.

Lemma std_loop_exits P rate years extra fee :
  let final :=
    LoanCalculations.loop P rate years extra fee 600
      (LoanCalculations.initialState P) in
  LoanCalculations.loopCond final = false
  \/ JS.le (LoanCalculations.st_balance final) 0 = true.
Proof. apply std_loop_exits_from; cbn [LoanCalculations.initialState LoanCalculations.st_month]; lia. Qed.

Section Standard.
Variables (P rate years : Q) (extra fee : option Q).
Hypothesis HP : 0 < P.
Hypothesis Hrate : 0 < rate.
Hypothesis Hyears : 0 < years.
Hypothesis Hextra : 0 <= JS.dflt 0 extra.
Hypothesis Hpow : 1 < Math_pow (1 + rate / 12) (years * 12).

Local Abbreviation cfg := (standardAsSchedule P rate years extra fee).
Local Abbreviation base := (LoanCalculations.basePayment P rate years).

Lemma std_monthly_rate_pos : 0 < rate / 12.
Proof. apply Qlt_shift_div_l; [reflexivity|lra]. Qed.

(** the annuity payment covers the interest on the whole principal *)
Lemma std_base_covers : P * (rate / 12) <= base.
Proof.
  unfold LoanCalculations.basePayment, LoanCalculations.monthlyRate,
    LoanCalculations.totalMonths.
  set (f := Math_pow (1 + rate / 12) (years * 12)) in *.
  clearbody f; apply Qle_shift_div_l; [lra|].
  pose proof std_monthly_rate_pos as Hr.
  assert (Hq : 0 <= P * (rate / 12)) by (apply Qmult_le_0_compat; lra).
  setoid_replace (P * (rate / 12 * f)) with (P * (rate / 12) * f) by ring.
  set (q := P * (rate / 12)) in *; clearbody q; lra.
Qed.

Lemma std_basePayment : basePayment cfg = base.
Proof.
  unfold basePayment, isEqualPrincipal, cfg_loanType; cbn [loanType standardAsSchedule JS.dflt LoanType_eqb].
  replace (JS.strict_eq (monthlyInterestRate cfg) 0) with false; [reflexivity|].
  symmetry; destruct (JS.strict_eq (monthlyInterestRate cfg) 0) eqn:E; [|reflexivity].
  apply JSFacts.strict_eq_true in E; unfold monthlyInterestRate in E;
    cbn [annualInterestRate standardAsSchedule] in E.
  pose proof std_monthly_rate_pos; lra.
Qed.

(** one period of [calculateSchedule] on the standard configuration *)
Lemma std_period st :
  let b := st_balance st in
  let i := (b + b * 0) * (rate / 12) in
  let me := if JS.lt 0 (JS.dflt 0 extra) then JS.dflt 0 extra else 0 in
  let a := JS.Math_max 0 (JS.Math_min (base + me + 0 - i) (b + b * 0)) in
  p_month (period cfg st) = S (st_month st)
  /\ p_interest (period cfg st) = i
  /\ p_actualPrincipal (period cfg st) = a
  /\ p_balance (period cfg st)
     = (if JS.lt (b + b * 0 - a) (1 # 100) then 0 else b + b * 0 - a).
Proof.
  cbv zeta; unfold period; cbv zeta.
  cbn [p_month p_interest p_actualPrincipal p_balance].
  rewrite std_basePayment.
  repeat split; reflexivity.
Qed.

Lemma std_step sl sc :
  LoanCalculations.st_month sl = S (st_month sc) ->
  st_balance sc == LoanCalculations.st_balance sl ->
  1 # 100 < LoanCalculations.st_balance sl <= P ->
  let sl' := LoanCalculations.loopBody P rate years extra fee sl in
  let bl' := LoanCalculations.st_balance sl' in
  0 <= bl' <= P
  /\ st_balance (loopBody cfg sc) == (if JS.lt bl' (1 # 100) then 0 else bl')
  /\ exists el,
       LoanCalculations.st_schedule sl' = LoanCalculations.st_schedule sl ++ [el]
       /\ entriesAgree el (entryOf cfg (period cfg sc)).
Proof.
  intros Hm Hb Hbl; cbv zeta.
  destruct (std_period sc) as (Hpm & Hpi & Hpa & Hpb).
  pose proof std_base_covers as Hbase.
  unfold entriesAgree, loopBody, LoanCalculations.loopBody.
  cbn [LoanCalculations.st_balance LoanCalculations.st_schedule st_balance
       entryOf LoanCalculator.month LoanCalculator.interest
       LoanCalculator.principal LoanCalculator.balance].
  rewrite Hpm, Hpi, Hpa, Hpb; clear Hpm Hpi Hpa Hpb.
  unfold LoanCalculations.extraPayment, LoanCalculations.monthlyRate.
  set (bl := LoanCalculations.st_balance sl) in *.
  set (bc := st_balance sc) in *.
  set (x := JS.dflt 0 extra) in *.
  set (B := LoanCalculations.basePayment P rate years) in *.
  assert (Hi : (bc + bc * 0) * (rate / 12) == bl * (rate / 12)) by (rewrite Hb; ring).
  pose proof std_monthly_rate_pos as Hr.
  assert (Hil : bl * (rate / 12) <= P * (rate / 12))
    by (apply Qmult_le_compat_r; lra).
  set (ic := (bc + bc * 0) * (rate / 12)) in *.
  set (il := bl * (rate / 12)) in *.
  clearbody ic il B x.
  split; [|split].
  - js_case; lra.
  - js_case; lra.
  - eexists; split; [reflexivity|].
    cbn [LoanCalculations.month LoanCalculations.interest
         LoanCalculations.principal LoanCalculations.balance].
    split; [exact Hm|split; [lra|split]]; js_case; lra.
Qed.

Lemma std_loops_agree fuel : forall sl sc,
  loopsInStep P sl sc ->
  Forall2 entriesAgree
    (LoanCalculations.st_schedule (LoanCalculations.loop P rate years extra fee fuel sl))
    (st_schedule (loop cfg fuel sc)).
Proof.
  induction fuel as [|fuel IH]; intros sl sc (Hm & Hs & Hb); [exact Hs|].
  cbn [loop LoanCalculations.loop].
  unfold LoanCalculations.loopCond, loopCond.
  cbn [cfg_acceleratedPayoff acceleratedPayoff standardAsSchedule JS.dflt].
  unfold JS.gt.
  destruct Hb as [[Hb Hr]|[Hb Hr]].
  - rewrite Hm, (lt_compat _ _ (1 # 100) Hb).
    change (S (st_month sc) <=? 600)%nat with (st_month sc <? 600)%nat.
    rewrite andb_comm.
    destruct (JS.lt (1 # 100) (LoanCalculations.st_balance sl)
              && (st_month sc <? 600)%nat) eqn:Hc; [|exact Hs].
    apply andb_true_iff in Hc; destruct Hc as [Hc _]; apply JSFacts.lt_true in Hc.
    destruct (std_step sl sc Hm Hb (conj Hc (proj2 Hr)))
      as (Hr' & Hb' & el & Hsl & Hel).
    destruct (JS.le (LoanCalculations.st_balance
                       (LoanCalculations.loopBody P rate years extra fee sl)) 0)
      eqn:Hbreak.
    + apply JSFacts.le_true in Hbreak.
      rewrite loop_stop.
      * rewrite Hsl; cbn [loopBody st_schedule].
        apply Forall2_app; [exact Hs|constructor; [exact Hel|constructor]].
      * unfold loopCond.
        cbn [cfg_acceleratedPayoff acceleratedPayoff standardAsSchedule JS.dflt].
        replace (JS.gt (st_balance (loopBody cfg sc)) (1 # 100)) with false;
          [reflexivity|].
        symmetry; apply JSFacts.lt_intro_false; rewrite Hb'; js_case; lra.
    + apply JSFacts.le_false in Hbreak.
      apply IH; split; [|split].
      * cbn [LoanCalculations.increment LoanCalculations.st_month
             LoanCalculations.loopBody loopBody st_month].
        destruct (std_period sc) as (-> & _); rewrite Hm; reflexivity.
      * cbn [LoanCalculations.increment LoanCalculations.st_schedule].
        rewrite Hsl; cbn [loopBody st_schedule].
        apply Forall2_app; [exact Hs|constructor; [exact Hel|constructor]].
      * cbn [LoanCalculations.increment LoanCalculations.st_balance].
        revert Hb'; js_case; intros Hb'; [right|left]; (split; [exact Hb'|lra]).
  - replace (JS.lt (1 # 100) (LoanCalculations.st_balance sl)) with false
      by (symmetry; apply JSFacts.lt_intro_false; lra).
    replace (JS.lt (1 # 100) (st_balance sc)) with false
      by (symmetry; apply JSFacts.lt_intro_false; lra).
    rewrite andb_false_r; exact Hs.
Qed.

Lemma std_results_agree :
  exists rl rc,
    LoanCalculations.calculateStandardLoan P rate years extra fee = Some rl
    /\ calculateSchedule cfg = Some rc
    /\ Forall2 entriesAgree (LoanCalculations.schedule rl) (schedule rc).
Proof.
  unfold LoanCalculations.calculateStandardLoan, calculateSchedule.
  cbn [loanAmount standardAsSchedule].
  rewrite (JSFacts.le_intro_false _ _ HP), (JSFacts.le_intro_false _ _ Hyears).
  cbn [orb]; cbv zeta.
  eexists; eexists; split; [reflexivity|split; [reflexivity|]].
  cbn [LoanCalculations.schedule schedule].
  apply std_loops_agree; split; [reflexivity|split; [constructor|left]].
  cbn [initialState LoanCalculations.initialState st_balance
       LoanCalculations.st_balance loanAmount standardAsSchedule].
  split; [reflexivity|lra].
Qed.

End Standard.

(** C9, amended: for a positive loan amount, rate and term and an extra
    payment of 0 or more, [calculateStandardLoan] and [calculateSchedule]
    (non-indexed annuity, [acceleratedPayoff]) return schedules of the same
    length with the same interest and principal month by month; the
    [calculateSchedule] balance is the [calculateStandardLoan] balance, except
    that it is 0 where the latter is below 0.01.  ([Math.pow] is taken to
    give a factor above 1 at base [1 + rate / 12] and exponent
    [years * 12].) *)
Theorem standard_loan_agrees (P rate years : Q) (extra fee : option Q) :
  0 < P -> 0 < rate -> 0 < years ->
  0 <= JS.dflt 0 extra -> 0 <= JS.dflt 0 fee ->
  1 < Math_pow (1 + rate / 12) (years * 12) ->
  exists rl rc,
    LoanCalculations.calculateStandardLoan P rate years extra fee = Some rl
    /\ calculateSchedule (standardAsSchedule P rate years extra fee) = Some rc
    /\ length (LoanCalculations.schedule rl) = length (schedule rc)
    /\ forall k el ec,
         nth_error (LoanCalculations.schedule rl) k = Some el ->
         nth_error (schedule rc) k = Some ec ->
         LoanCalculations.interest el == interest ec
         /\ LoanCalculations.principal el == principal ec
         /\ balance ec
            == (if JS.lt (LoanCalculations.balance el) (1 # 100) then 0
                else LoanCalculations.balance el).
Proof.
  intros HP Hrate Hyears Hextra _ Hpow.
  destruct (std_results_agree P rate years extra fee HP Hrate Hyears Hextra Hpow)
    as (rl & rc & Hl & Hc & Hall).
  exists rl, rc; split; [exact Hl|split; [exact Hc|split]].
  - eapply Forall2_length; exact Hall.
  - intros k el ec Hel Hec.
    destruct (Forall2_nth_error _ _ _ Hall k el ec Hel Hec) as (_ & H).
    exact H.
Qed.

End Properties.

(** C8 as stated fails at a negative principal: the guard answers 0 where
    [P / n] is -10. *)
Lemma calculateAnnuityPayment_negative_principal :
  ~ (LoanCalculator.calculateAnnuityPayment (MP := Qpow) (-100) 0 10 == -100 / 10).
Proof. vm_compute; discriminate. Qed.

Lemma calculateAnnuityPayment_zero_rate_witness :
  LoanCalculator.calculateAnnuityPayment (MP := Qpow) 1200 0 12 == 1200 / 12.
Proof.
  apply (proj1 (@calculateAnnuityPayment_zero_rate Qpow 1200 12)); reflexivity.
Defined.


(** ** The rules on sample loans *)

Section Samples.
Import LoanCalculator.
Existing Instance Qpow.

(** C2 as stated fails under a monthly fee: the recorded total payment of
    the first entry of [feeLoan] is 410, fee included, its principal 400. *)
Lemma principal_rule_fee_counterexample :
  exists r e,
    calculateSchedule feeLoan = Some r
    /\ nth_error (schedule r) 0 = Some e
    /\ ~ principal e
         == JS.Math_max 0
              (JS.Math_min (totalPaymentToLoan e - interest e)
                 (balanceBefore feeLoan (schedule r) 0 + inflation e)).
Proof.
  eexists; eexists; split; [vm_compute; reflexivity|].
  split; [vm_compute; reflexivity|].
  vm_compute; discriminate.
Qed.

Lemma principal_rule_witness :
  exists r e,
    calculateSchedule feeLoan = Some r
    /\ nth_error (schedule r) 0 = Some e
    /\ principal e
       == JS.Math_max 0
            (JS.Math_min (totalPaymentToLoan e - fee e - interest e)
               (balanceBefore feeLoan (schedule r) 0 + inflation e)).
Proof.
  destruct (calculateSchedule_some feeLoan eq_refl) as [r Hr].
  destruct (nth_error (schedule r) 0) as [e|] eqn:He.
  - exists r, e; split; [exact Hr|split; [exact He|]].
    exact (@principal_rule Qpow feeLoan r 0%nat e eq_refl Hr He).
  - exfalso; vm_compute in Hr; injection Hr as <-; discriminate He.
Defined.

(** C3 as stated fails under a monthly fee: the rent of [rentedLoan] (840)
    covers the payment (400), yet the first entry records an out-of-pocket
    amount of 10, the fee, against a manual extra of 0. *)
Lemma rent_covers_fee_counterexample :
  exists r e rental,
    calculateSchedule rentedLoan = Some r
    /\ nth_error (schedule r) 0 = Some e
    /\ rentalIncome rentedLoan = Some rental
    /\ applyToLoan rental = true
    /\ p_paymentBeforeRental (period rentedLoan (stateAt rentedLoan 0))
       <= calculateNetRent rental
            (st_cumulativeInflationFactor (stateAt rentedLoan 0))
    /\ ~ userOutOfPocket e == manualExtra e.
Proof.
  eexists; eexists; eexists; split; [vm_compute; reflexivity|].
  split; [vm_compute; reflexivity|].
  split; [reflexivity|].
  split; [reflexivity|].
  split; [vm_compute; discriminate|vm_compute; discriminate].
Qed.

Lemma rent_covers_payment_witness :
  exists r e,
    calculateSchedule rentedLoan = Some r
    /\ nth_error (schedule r) 0 = Some e
    /\ rentalContribution e
       == p_paymentBeforeRental (period rentedLoan (stateAt rentedLoan 0))
    /\ rentBasedExtra e
       == calculateNetRent (sampleRental true None)
            (st_cumulativeInflationFactor (stateAt rentedLoan 0))
          - p_paymentBeforeRental (period rentedLoan (stateAt rentedLoan 0))
    /\ userOutOfPocket e == manualExtra e + fee e.
Proof.
  destruct (calculateSchedule_some rentedLoan eq_refl) as [r Hr].
  destruct (nth_error (schedule r) 0) as [e|] eqn:He.
  - exists r, e; split; [exact Hr|split; [exact He|]].
    apply (@rent_covers_payment Qpow rentedLoan r 0%nat e (sampleRental true None)
             Hr He eq_refl eq_refl eq_refl).
    vm_compute; discriminate.
  - exfalso; vm_compute in Hr; injection Hr as <-; discriminate He.
Defined.

(** C4 as stated fails at a rate of 0: [feeLoan] is computed as usual, its
    schedule is not empty. *)
Lemma zero_rate_not_signalled :
  ~ (annualInterestRate feeLoan <= 0 ->
     calculateSchedule feeLoan = None
     \/ exists r, calculateSchedule feeLoan = Some r /\ schedule r = []).
Proof.
  intros H.
  destruct (H ltac:(discriminate)) as [H0|(r & Hr & He)].
  - vm_compute in H0; discriminate.
  - vm_compute in Hr; injection Hr as <-; discriminate.
Qed.

Lemma calculateSchedule_null_or_result_witness :
  calculateSchedule nullLoan = None
  /\ exists r, calculateSchedule noTermLoan = Some r /\ schedule r = [].
Proof.
  split.
  - apply (proj1 (@calculateSchedule_null_or_result Qpow nullLoan)); discriminate.
  - destruct (proj2 (@calculateSchedule_null_or_result Qpow noTermLoan) eq_refl)
      as (r & Hr & He).
    exists r; split; [exact Hr|apply He; [discriminate|reflexivity]].
Defined.

(** C5 as stated fails when the term is not a whole number of months:
    [oddTermLoan] runs a month and a half, its slice is 8,000,000, and the
    second, last period pays the 4,000,000 that are left. *)
Lemma equal_principal_odd_term_counterexample :
  exists r e,
    calculateSchedule oddTermLoan = Some r
    /\ nth_error (schedule r) 1 = Some e
    /\ 1000000 < Qabs (principal e - loanAmount oddTermLoan / totalMonths oddTermLoan).
Proof.
  eexists; eexists; split; [vm_compute; reflexivity|].
  split; [vm_compute; reflexivity|].
  vm_compute; reflexivity.
Qed.

Lemma equal_principal_constant_witness :
  exists r,
    calculateSchedule tenYearLoan = Some r
    /\ Forall (fun e => principal e == 100000) (schedule r).
Proof.
  destruct (@equal_principal_constant Qpow tenYearLoan 120)
    as (r & Hr & Hall);
    [reflexivity|reflexivity|lia|reflexivity|discriminate|discriminate
    |intros rental Hrental; discriminate Hrental|].
  exists r; split; [exact Hr|].
  eapply Forall_impl; [|exact Hall].
  intros e [_ H]; apply H; reflexivity.
Defined.


Lemma unapplied_rental_is_ignored_witness :
  calculateSchedule (withRentalIncome feeLoan (Some (sampleRental false (Some 2))))
  = calculateSchedule (withRentalIncome feeLoan None).
Proof. apply (@unapplied_rental_is_ignored Qpow); reflexivity. Defined.

(** C9 as stated fails on the last balance: an extra payment that leaves
    0.005 of a loan of 30,301 after the first month ends both schedules
    there; [calculateStandardLoan] records the 0.005, [calculateSchedule]
    clears it to 0. *)
Lemma standard_loan_balance_counterexample :
  exists rl rc el ec,
    LoanCalculations.calculateStandardLoan
      30301 (12 # 100) (1 # 4) (Some (20300995 # 1000)) None = Some rl
    /\ calculateSchedule
         (standardAsSchedule 30301 (12 # 100) (1 # 4) (Some (20300995 # 1000)) None)
       = Some rc
    /\ nth_error (LoanCalculations.schedule rl) 0 = Some el
    /\ nth_error (schedule rc) 0 = Some ec
    /\ ~ LoanCalculations.balance el == balance ec.
Proof.
  eexists; eexists; eexists; eexists.
  split; [vm_compute; reflexivity|].
  split; [vm_compute; reflexivity|].
  split; [vm_compute; reflexivity|].
  split; [vm_compute; reflexivity|].
  vm_compute; discriminate.
Qed.

Lemma standard_loan_agrees_witness :
  exists rl rc,
    LoanCalculations.calculateStandardLoan
      30301 (12 # 100) (1 # 4) (Some (20300995 # 1000)) None = Some rl
    /\ calculateSchedule
         (standardAsSchedule 30301 (12 # 100) (1 # 4) (Some (20300995 # 1000)) None)
       = Some rc
    /\ length (LoanCalculations.schedule rl) = length (schedule rc)
    /\ forall k el ec,
         nth_error (LoanCalculations.schedule rl) k = Some el ->
         nth_error (schedule rc) k = Some ec ->
         LoanCalculations.interest el == interest ec
         /\ LoanCalculations.principal el == principal ec
         /\ balance ec
            == (if JS.lt (LoanCalculations.balance el) (1 # 100) then 0
                else LoanCalculations.balance el).
Proof.
  apply (@standard_loan_agrees Qpow);
    [reflexivity|reflexivity|reflexivity|discriminate|discriminate
    |vm_compute; reflexivity].
Defined.

End Samples.

(** * Further properties of [calculateSchedule] *)

Section Ledger.
Context {MP : MathPow}.
Import LoanCalculator.

(** X1: the entries are numbered 1, 2, ... in order, and the summary's
    [termMonths] is the number of entries. *)
Theorem schedule_months (config : LoanConfiguration) r :
  calculateSchedule config = Some r ->
  termMonths (summary r) = length (schedule r)
  /\ forall k e, nth_error (schedule r) k = Some e -> month e = S k.
Proof.
  intros Hr; split.
  - destruct (calculateSchedule_run config r Hr) as (n & _ & Hs & Hsum & _).
    rewrite Hs, Hsum; cbn [summaryOf termMonths].
    now rewrite stateAt_month, stateAt_length.
  - intros k e He.
    destruct (calculateSchedule_nth config r k e Hr He) as [-> _].
    cbn [entryOf month period p_month]; now rewrite stateAt_month.
Qed.

Lemma period_split config st :
  p_totalPaymentToLoan (period config st)
  == p_userOutOfPocket (period config st)
     + p_rentalContribution (period config st)
     + p_rentBasedExtra (period config st).
Proof.
  unfold period; cbv zeta.
  cbn [p_totalPaymentToLoan p_userOutOfPocket p_rentalContribution p_rentBasedExtra].
  match goal with |- context [if ?b then _ else _] =>
    match b with andb (rentalActive _ _) _ => destruct b end end;
    [|ring].
  match goal with |- context [if JS.ge ?a ?b then _ else _] => destruct (JS.ge a b) end;
    ring.
Qed.

(** X2: every entry splits its total payment to the loan between the
    user and the rent: [totalPaymentToLoan] = [userOutOfPocket] +
    [rentalContribution] + [rentBasedExtra]. *)
Theorem payment_split (config : LoanConfiguration) r e :
  calculateSchedule config = Some r ->
  In e (schedule r) ->
  totalPaymentToLoan e
  == userOutOfPocket e + rentalContribution e + rentBasedExtra e.
Proof.
  intros Hr Hin; apply In_nth_error in Hin; destruct Hin as [k Hk].
  destruct (calculateSchedule_nth config r k e Hr Hk) as [-> _].
  cbn [entryOf totalPaymentToLoan userOutOfPocket rentalContribution rentBasedExtra].
  rewrite period_split; ring.
Qed.

Lemma sum_by_snoc {A} (f : A -> Q) l x :
  JS.sum_by f (l ++ [x]) = JS.sum_by f l + f x.
Proof. unfold JS.sum_by; now rewrite fold_left_app. Qed.

Lemma period_unapplied_zero config st :
  p_rentalApplied (period config st) = false ->
  p_rentalContribution (period config st) = 0
  /\ p_rentBasedExtra (period config st) = 0.
Proof.
  unfold period; cbv zeta.
  cbn [p_rentalApplied p_rentalContribution p_rentBasedExtra].
  intros ->; split; reflexivity.
Qed.

Lemma totals_stateAt config n :
  let st := stateAt config n in
  st_totalInterest st == JS.sum_by interest (st_schedule st)
  /\ st_totalInflation st == JS.sum_by inflation (st_schedule st)
  /\ st_totalFees st == JS.sum_by fee (st_schedule st)
  /\ st_totalPaidByUser st == JS.sum_by userOutOfPocket (st_schedule st)
  /\ st_totalPaidToLoan st == JS.sum_by totalPaymentToLoan (st_schedule st)
  /\ st_totalRentalContribution st
     == JS.sum_by (fun e => rentalContribution e + rentBasedExtra e) (st_schedule st).
Proof.
  induction n as [|n IH]; cbv zeta.
  - repeat split; reflexivity.
  - cbv zeta in IH; destruct IH as (H1 & H2 & H3 & H4 & H5 & H6).
    rewrite stateAt_S.
    cbn [loopBody st_totalInterest st_totalInflation st_totalFees st_totalPaidByUser
         st_totalPaidToLoan st_totalRentalContribution st_schedule].
    rewrite !sum_by_snoc.
    cbn [entryOf interest inflation fee userOutOfPocket totalPaymentToLoan
         rentalContribution rentBasedExtra].
    rewrite H1, H2, H3, H4, H5.
    repeat (split; [reflexivity|]).
    destruct (p_rentalApplied (period config (stateAt config n))) eqn:Ha.
    + rewrite H6; reflexivity.
    + destruct (period_unapplied_zero config _ Ha) as [-> ->]; rewrite H6; ring.
Qed.

(** X3: the totals of the summary are the sums of the recorded entry
    fields: interest, inflation, fees, what the user paid, what went to the
    loan, and what the rent contributed. *)
Theorem summary_totals (config : LoanConfiguration) r :
  calculateSchedule config = Some r ->
  totalInterest (summary r) == JS.sum_by interest (schedule r)
  /\ totalInflation (summary r) == JS.sum_by inflation (schedule r)
  /\ totalFees (summary r) == JS.sum_by fee (schedule r)
  /\ totalPaidByUser (summary r) == JS.sum_by userOutOfPocket (schedule r)
  /\ totalPaidToLoan (summary r) == JS.sum_by totalPaymentToLoan (schedule r)
  /\ totalRentalContribution (summary r)
     == JS.sum_by (fun e => rentalContribution e + rentBasedExtra e) (schedule r).
Proof.
  intros Hr.
  destruct (calculateSchedule_run config r Hr) as (n & _ & Hs & Hsum & _).
  rewrite Hs, Hsum.
  cbn [summaryOf totalInterest totalInflation totalFees totalPaidByUser
       totalPaidToLoan totalRentalContribution].
  exact (totals_stateAt config n).
Qed.










Lemma of_nat_lt_ceiling j (t : Q) :
  JS.of_nat j < t <-> (j < Z.to_nat (Qceiling t))%nat.
Proof.
  unfold JS.of_nat; split; intros H.
  - assert (Hz : (Z.of_nat j < Qceiling t)%Z).
    { rewrite Zlt_Qlt; eapply Qlt_le_trans; [exact H|apply Qle_ceiling]. }
    lia.
  - assert (Hz : (Z.of_nat j <= Qceiling t - 1)%Z) by lia.
    rewrite Zle_Qle in Hz.
    eapply Qle_lt_trans; [exact Hz|apply Qceiling_lt].
Qed.

(** X7: without [acceleratedPayoff] the schedule has one entry per started
    month of the term, whatever is paid: their number is [loanTermYears * 12]
    rounded up (0 for a term of 0 or less), capped at 600. *)
Theorem fixed_term_length (config : LoanConfiguration) r :
  calculateSchedule config = Some r ->
  cfg_acceleratedPayoff config = false ->
  length (schedule r)
  = Nat.min (Z.to_nat (Qceiling (loanTermYears config * 12))) 600.
Proof.
  intros Hr Hacc.
  destruct (calculateSchedule_run config r Hr) as (n & Hn & Hs & _ & Ht & Hf).
  rewrite Hs, stateAt_length.
  set (T := Z.to_nat (Qceiling (loanTermYears config * 12))).
  assert (Hcond : forall j, loopCond config (stateAt config j)
                            = ((j <? T)%nat && (j <? 600)%nat)).
  { intros j; unfold loopCond; rewrite Hacc, stateAt_month.
    f_equal; unfold totalMonths.
    destruct (JS.lt (JS.of_nat j) (loanTermYears config * 12)) eqn:E;
      symmetry.
    - apply Nat.ltb_lt, of_nat_lt_ceiling; now apply JSFacts.lt_true.
    - apply Nat.ltb_ge; apply JSFacts.lt_false in E.
      destruct (Nat.lt_ge_cases j T) as [Hlt|Hge]; [|exact Hge].
      apply of_nat_lt_ceiling in Hlt; lra. }
  rewrite Hcond in Hf.
  apply andb_false_iff in Hf.
  assert (Hle : (n <= T /\ n <= 600)%nat).
  { destruct n as [|n]; [lia|].
    specialize (Ht n ltac:(lia)); rewrite Hcond in Ht.
    apply andb_true_iff in Ht; destruct Ht as [H1 H2].
    apply Nat.ltb_lt in H1, H2; lia. }
  destruct Hf as [Hf|Hf]; apply Nat.ltb_ge in Hf; lia.
Qed.

Lemma period_rent_applied config st rental :
  rentalIncome config = Some rental ->
  applyToLoan rental = true ->
  rentalActive config (S (st_month st)) = true ->
  let netRent := calculateNetRent rental (st_cumulativeInflationFactor st) in
  p_rentalContribution (period config st) + p_rentBasedExtra (period config st)
  == netRent
  /\ p_rentalContribution (period config st) <= netRent.
Proof.
  intros Hri Happly Hact; cbv zeta.
  unfold period; cbv zeta; cbn [p_rentalContribution p_rentBasedExtra].
  rewrite Hri, Hact, Happly; cbn [andb].
  match goal with |- context [if JS.ge ?a ?b then _ else _] =>
    destruct (JS.ge a b) eqn:E; unfold JS.ge in E; js_prop end;
    split; lra.
Qed.

Lemma period_rentBasedExtra_nonneg config st :
  0 <= p_rentBasedExtra (period config st).
Proof.
  unfold period; cbv zeta; cbn [p_rentBasedExtra].
  match goal with |- context [if ?b then _ else _] =>
    match b with andb (rentalActive _ _) _ => destruct b end end;
    [|lra].
  match goal with |- context [if JS.ge ?a ?b then _ else _] =>
    destruct (JS.ge a b) eqn:E; unfold JS.ge in E; js_prop end;
    lra.
Qed.

Lemma period_rentalApplied config st :
  p_rentalApplied (period config st)
  = rentalActive config (S (st_month st))
    && match rentalIncome config with
       | Some rental => applyToLoan rental
       | None => false
       end.
Proof. reflexivity. Qed.

(** X8: rent applied to the loan goes to the loan in full, and only
    within the rental duration.  In a period in which the rent is applied,
    [rentalContribution] + [rentBasedExtra] is that period's net rent, the
    contribution being at most the net rent and the surplus at least 0; in a
    period past the rental duration, or without a rental object, or with
    [applyToLoan] off, both are 0. *)
Theorem rent_applied_in_full (config : LoanConfiguration) r k e :
  calculateSchedule config = Some r ->
  nth_error (schedule r) k = Some e ->
  (forall rental,
     rentalIncome config = Some rental ->
     applyToLoan rental = true ->
     rentalActive config (S k) = true ->
     let netRent :=
       calculateNetRent rental (st_cumulativeInflationFactor (stateAt config k)) in
     rentalContribution e + rentBasedExtra e == netRent
     /\ rentalContribution e <= netRent
     /\ 0 <= rentBasedExtra e)
  /\ ((rentalActive config (S k) = false
       \/ forall rental, rentalIncome config = Some rental ->
                         applyToLoan rental = false) ->
      rentalContribution e == 0 /\ rentBasedExtra e == 0).
Proof.
  intros Hr He.
  destruct (calculateSchedule_nth config r k e Hr He) as [-> _].
  cbn [entryOf rentalContribution rentBasedExtra]; split.
  - intros rental Hri Happly Hact; cbv zeta.
    rewrite <- (stateAt_month config k) in Hact.
    destruct (period_rent_applied config _ rental Hri Happly Hact) as [H1 H2].
    split; [exact H1|split; [exact H2|apply period_rentBasedExtra_nonneg]].
  - intros Hoff.
    assert (Ha : p_rentalApplied (period config (stateAt config k)) = false).
    { rewrite period_rentalApplied, stateAt_month.
      destruct Hoff as [->|Hoff]; [reflexivity|].
      destruct (rentalIncome config) as [rental|]; [|apply andb_false_r].
      rewrite (Hoff rental eq_refl); apply andb_false_r. }
    destruct (period_unapplied_zero config _ Ha) as [-> ->]; split; reflexivity.
Qed.

(** *** The last period of a fixed term *)




Section LastPeriod.
Variable config : LoanConfiguration.
Variable N : nat.
Hypothesis Hpos : 0 < loanAmount config.
Hypothesis Hacc : cfg_acceleratedPayoff config = false.
Hypothesis HN : (1 <= N)%nat.
Hypothesis Hterm : loanTermYears config * 12 == JS.of_nat N.
Hypothesis Hpow : forall x y, y == 1 -> Math_pow x y == x.
Hypothesis Hinfl : 0 < 1 + monthlyInflationRate config.




End LastPeriod.


End Ledger.

(** * Further properties of the investment metrics *)

Section Investment.
Context {MP : MathPow}.
Import LoanCalculator.

Lemma nth_error_map_seq {A} (f : nat -> A) n y :
  (y < n)%nat -> nth_error (map f (seq 0 n)) y = Some (f y).
Proof.
  intros H; rewrite nth_error_map, nth_error_seq.
  replace (y <? n)%nat with true by (symmetry; apply Nat.ltb_lt; exact H).
  reflexivity.
Qed.

Lemma of_nat_mul12 y : (1 <= y)%nat ->
  JS.of_nat y * 12 - 1 == JS.of_nat (12 * y - 1).
Proof.
  intros H; unfold JS.of_nat.
  replace (Z.of_nat (12 * y - 1)) with (Z.of_nat y * 12 - 1)%Z by lia.
  unfold Zminus; rewrite inject_Z_plus, inject_Z_mult; reflexivity.
Qed.

Lemma of_nat_le_iff n m : JS.of_nat n <= JS.of_nat m <-> (n <= m)%nat.
Proof. unfold JS.of_nat; rewrite <- Zle_Qle; lia. Qed.

(** X10: the yearly timeline has one point per year from 0 to the
    schedule length in years, rounded up.  Point 0 carries the starting
    balance of the first entry; the point of a year that ends within the
    schedule carries the balance of that year's last entry; the point of a
    year that ends past the schedule carries 0; equity is property value less
    loan balance throughout. *)
Theorem yearly_breakdown_points
    (sched : list ScheduleEntry) (price rate : Q) :
  let pts := calculateYearlyBreakdown sched price rate in
  length pts = S (Z.to_nat (Qceiling (JS.of_nat (length sched) / 12)))
  /\ forall y pt,
       nth_error pts y = Some pt ->
       year pt = y
       /\ equity pt == propertyValue pt - loanBalance pt
       /\ (y = 0%nat ->
           loanBalance pt
           == match sched with e :: _ => balanceStart e | [] => 0 end)
       /\ ((1 <= y)%nat -> (12 * y <= length sched)%nat ->
           exists e, nth_error sched (12 * y - 1) = Some e
                     /\ loanBalance pt == balance e)
       /\ ((length sched < 12 * y)%nat -> loanBalance pt == 0).
Proof.
  cbv zeta; unfold calculateYearlyBreakdown; cbv zeta.
  set (maxYears := Z.to_nat (Qceiling (JS.of_nat (length sched) / 12))).
  split; [now rewrite length_map, length_seq|].
  intros y pt Hpt.
  assert (Hy : (y < S maxYears)%nat).
  { match type of Hpt with
    | nth_error ?l _ = _ =>
        assert (H : (y < length l)%nat)
          by (apply nth_error_Some; rewrite Hpt; discriminate)
    end.
    now rewrite length_map, length_seq in H. }
  rewrite (nth_error_map_seq _ _ _ Hy) in Hpt; injection Hpt as <-.
  cbn [year equity propertyValue loanBalance].
  split; [reflexivity|split; [reflexivity|split; [|split]]].
  - intros ->; cbn [Nat.eqb nth_error].
    destruct sched as [|e0 sched']; [reflexivity|apply JSFacts.or0_eq].
  - intros H1 H12.
    destruct y as [|y']; [lia|]; set (y := S y') in *; cbn [Nat.eqb].
    pose proof (of_nat_mul12 y H1) as Hidx.
    destruct (nth_error sched (12 * y - 1)) as [e|] eqn:He;
      [|apply nth_error_None in He; lia].
    exists e; split; [reflexivity|].
    unfold JS.ge.
    replace (JS.le (JS.of_nat (length sched)) (JS.of_nat y * 12 - 1)) with false.
    + rewrite (JSFacts.index_whole sched _ _ Hidx), He; apply JSFacts.or0_eq.
    + symmetry; apply JSFacts.le_intro_false; rewrite Hidx.
      unfold JS.of_nat; rewrite <- Zlt_Qlt; lia.
  - intros Hlt.
    destruct y as [|y']; [lia|]; set (y := S y') in *; cbn [Nat.eqb].
    unfold JS.ge.
    replace (JS.le (JS.of_nat (length sched)) (JS.of_nat y * 12 - 1)) with true;
      [reflexivity|].
    symmetry; apply JSFacts.le_intro.
    rewrite (of_nat_mul12 y) by lia; apply of_nat_le_iff; lia.
Qed.

Lemma metrics_fields config sched m :
  ic_schedule config = Some sched ->
  calculateInvestmentMetrics config = Some m ->
  let monthsHeld := holdingYears config * 12 in
  let counted :=
    firstn (Z.to_nat (Qceiling (JS.Math_min monthsHeld (JS.of_nat (length sched)))))
      sched in
  loanBalanceAtSale m
  = (if JS.ge monthsHeld (JS.of_nat (length sched)) then 0
     else match JS.index sched (monthsHeld - 1) with
          | Some e => JS.or0 (balance e)
          | None => 0
          end)
  /\ breakdownByYear m
     = calculateYearlyBreakdown sched (propertyPrice config) (appreciationRate config)
  /\ totalInvested m
     = propertyPrice config * (downPaymentPercent config / 100) + loanFee config
  /\ totalCashInvested m
     = fold_left (fun s e => s + userOutOfPocket e) counted (totalInvested m)
  /\ totalCashFromRent m
     = fold_left (fun s e => s + (rentalContribution e + rentBasedExtra e)) counted 0.
Proof.
  intros Hs Hm; unfold calculateInvestmentMetrics in Hm; rewrite Hs in Hm.
  cbv zeta in Hm; injection Hm as <-; cbv zeta.
  cbn [loanBalanceAtSale breakdownByYear totalInvested totalCashInvested
       totalCashFromRent].
  repeat split; reflexivity.
Qed.

(** X11: the balance at sale and the yearly timeline read the same
    schedule: for a holding period of a whole number [y >= 1] of years that
    ends before the schedule does, [loanBalanceAtSale] is the loan balance of
    timeline point [y]. *)
Theorem sale_balance_on_timeline (config : InvestmentConfig) sched m (y : nat) :
  ic_schedule config = Some sched ->
  calculateInvestmentMetrics config = Some m ->
  holdingYears config == JS.of_nat y ->
  (1 <= y)%nat ->
  (12 * y < length sched)%nat ->
  exists pt,
    nth_error (breakdownByYear m) y = Some pt
    /\ loanBalance pt == loanBalanceAtSale m.
Proof.
  intros Hs Hm Hy H1 Hlt.
  destruct (metrics_fields config sched m Hs Hm) as (Hb & Hbd & _); cbv zeta in Hb.
  rewrite Hbd, Hb; clear Hb Hbd.
  pose proof (of_nat_mul12 y H1) as Hidx.
  assert (Hidx' : holdingYears config * 12 - 1 == JS.of_nat (12 * y - 1))
    by (rewrite Hy; exact Hidx).
  assert (Hmax : (y < S (Z.to_nat (Qceiling (JS.of_nat (length sched) / 12))))%nat).
  { assert (Hq : JS.of_nat y < JS.of_nat (length sched) / 12).
    { apply Qlt_shift_div_l; [reflexivity|].
      assert (H : JS.of_nat (S (12 * y)) <= JS.of_nat (length sched))
        by (apply JSFacts.of_nat_le; lia).
      rewrite JSFacts.of_nat_S in H.
      assert (H12 : JS.of_nat (12 * y) == JS.of_nat y * 12).
      { unfold JS.of_nat; rewrite Nat2Z.inj_mul, inject_Z_mult; simpl; ring. }
      lra. }
    apply of_nat_lt_ceiling in Hq; lia. }
  unfold calculateYearlyBreakdown; cbv zeta.
  rewrite (nth_error_map_seq _ _ _ Hmax).
  eexists; split; [reflexivity|]; cbn [loanBalance].
  destruct y as [|y']; [lia|]; set (y := S y') in *; cbn [Nat.eqb].
  unfold JS.ge.
  assert (Hlt1 : JS.of_nat y * 12 - 1 < JS.of_nat (length sched)).
  { rewrite Hidx; unfold JS.of_nat; rewrite <- Zlt_Qlt; lia. }
  assert (Hlt2 : holdingYears config * 12 < JS.of_nat (length sched)).
  { rewrite Hy.
    setoid_replace (JS.of_nat y * 12) with (JS.of_nat (12 * y - 1) + 1)
      by (rewrite <- Hidx; ring).
    rewrite <- JSFacts.of_nat_S; unfold JS.of_nat; rewrite <- Zlt_Qlt; lia. }
  rewrite (JSFacts.le_intro_false _ _ Hlt1), (JSFacts.le_intro_false _ _ Hlt2).
  rewrite (JSFacts.index_whole sched _ _ Hidx), (JSFacts.index_whole sched _ _ Hidx').
  reflexivity.
Qed.

Lemma fold_left_sum {A} (f : A -> Q) l init :
  fold_left (fun s x => s + f x) l init == init + JS.sum_by f l.
Proof.
  unfold JS.sum_by; revert init.
  induction l as [|x l IH] using rev_ind; intros init; simpl; [ring|].
  rewrite !fold_left_app; simpl; rewrite IH; ring.
Qed.

(** X12: over a holding period that covers the whole schedule the metrics
    add up the schedule: with the schedule of a [calculateSchedule] result,
    [totalCashInvested] is [totalInvested] plus the summary's
    [totalPaidByUser], and [totalCashFromRent] is the summary's
    [totalRentalContribution]. *)
Theorem metrics_match_summary
    (loan : LoanConfiguration) r (config : InvestmentConfig) m :
  calculateSchedule loan = Some r ->
  ic_schedule config = Some (schedule r) ->
  calculateInvestmentMetrics config = Some m ->
  JS.of_nat (length (schedule r)) <= holdingYears config * 12 ->
  totalCashInvested m == totalInvested m + totalPaidByUser (summary r)
  /\ totalCashFromRent m == totalRentalContribution (summary r).
Proof.
  intros Hr Hs Hm Hhold.
  destruct (metrics_fields config _ m Hs Hm) as (_ & _ & _ & Hci & Hcr);
    cbv zeta in Hci, Hcr.
  assert (Hcount : Z.to_nat (Qceiling (JS.Math_min (holdingYears config * 12)
                                         (JS.of_nat (length (schedule r)))))
                   = length (schedule r)).
  { assert (Hmin : JS.Math_min (holdingYears config * 12)
                     (JS.of_nat (length (schedule r)))
                   == JS.of_nat (length (schedule r))) by (js_case; lra).
    rewrite Hmin; unfold JS.of_nat; rewrite Qceiling_Z; apply Nat2Z.id. }
  rewrite Hcount, firstn_all in Hci, Hcr.
  rewrite Hci, Hcr, !fold_left_sum.
  destruct (calculateSchedule_run loan r Hr) as (n & _ & Hsch & Hsum & _).
  destruct (totals_stateAt loan n) as (_ & _ & _ & H4 & _ & H6); cbv zeta in H4, H6.
  rewrite Hsum, Hsch; cbn [summaryOf totalPaidByUser totalRentalContribution].
  rewrite H4, H6; split; ring.
Qed.

End Investment.


(** * Properties of [RentalCalculator] *)

Section Rental.
Context {MP : MathPow}.
Import RentalCalculator.

Lemma sum_by_compat {A} (f g : A -> Q) l :
  (forall x, f x == g x) -> JS.sum_by f l == JS.sum_by g l.
Proof.
  intros H; induction l as [|x l IH] using rev_ind; [reflexivity|].
  rewrite !sum_by_snoc, IH, H; reflexivity.
Qed.

Lemma sum_by_scale {A} (f : A -> Q) (c : Q) l :
  JS.sum_by (fun x => f x * c) l == JS.sum_by f l * c.
Proof.
  induction l as [|x l IH] using rev_ind; [unfold JS.sum_by; simpl; ring|].
  rewrite !sum_by_snoc, IH; ring.
Qed.

Lemma sum_by_map {A B} (f : B -> Q) (g : A -> B) l :
  JS.sum_by f (map g l) = JS.sum_by (fun x => f (g x)) l.
Proof.
  induction l as [|x l IH] using rev_ind; [reflexivity|].
  rewrite map_app; cbn [map]; now rewrite !sum_by_snoc, IH.
Qed.

Lemma netRentOf_compat g g' t v c c' i f f' :
  g == g' -> c == c' -> f == f' ->
  netRentOf g t v c i f == netRentOf g' t v c' i f'.
Proof.
  intros Hg Hc Hf; unfold netRentOf; cbv zeta.
  apply Math_max_compat; [reflexivity|].
  destruct i; rewrite Hg, Hc, ?Hf; reflexivity.
Qed.

Lemma breakdown_netRent config :
  netRent (calculateMonthlyBreakdown config)
  = netRentOf (grossRent config)
      (JS.dflt (11 # 100) (taxRate config))
      (JS.dflt (5 # 100) (vacancyRate config))
      (JS.dflt 0 (propertyTax config) + JS.dflt 0 (insurance config)
       + JS.dflt 0 (maintenance config) + JS.dflt 0 (hoaFees config)
       + JS.sum_by (fun c => JS.or0 (amount c)) (JS.dflt [] (customCosts config)))
      (JS.dflt true (indexed config))
      (JS.dflt 1 (inflationFactor config)).
Proof. reflexivity. Qed.

(** X13: the rental breakdown is consistent with itself and with the
    engine.  Its net rent is never negative and is the (indexed) gross rent
    less the total deductions, floored at 0; the total deductions are tax,
    vacancy and operating costs; the itemised operating costs add up to the
    operating deduction; and the net rent is what
    [LoanCalculator.calculateNetRent] computes at the same inflation factor
    from a rental object with the same rent and rates, the operating costs
    summed, and rent and costs indexed alike. *)
Theorem breakdown_consistent
    (config : RentalConfig) (rental : LoanCalculator.RentalIncomeConfig) :
  let b := calculateMonthlyBreakdown config in
  (0 <= netRent b
   /\ netRent b == JS.Math_max 0 (mb_grossRent b - totalDeductions b)
   /\ totalDeductions b
      == tax (deductions b) + vacancy (deductions b) + operating (deductions b)
   /\ ob_propertyTax (operatingBreakdown b) + ob_insurance (operatingBreakdown b)
      + ob_maintenance (operatingBreakdown b) + ob_hoaFees (operatingBreakdown b)
      + JS.sum_by amount (custom (operatingBreakdown b))
      == operating (deductions b))
  /\ (LoanCalculator.grossRent rental = grossRent config ->
      JS.dflt (11 # 100) (LoanCalculator.taxRate rental)
      = JS.dflt (11 # 100) (taxRate config) ->
      JS.dflt (5 # 100) (LoanCalculator.vacancyRate rental)
      = JS.dflt (5 # 100) (vacancyRate config) ->
      JS.dflt 0 (LoanCalculator.operatingCosts rental)
      == JS.dflt 0 (propertyTax config) + JS.dflt 0 (insurance config)
         + JS.dflt 0 (maintenance config) + JS.dflt 0 (hoaFees config)
         + JS.sum_by (fun c => JS.or0 (amount c)) (JS.dflt [] (customCosts config)) ->
      JS.dflt true (LoanCalculator.indexed rental) = JS.dflt true (indexed config) ->
      JS.dflt true (LoanCalculator.indexCosts rental) = JS.dflt true (indexed config) ->
      netRent b
      == LoanCalculator.calculateNetRent rental (JS.dflt 1 (inflationFactor config))).
Proof.
  cbv zeta; split; [split; [|split; [|split]]|].
  - rewrite breakdown_netRent; unfold netRentOf; cbv zeta.
    apply JSFacts.Math_max_ge_l.
  - unfold calculateMonthlyBreakdown; cbv zeta.
    cbn [netRent mb_grossRent totalDeductions].
    apply Math_max_compat; [reflexivity|ring].
  - reflexivity.
  - unfold calculateMonthlyBreakdown; cbv zeta.
    cbn [operatingBreakdown deductions ob_propertyTax ob_insurance ob_maintenance
         ob_hoaFees custom operating].
    rewrite sum_by_map; cbn [amount].
    set (l := JS.dflt [] (customCosts config)).
    set (F := JS.dflt 1 (inflationFactor config)).
    pose proof (sum_by_scale amount F l) as H1.
    pose proof (sum_by_compat (fun c => JS.or0 (amount c)) amount l
                  (fun c => JSFacts.or0_eq (amount c))) as H2.
    destruct (JS.dflt true (indexed config)).
    + rewrite H1, H2; ring.
    + rewrite H2; reflexivity.
  - intros Hg Ht Hv Hc Hi Hic.
    rewrite breakdown_netRent.
    unfold LoanCalculator.calculateNetRent, netRentOf; cbv zeta.
    rewrite Hg, Ht, Hv, Hi, Hic.
    apply Math_max_compat; [reflexivity|].
    destruct (JS.dflt true (indexed config)); rewrite Hc; reflexivity.
Qed.

(** X14: the cashflow of a rental.  The monthly benefit is net rent less
    loan payment whether or not the rent is applied to the loan, and the
    annual benefit twelve times that.  With the rent applied, the user's
    out-of-pocket amount and the surplus towards principal are both at least
    0, never both above 0, and differ by loan payment less net rent; with
    the rent kept apart the user pays the whole loan payment and no surplus
    goes to principal. *)
Theorem cashflow_balance (config : CashflowConfig) :
  let c := calculateCashflow config in
  let net := netRent (calculateMonthlyBreakdown (rentalConfig config)) in
  monthlyBenefit c == net - loanPayment config
  /\ annualBenefit c == (net - loanPayment config) * 12
  /\ (rentCoversLoan c = true <-> loanPayment config <= net)
  /\ (JS.dflt false (applyRentToLoan config) = true ->
      0 <= userOutOfPocket c
      /\ 0 <= surplusTowardsPrincipal c
      /\ (userOutOfPocket c == 0 \/ surplusTowardsPrincipal c == 0)
      /\ userOutOfPocket c - surplusTowardsPrincipal c == loanPayment config - net)
  /\ (JS.dflt false (applyRentToLoan config) = false ->
      userOutOfPocket c = loanPayment config
      /\ surplusTowardsPrincipal c = 0).
Proof.
  cbv zeta; unfold calculateCashflow; cbv zeta.
  cbn [monthlyBenefit annualBenefit rentCoversLoan userOutOfPocket
       surplusTowardsPrincipal].
  set (net := netRent (calculateMonthlyBreakdown (rentalConfig config))).
  set (pay := loanPayment config).
  clearbody net pay.
  assert (Hcov : JS.ge net pay = true <-> pay <= net).
  { unfold JS.ge; split; [apply JSFacts.le_true|apply JSFacts.le_intro]. }
  destruct (JS.dflt false (applyRentToLoan config)).
  - destruct (JS.ge net pay) eqn:E.
    + pose proof (proj1 Hcov eq_refl) as Hle.
      split; [ring|split; [ring|split; [exact Hcov|split; [|discriminate]]]].
      intros _; split; [lra|split; [lra|split; [left; reflexivity|ring]]].
    + assert (Hlt : net < pay) by (unfold JS.ge in E; now apply JSFacts.le_false).
      split; [ring|split; [ring|split; [exact Hcov|split; [|discriminate]]]].
      intros _; split; [lra|split; [lra|split; [right; reflexivity|ring]]].
  - split; [ring|split; [ring|split; [exact Hcov|split; [discriminate|]]]].
    intros _; split; reflexivity.
Qed.


Lemma yearConfig_first (config : ProjectionConfig) :
  (forall x y, y == 0 -> Math_pow x y == 1) ->
  mb_grossRent (calculateMonthlyBreakdown (yearConfig config 1))
  == mb_grossRent (calculateMonthlyBreakdown (baseRentalConfig config))
  /\ netRent (calculateMonthlyBreakdown (yearConfig config 1))
     == netRent (calculateMonthlyBreakdown (baseRentalConfig config)).
Proof.
  intros Hpow.
  assert (H0 : JS.of_nat 1 - 1 == 0) by reflexivity.
  set (base := baseRentalConfig config).
  set (rf := Math_pow (1 + JS.dflt (3 # 100) (annualRentIncrease config))
               (JS.of_nat 1 - 1)).
  set (cf := Math_pow (1 + JS.dflt (2 # 100) (annualCostIncrease config))
               (JS.of_nat 1 - 1)).
  assert (Hrf : rf == 1) by (apply Hpow; exact H0).
  assert (Hcf : cf == 1) by (apply Hpow; exact H0).
  assert (Hyc : yearConfig config 1
                = {| grossRent := grossRent base * rf;
                     taxRate := taxRate base;
                     vacancyRate := vacancyRate base;
                     propertyTax := Some (JS.opt_or0 (propertyTax base) * cf);
                     insurance := Some (JS.opt_or0 (insurance base) * cf);
                     maintenance := Some (JS.opt_or0 (maintenance base) * cf);
                     hoaFees := Some (JS.opt_or0 (hoaFees base) * cf);
                     customCosts :=
                       Some (map (fun c => {| name := name c; amount := amount c * cf |})
                               (JS.dflt [] (customCosts base)));
                     indexed := indexed base;
                     inflationFactor := inflationFactor base |}) by reflexivity.
  rewrite Hyc; clearbody rf cf; clear Hyc.
  split.
  - unfold calculateMonthlyBreakdown; cbv zeta.
    cbn [mb_grossRent grossRent indexed inflationFactor].
    destruct (JS.dflt true (indexed base)); rewrite Hrf; ring.
  - rewrite !breakdown_netRent.
    cbn [grossRent taxRate vacancyRate propertyTax insurance maintenance hoaFees
         customCosts indexed inflationFactor].
    apply netRentOf_compat; [rewrite Hrf; ring| |reflexivity].
    cbn [JS.dflt]; rewrite sum_by_map; cbn [amount].
    set (l := JS.dflt [] (customCosts base)).
    assert (Hsum : JS.sum_by (fun c => JS.or0 (amount c * cf)) l
                   == JS.sum_by (fun c => JS.or0 (amount c)) l).
    { apply sum_by_compat; intros c; rewrite !JSFacts.or0_eq, Hcf; ring. }
    rewrite Hsum, Hcf; unfold JS.opt_or0.
    destruct (propertyTax base), (insurance base), (maintenance base), (hoaFees base);
      cbn [JS.dflt]; rewrite ?JSFacts.or0_eq; ring.
Qed.

(** X16: a rental projection has one row for each whole year from 1 to
    [years], in order; in every row the net rent is at least 0 and the
    annual figures are twelve times the monthly ones; and the first row is
    the breakdown of the base configuration ([Math.pow] being taken to
    return 1 at exponent 0). *)
Theorem projection_rows (config : ProjectionConfig) (years : Q) :
  let rows := projectRentalIncome config years in
  length rows = Z.to_nat (Qfloor years)
  /\ (forall k row,
        nth_error rows k = Some row ->
        year row = S k
        /\ 0 <= monthlyNet row
        /\ annualGross row == monthlyGross row * 12
        /\ annualNet row == monthlyNet row * 12)
  /\ ((forall x y, y == 0 -> Math_pow x y == 1) ->
      forall row,
        nth_error rows 0 = Some row ->
        monthlyGross row
        == mb_grossRent (calculateMonthlyBreakdown (baseRentalConfig config))
        /\ monthlyNet row
           == netRent (calculateMonthlyBreakdown (baseRentalConfig config))).
Proof.
  cbv zeta; unfold projectRentalIncome.
  set (n := Z.to_nat (Qfloor years)).
  split; [now rewrite length_map, length_seq|].
  assert (Hnth : forall k row,
             nth_error
               (map (fun year =>
                       let breakdown := calculateMonthlyBreakdown (yearConfig config year) in
                       {| year := year;
                          monthlyGross := mb_grossRent breakdown;
                          monthlyNet := netRent breakdown;
                          annualGross := mb_grossRent breakdown * 12;
                          annualNet := netRent breakdown * 12 |})
                    (seq 1 n)) k = Some row ->
             row = (let breakdown := calculateMonthlyBreakdown (yearConfig config (S k)) in
                    {| year := S k;
                       monthlyGross := mb_grossRent breakdown;
                       monthlyNet := netRent breakdown;
                       annualGross := mb_grossRent breakdown * 12;
                       annualNet := netRent breakdown * 12 |})).
  { intros k row H; rewrite nth_error_map, nth_error_seq in H.
    destruct (k <? n)%nat; [|discriminate H].
    cbn [option_map] in H; injection H as <-; reflexivity. }
  split.
  - intros k row H; rewrite (Hnth k row H); cbv zeta.
    cbn [year monthlyNet annualGross monthlyGross annualNet].
    split; [reflexivity|split; [|split; reflexivity]].
    rewrite breakdown_netRent; unfold netRentOf; cbv zeta.
    apply JSFacts.Math_max_ge_l.
  - intros Hpow row H; rewrite (Hnth 0%nat row H); cbv zeta.
    cbn [monthlyGross monthlyNet]; apply yearConfig_first; exact Hpow.
Qed.

End Rental.

(** * Properties of loan-calculations.js *)

Section Legacy.
Context {MP : MathPow}.
Import LoanCalculations.

Lemma Some_inj {A} (a b : A) : Some a = Some b -> a = b.
Proof. intros H; congruence. Qed.

Section StandardBounds.
Variables (P rate years : Q) (extra fee : option Q).

Local Abbreviation level :=
  (basePayment P rate years + extraPayment extra + paymentFee fee).

Local Abbreviation entryOk k e :=
  (month e = S k
   /\ 0 <= balance e
   /\ payment e == level
   /\ interest e + principal e <= payment e - paymentFee fee).



End StandardBounds.


Lemma le_compat a a' b : a == a' -> JS.le a b = JS.le a' b.
Proof.
  intros H; destruct (JS.le a b) eqn:E1, (JS.le a' b) eqn:E2;
    try reflexivity; js_prop; lra.
Qed.

Section IndexedFlat.
Variables (P rate infl years : Q) (extra fee : option Q).
Hypothesis Hflat : monthlyInflation infl == 0.

Lemma ix_step si ss :
  ix_month si = st_month ss ->
  ix_balance si == st_balance ss ->
  ix_inflationFactor si == 1 ->
  let si' := indexedBody P rate infl years extra fee si in
  let ss' := loopBody P rate years extra fee ss in
  ix_month si' = st_month ss'
  /\ ix_balance si' == st_balance ss'
  /\ ix_inflationFactor si' == 1
  /\ ix_totalInterest si' - ix_totalInterest si
     == st_totalInterest ss' - st_totalInterest ss
  /\ ix_totalPaid si' - ix_totalPaid si == st_totalPaid ss' - st_totalPaid ss
  /\ ix_totalInflation si' == ix_totalInflation si
  /\ exists ei es,
       ix_schedule si' = ix_schedule si ++ [ei]
       /\ st_schedule ss' = st_schedule ss ++ [es]
       /\ entryEq ei es.
Proof.
  intros Hm Hb Hf; cbv zeta; unfold indexedBody, loopBody; cbv zeta.
  cbn [ix_month ix_balance ix_inflationFactor ix_totalInterest ix_totalPaid
       ix_totalInflation ix_schedule st_month st_balance st_totalInterest
       st_totalPaid st_schedule].
  set (mi := monthlyInflation infl) in *.
  set (bi := ix_balance si) in *; set (bs := st_balance ss) in *.
  set (r := monthlyRate rate).
  set (B := basePayment P rate years).
  set (x := extraPayment extra).
  set (F := ix_inflationFactor si) in *.
  assert (Hinfl : bi * mi == 0) by (rewrite Hflat; ring).
  assert (Hb1 : bi + bi * mi == bs) by (rewrite Hinfl, Hb; ring).
  assert (Hint : (bi + bi * mi) * r == bs * r) by (rewrite Hb1; reflexivity).
  assert (Hpay : B * F + x == B + x) by (rewrite Hf; ring).
  assert (Hprin : JS.Math_min (B * F + x - (bi + bi * mi) * r) (bi + bi * mi)
                  == JS.Math_min (B + x - bs * r) bs).
  { apply Math_min_compat; [rewrite Hpay, Hint; reflexivity|exact Hb1]. }
  split; [exact Hm|split; [rewrite Hprin, Hb1; reflexivity|split]].
  { rewrite Hf, Hflat; ring. }
  split; [rewrite Hint; ring|split; [rewrite Hpay; ring|split; [rewrite Hinfl; ring|]]].
  eexists; eexists; split; [reflexivity|split; [reflexivity|]].
  unfold entryEq; cbn [month inflation interest principal payment balance].
  split; [exact Hm|split; [exact Hinfl|split; [exact Hint|split; [exact Hprin|split]]]].
  - rewrite Hpay; reflexivity.
  - apply Math_max_compat; [reflexivity|rewrite Hprin, Hb1; reflexivity].
Qed.

Lemma ix_loops fuel : forall si ss,
  ix_month si = st_month ss ->
  ix_balance si == st_balance ss ->
  ix_inflationFactor si == 1 ->
  ix_totalInterest si == st_totalInterest ss ->
  ix_totalPaid si == st_totalPaid ss ->
  ix_totalInflation si == 0 ->
  Forall2 entryEq (ix_schedule si) (st_schedule ss) ->
  let fi := indexedLoop P rate infl years extra fee fuel si in
  let fs := loop P rate years extra fee fuel ss in
  Forall2 entryEq (ix_schedule fi) (st_schedule fs)
  /\ ix_totalInterest fi == st_totalInterest fs
  /\ ix_totalPaid fi == st_totalPaid fs
  /\ ix_totalInflation fi == 0.
Proof.
  induction fuel as [|fuel IH]; intros si ss Hm Hb Hf Hti Htp Htf Hs;
    cbn [indexedLoop loop]; [repeat split; assumption|].
  unfold indexedCond, loopCond, JS.gt.
  rewrite Hm, (lt_compat _ _ (1 # 100) Hb).
  destruct ((st_month ss <=? 600)%nat && JS.lt (1 # 100) (st_balance ss));
    [|repeat split; assumption].
  destruct (ix_step si ss Hm Hb Hf)
    as (Hm' & Hb' & Hf' & Hti' & Htp' & Htf' & ei & es & Hsi & Hss & He).
  assert (Hs' : Forall2 entryEq
                  (ix_schedule (indexedBody P rate infl years extra fee si))
                  (st_schedule (loopBody P rate years extra fee ss))).
  { rewrite Hsi, Hss; apply Forall2_app; [exact Hs|constructor; [exact He|constructor]]. }
  rewrite (le_compat _ _ 0 Hb').
  destruct (JS.le (st_balance (loopBody P rate years extra fee ss)) 0).
  - split; [exact Hs'|split; [lra|split; [lra|lra]]].
  - apply IH; cbn [indexedIncrement increment ix_month st_month ix_balance st_balance
                   ix_inflationFactor ix_totalInterest st_totalInterest ix_totalPaid
                   st_totalPaid ix_totalInflation ix_schedule st_schedule];
      try assumption; try lra.
    now rewrite Hm'.
Qed.

End IndexedFlat.

(** X18: an indexed loan without inflation is the standard annuity.  When
    the monthly inflation rate is 0 (as it is for an annual inflation of 0),
    [calculateIndexedLoan] and [calculateStandardLoan] return null together
    and otherwise schedules that agree entry by entry, with the same total
    interest and total paid and a total inflation of 0. *)
Theorem indexed_loan_without_inflation
    (P rate infl years : Q) (extra fee : option Q) :
  monthlyInflation infl == 0 ->
  (calculateIndexedLoan P rate infl years extra fee = None
   <-> calculateStandardLoan P rate years extra fee = None)
  /\ forall ri rs,
       calculateIndexedLoan P rate infl years extra fee = Some ri ->
       calculateStandardLoan P rate years extra fee = Some rs ->
       Forall2 entryEq (schedule ri) (schedule rs)
       /\ totalInterest (summary ri) == totalInterest (summary rs)
       /\ totalPaid (summary ri) == totalPaid (summary rs)
       /\ totalInflation (summary ri) == 0.
Proof.
  intros Hflat; unfold calculateIndexedLoan, calculateStandardLoan.
  destruct (JS.le P 0 || JS.le years 0).
  - split; [split; reflexivity|intros ri rs H; discriminate H].
  - split; [split; discriminate|].
    cbv zeta; intros ri rs Hi Hs.
    apply Some_inj in Hi; apply Some_inj in Hs; subst ri rs.
    cbn [schedule summary totalInterest totalPaid totalInflation].
    apply (ix_loops P rate infl years extra fee Hflat 600);
      try reflexivity.
    constructor.
Qed.

Section LegacyEqualPrincipal.
Variables (P rate years : Q) (fee : option Q) (N : nat).
Hypothesis HP : 0 < P.
Hypothesis HN : (1 <= N)%nat.
Hypothesis Hterm : years * 12 == JS.of_nat N.

Local Abbreviation u := (P / totalMonths years).

Local Abbreviation sliceOk k e :=
  (month e = S k
   /\ principal e == u
   /\ balance e == u * (JS.of_nat N - JS.of_nat (S k))
   /\ interest e == u * (JS.of_nat N - JS.of_nat k) * (rate / 12)
   /\ payment e == principal e + interest e + paymentFee fee).

Lemma leq_slice : 0 < u /\ P == u * JS.of_nat N.
Proof.
  assert (Hn : 0 < JS.of_nat N).
  { unfold JS.of_nat; change 0 with (inject_Z 0); rewrite <- Zlt_Qlt; lia. }
  assert (Ht : P == u * JS.of_nat N).
  { unfold totalMonths; rewrite Hterm; field; lra. }
  split; [|exact Ht].
  destruct (Qlt_le_dec 0 u) as [H|H]; [exact H|exfalso].
  assert (u * JS.of_nat N <= 0) by nra; lra.
Qed.

Lemma leq_loop fuel : forall st k,
  st_month st = S k ->
  length (st_schedule st) = k ->
  (k <= N)%nat ->
  st_balance st == u * (JS.of_nat N - JS.of_nat k) ->
  (forall j e, nth_error (st_schedule st) j = Some e -> sliceOk j e) ->
  let final := equalLoop P rate years fee fuel st in
  (length (st_schedule final) <= N)%nat
  /\ (1 # 100 < u -> (N <= k + fuel)%nat -> length (st_schedule final) = N)
  /\ forall j e, nth_error (st_schedule final) j = Some e -> sliceOk j e.
Proof.
  destruct leq_slice as [Hu _].
  induction fuel as [|fuel IH]; intros st k Hm Hlen Hk Hb Hall; cbn [equalLoop].
  - split; [lia|split; [intros; lia|exact Hall]].
  - pose proof (JSFacts.of_nat_S k) as HS.
    destruct (equalCond years st) eqn:Hc.
    + unfold equalCond in Hc; apply andb_true_iff in Hc; destruct Hc as [Hc1 Hc2].
      apply JSFacts.le_true in Hc1; unfold JS.gt in Hc2; apply JSFacts.lt_true in Hc2.
      rewrite Hm in Hc1; unfold totalMonths in Hc1; rewrite Hterm in Hc1.
      assert (HkN : (S k <= N)%nat) by (apply of_nat_le_iff; exact Hc1).
      assert (Hub : u <= st_balance st).
      { rewrite Hb; assert (1 <= JS.of_nat N - JS.of_nat k) by lra.
        set (s := P / totalMonths years) in *; clearbody s; nra. }
      assert (Hmin : JS.Math_min (monthlyPrincipal P years) (st_balance st) == u).
      { unfold monthlyPrincipal; js_case; lra. }
      assert (Hb' : st_balance st - JS.Math_min (monthlyPrincipal P years) (st_balance st)
                    == u * (JS.of_nat N - JS.of_nat (S k))).
      { rewrite Hmin, Hb, HS; ring. }
      destruct (IH (equalBody P rate years fee st) (S k)) as (H1 & H2 & H3).
      * unfold equalBody; cbn [st_month]; rewrite Hm; reflexivity.
      * unfold equalBody; cbn [st_schedule]; rewrite length_app; simpl; lia.
      * exact HkN.
      * unfold equalBody; cbn [st_balance]; exact Hb'.
      * intros j e; unfold equalBody; cbn [st_schedule].
        destruct (Nat.lt_ge_cases j (length (st_schedule st))) as [Hj|Hj].
        { rewrite nth_error_app1 by exact Hj; apply Hall. }
        rewrite nth_error_app2 by exact Hj.
        destruct (j - length (st_schedule st))%nat as [|i] eqn:Hi;
          [|destruct i; discriminate].
        cbn [nth_error]; intros H; injection H as <-.
        cbn [month principal balance interest payment].
        assert (Hjk : j = k) by lia; subst j.
        split; [exact Hm|split; [exact Hmin|split; [|split]]].
        { assert (0 <= u * (JS.of_nat N - JS.of_nat (S k))).
          { apply Qmult_le_0_compat; [lra|].
            assert (JS.of_nat (S k) <= JS.of_nat N) by (apply JSFacts.of_nat_le; lia).
            lra. }
          rewrite <- Hb'.
          rewrite <- Hb' in H. js_case; lra. }
        { unfold monthlyRate; rewrite Hb; reflexivity. }
        { ring. }
      * split; [exact H1|split; [|exact H3]].
        intros Hbig Hfuel; apply H2; [exact Hbig|lia].
    + split; [lia|split; [|exact Hall]].
      intros Hbig Hfuel.
      destruct (Nat.eq_dec k N) as [->|Hne]; [exact Hlen|exfalso].
      assert (HkN : (S k <= N)%nat) by lia.
      assert (H1 : JS.of_nat (S k) <= JS.of_nat N) by (apply JSFacts.of_nat_le; lia).
      unfold equalCond in Hc; apply andb_false_iff in Hc; destruct Hc as [Hc|Hc].
      * apply JSFacts.le_false in Hc; rewrite Hm in Hc.
        unfold totalMonths in Hc; rewrite Hterm in Hc; lra.
      * unfold JS.gt in Hc; apply JSFacts.lt_false in Hc.
        assert (u <= st_balance st).
        { rewrite Hb; assert (1 <= JS.of_nat N - JS.of_nat k) by lra.
          set (s := P / totalMonths years) in *; clearbody s; nra. }
        lra.
Qed.

End LegacyEqualPrincipal.

(** X19: [calculateEqualPrincipalLoan] over a whole number [N >= 1] of
    months pays the same slice [principal / totalMonths] in every entry;
    entry [k] leaves [N - k] slices as balance and charges interest on the
    [N - k + 1] slices it starts from; the payment is principal plus interest
    plus fee.  The schedule has at most [N] entries and exactly [N], ending
    on a balance of 0, when the slice is above 0.01. *)
Theorem equal_principal_loan_slices
    (P rate years : Q) (fee : option Q) (N : nat) :
  0 < P -> (1 <= N)%nat -> years * 12 == JS.of_nat N ->
  exists r,
    calculateEqualPrincipalLoan P rate years fee = Some r
    /\ (length (schedule r) <= N)%nat
    /\ (1 # 100 < P / totalMonths years -> length (schedule r) = N)
    /\ forall k e,
         nth_error (schedule r) k = Some e ->
         month e = S k
         /\ principal e == P / totalMonths years
         /\ balance e == P / totalMonths years * (JS.of_nat N - JS.of_nat (S k))
         /\ interest e
            == P / totalMonths years * (JS.of_nat N - JS.of_nat k) * (rate / 12)
         /\ payment e == principal e + interest e + paymentFee fee.
Proof.
  intros HP HN Hterm.
  assert (Hyears : 0 < years).
  { assert (Hn : 0 < JS.of_nat N).
    { unfold JS.of_nat; change 0 with (inject_Z 0); rewrite <- Zlt_Qlt; lia. }
    lra. }
  unfold calculateEqualPrincipalLoan.
  rewrite (JSFacts.le_intro_false _ _ HP), (JSFacts.le_intro_false _ _ Hyears).
  cbn [orb]; cbv zeta.
  eexists; split; [reflexivity|]; cbn [schedule].
  assert (Hfuel : Z.to_nat (Qfloor (totalMonths years)) = N).
  { unfold totalMonths; rewrite Hterm, JSFacts.Qfloor_of_nat; apply Nat2Z.id. }
  rewrite Hfuel.
  destruct (leq_loop P rate years fee N HP HN Hterm N (initialState P) 0%nat)
    as (H1 & H2 & H3); try reflexivity; try lia.
  - cbn [initialState st_balance].
    destruct (leq_slice P years N HP HN Hterm) as [_ Ht].
    rewrite Ht at 1; change (JS.of_nat 0) with 0; ring.
  - intros [|j] e H; discriminate H.
  - split; [exact H1|split; [|exact H3]].
    intros Hbig; apply H2; [exact Hbig|lia].
Qed.

(** X20: [calculateRentalIncome] nets rent less tax, vacancy and the five
    operating costs without a floor, and its annual figures are twelve times
    the monthly ones.  [LoanCalculator.calculateNetRent] on a rental object
    with the same rent, rates and summed costs gives, at inflation factor 1,
    that net rent floored at 0. *)
Theorem rental_income_figures
    (params : RentalParams) (rental : LoanCalculator.RentalIncomeConfig) :
  let r := calculateRentalIncome params in
  let m := monthly r in
  net m == gross m - tax m - vacancyLoss m - operatingCosts m
  /\ (gross (annual r) == gross m * 12
      /\ tax (annual r) == tax m * 12
      /\ vacancyLoss (annual r) == vacancyLoss m * 12
      /\ operatingCosts (annual r) == operatingCosts m * 12
      /\ net (annual r) == net m * 12)
  /\ (LoanCalculator.grossRent rental = monthlyRent params ->
      JS.dflt (11 # 100) (LoanCalculator.taxRate rental)
      = JS.dflt (11 # 100) (taxRate params) ->
      JS.dflt (5 # 100) (LoanCalculator.vacancyRate rental)
      = JS.dflt (5 # 100) (vacancyRate params) ->
      JS.dflt 0 (LoanCalculator.operatingCosts rental) == operatingCosts m ->
      LoanCalculator.calculateNetRent rental 1 == JS.Math_max 0 (net m)).
Proof.
  cbv zeta; unfold calculateRentalIncome; cbv zeta.
  cbn [monthly annual gross tax vacancyLoss operatingCosts net].
  split; [reflexivity|split; [repeat split; reflexivity|]].
  intros Hg Ht Hv Hc.
  unfold LoanCalculator.calculateNetRent; cbv zeta.
  rewrite Hg, Ht, Hv.
  apply Math_max_compat; [reflexivity|].
  destruct (JS.dflt true (LoanCalculator.indexed rental));
    destruct (JS.dflt true (LoanCalculator.indexCosts rental));
    rewrite Hc; ring.
Qed.

(** X21: the simple cashflow splits the monthly cashflow into an
    out-of-pocket amount and a surplus: both are at least 0, at most one is
    above 0, and out-of-pocket less surplus is loan payment less net rent;
    [isPositive] says that the rent covers the payment.  They are the
    [userOutOfPocket] and [surplusTowardsPrincipal] that
    [RentalCalculator.calculateCashflow] computes when the rent is applied to
    the loan. *)
Theorem simple_cashflow (loanPayment netRentalIncome : Q) :
  let c := calculateCashflow loanPayment netRentalIncome in
  0 <= outOfPocket c
  /\ 0 <= surplus c
  /\ (outOfPocket c == 0 \/ surplus c == 0)
  /\ outOfPocket c - surplus c == loanPayment - netRentalIncome
  /\ (isPositive c = true <-> loanPayment <= netRentalIncome)
  /\ forall config,
       RentalCalculator.loanPayment config = loanPayment ->
       RentalCalculator.netRent
         (RentalCalculator.calculateMonthlyBreakdown
            (RentalCalculator.rentalConfig config)) = netRentalIncome ->
       JS.dflt false (RentalCalculator.applyRentToLoan config) = true ->
       RentalCalculator.userOutOfPocket (RentalCalculator.calculateCashflow config)
       == outOfPocket c
       /\ RentalCalculator.surplusTowardsPrincipal
            (RentalCalculator.calculateCashflow config)
          == surplus c.
Proof.
  cbv zeta; unfold calculateCashflow; cbv zeta.
  cbn [outOfPocket surplus isPositive].
  set (cf := netRentalIncome - loanPayment).
  assert (Habs : cf < 0 -> JS.Math_abs cf == - cf).
  { intros H; unfold JS.Math_abs; apply Qabs_neg; lra. }
  assert (Hcf : cf == netRentalIncome - loanPayment) by reflexivity.
  clearbody cf.
  split; [|split; [|split; [|split; [|split]]]].
  - js_case; [rewrite Habs by assumption|]; lra.
  - js_case; lra.
  - js_case; try (left; lra); right; lra.
  - js_case; rewrite ?Habs by assumption; lra.
  - unfold JS.ge; split; intros H.
    + apply JSFacts.le_true in H; lra.
    + apply JSFacts.le_intro; lra.
  - intros config Hpay Hnet Happly.
    unfold RentalCalculator.calculateCashflow; cbv zeta.
    cbn [RentalCalculator.userOutOfPocket RentalCalculator.surplusTowardsPrincipal].
    rewrite Happly, Hpay, Hnet.
    split; js_case; rewrite ?Habs by assumption; lra.
Qed.

Lemma Math_round_le a b : a <= b -> JS.Math_round a <= JS.Math_round b.
Proof.
  intros H; unfold JS.Math_round; rewrite <- Zle_Qle.
  apply Qfloor_resp_le; lra.
Qed.

Lemma Math_round_nonneg a : 0 <= a -> 0 <= JS.Math_round a.
Proof. intros H; apply (Math_round_le 0 a H). Qed.

Lemma vaxtabaetur_benefit (i inc : Q) (h : option string) (n : option Q) :
  estimateVaxtabaetur
    {| annualInterestPaid := i; annualIncome := inc;
       householdType := h; numChildren := n |}
  = let single := String.eqb (JS.dflt "single"%string h) "single"%string in
    let threshold := (if single then 5500000 else 8000000) + JS.dflt 0 n * 500000 in
    let cap := (if single then 500000 else 600000) + JS.dflt 0 n * 50000 in
    let benefit0 := JS.Math_min (i * (30 # 100)) cap in
    JS.Math_round
      (if JS.gt inc threshold
       then JS.Math_max 0 (benefit0 - (inc - threshold) * (4 # 100))
       else benefit0).
Proof. reflexivity. Qed.

(** X22: the interest benefit estimate, for interest paid and a number of
    children of 0 or more: it is a whole number, at least 0, at most the
    household's maximum benefit (rounded) and at most 30% of the interest
    paid (rounded), and it never rises with income. *)
Theorem vaxtabaetur_estimate (i inc1 inc2 : Q) (h : option string) (n : option Q) :
  0 <= i -> 0 <= JS.dflt 0 n -> inc1 <= inc2 ->
  let est inc :=
    estimateVaxtabaetur
      {| annualInterestPaid := i; annualIncome := inc;
         householdType := h; numChildren := n |} in
  let cap :=
    (if String.eqb (JS.dflt "single"%string h) "single"%string
     then 500000 else 600000) + JS.dflt 0 n * 50000 in
  (exists z : Z, est inc1 = inject_Z z)
  /\ 0 <= est inc1
  /\ est inc1 <= JS.Math_round cap
  /\ est inc1 <= JS.Math_round (i * (30 # 100))
  /\ est inc2 <= est inc1.
Proof.
  intros Hi Hn Hinc; cbv beta zeta; rewrite !vaxtabaetur_benefit; cbv beta zeta.
  set (single := String.eqb (JS.dflt "single"%string h) "single"%string).
  set (c := JS.dflt 0 n) in *.
  set (threshold := (if single then 5500000 else 8000000) + c * 500000).
  set (cap := (if single then 500000 else 600000) + c * 50000).
  assert (Hcap : 0 <= cap) by (unfold cap; destruct single; lra).
  clearbody threshold cap.
  set (x := i * (30 # 100)).
  assert (Hx : 0 <= x) by (unfold x; lra).
  clearbody x.
  split; [eexists; reflexivity|].
  split; [apply Math_round_nonneg; js_case; lra|].
  split; [apply Math_round_le; js_case; lra|].
  split; [apply Math_round_le; js_case; lra|].
  apply Math_round_le; js_case; lra.
Qed.

End Legacy.

(** * Properties of [Utils.validateLoanParams] *)

Section Validation.
Context {MP : MathPow}.
Import Utils.

Lemma missingOrNonPositive_false x :
  missingOrNonPositive x = false <-> exists v, x = Some v /\ 0 < v.
Proof.
  unfold missingOrNonPositive; destruct x as [v|].
  - split.
    + intros H; apply orb_false_iff in H; destruct H as [_ H].
      exists v; split; [reflexivity|now apply JSFacts.le_false].
    + intros (w & Hw & Hpos); injection Hw as <-.
      apply orb_false_iff; split.
      * destruct (JS.strict_eq v 0) eqn:E; [|reflexivity]; js_prop; lra.
      * now apply JSFacts.le_intro_false.
  - split; [discriminate|intros (v & H & _); discriminate H].
Qed.

Lemma pushIf_length c msg l :
  length (pushIf c msg l) = (length l + if c then 1 else 0)%nat.
Proof. destruct c; cbn [pushIf]; [rewrite length_app; reflexivity|lia]. Qed.

(** X23: validation and the engine.  [validateLoanParams] accepts exactly
    the parameters whose property price, loan amount, interest rate and term
    are all present and above 0; it reports one error for each of the four
    that is not, and warnings never make it reject.  A configuration with an
    accepted loan amount and term never gets null from [calculateSchedule],
    and without [acceleratedPayoff] its schedule has at least one entry. *)
Theorem validated_loan_is_scheduled
    (params : LoanParams) (config : LoanCalculator.LoanConfiguration) :
  let v := validateLoanParams params in
  (valid v = true
   <-> (exists p, propertyPrice params = Some p /\ 0 < p)
       /\ (exists a, loanAmount params = Some a /\ 0 < a)
       /\ (exists i, annualInterestRate params = Some i /\ 0 < i)
       /\ (exists t, loanTermYears params = Some t /\ 0 < t))
  /\ length (errors v)
     = ((if missingOrNonPositive (propertyPrice params) then 1 else 0)
        + (if missingOrNonPositive (loanAmount params) then 1 else 0)
        + (if missingOrNonPositive (annualInterestRate params) then 1 else 0)
        + (if missingOrNonPositive (loanTermYears params) then 1 else 0))%nat
  /\ (valid v = true ->
      loanAmount params = Some (LoanCalculator.loanAmount config) ->
      loanTermYears params = Some (LoanCalculator.loanTermYears config) ->
      exists r,
        LoanCalculator.calculateSchedule config = Some r
        /\ (LoanCalculator.cfg_acceleratedPayoff config = false ->
            (1 <= length (LoanCalculator.schedule r))%nat)).
Proof.
  cbv zeta.
  assert (Hlen : length (errors (validateLoanParams params))
                 = ((if missingOrNonPositive (propertyPrice params) then 1 else 0)
                    + (if missingOrNonPositive (loanAmount params) then 1 else 0)
                    + (if missingOrNonPositive (annualInterestRate params) then 1 else 0)
                    + (if missingOrNonPositive (loanTermYears params) then 1 else 0))%nat).
  { unfold validateLoanParams; cbv zeta; cbn [errors].
    rewrite !pushIf_length; reflexivity. }
  assert (Hvalid : valid (validateLoanParams params) = true
                   <-> missingOrNonPositive (propertyPrice params) = false
                       /\ missingOrNonPositive (loanAmount params) = false
                       /\ missingOrNonPositive (annualInterestRate params) = false
                       /\ missingOrNonPositive (loanTermYears params) = false).
  { change (valid (validateLoanParams params))
      with (length (errors (validateLoanParams params)) =? 0)%nat.
    rewrite Hlen, Nat.eqb_eq.
    destruct (missingOrNonPositive (propertyPrice params)),
             (missingOrNonPositive (loanAmount params)),
             (missingOrNonPositive (annualInterestRate params)),
             (missingOrNonPositive (loanTermYears params));
      cbn; split; try discriminate; try tauto;
      intros (H1 & H2 & H3 & H4); discriminate. }
  split; [|split; [exact Hlen|]].
  - rewrite Hvalid, !missingOrNonPositive_false; reflexivity.
  - intros Hv Ha Ht.
    apply Hvalid in Hv; destruct Hv as (_ & Hva & _ & Hvt).
    apply missingOrNonPositive_false in Hva, Hvt.
    destruct Hva as (a & Ha' & Hapos), Hvt as (t & Ht' & Htpos).
    rewrite Ha in Ha'; rewrite Ht in Ht'.
    injection Ha' as <-; injection Ht' as <-.
    destruct (calculateSchedule_some config Hapos) as [r Hr].
    exists r; split; [exact Hr|]; intros Hacc.
    destruct (calculateSchedule_run config r Hr) as (n & _ & Hs & _ & _ & Hf).
    rewrite Hs, stateAt_length.
    destruct n as [|n]; [exfalso|lia].
    unfold LoanCalculator.loopCond in Hf.
    rewrite Hacc, stateAt_month in Hf; cbn [Nat.ltb Nat.leb] in Hf.
    rewrite andb_true_r in Hf; apply JSFacts.lt_false in Hf.
    unfold LoanCalculator.totalMonths in Hf; change (JS.of_nat 0) with 0 in Hf; lra.
Qed.

End Validation.

(** * Properties of the managers and of the balance chart *)

Section Managers.
Context {MP : MathPow}.

Lemma toInteger_of_nat k : JSArray.toInteger (JS.of_nat k) = Z.of_nat k.
Proof.
  unfold JSArray.toInteger.
  replace (JS.lt (JS.of_nat k) 0) with false; [apply JSFacts.Qfloor_of_nat|].
  symmetry; apply JSFacts.lt_intro_false.
  unfold JS.of_nat; change 0 with (inject_Z 0); rewrite <- Zle_Qle; lia.
Qed.

Lemma splice1_whole {A} (arr : list A) k :
  JSArray.splice1 (JS.of_nat k) arr = firstn k arr ++ skipn (S k) arr.
Proof.
  unfold JSArray.splice1; cbv zeta; rewrite toInteger_of_nat.
  replace (Z.of_nat k <? 0)%Z with false by (symmetry; apply Z.ltb_ge; lia).
  destruct (Nat.le_gt_cases (length arr) k) as [H|H].
  - rewrite Z.min_r, Nat2Z.id by lia.
    rewrite !firstn_all2, !skipn_all2 by lia; reflexivity.
  - rewrite Z.min_l, Nat2Z.id by lia; reflexivity.
Qed.

Lemma In_without {A} (x : A) n arr :
  In x (firstn n arr ++ skipn (S n) arr) -> In x arr.
Proof.
  intros H; apply in_app_or in H; destruct H as [H|H].
  - rewrite <- (firstn_skipn n arr); apply in_or_app; left; exact H.
  - rewrite <- (firstn_skipn (S n) arr); apply in_or_app; right; exact H.
Qed.

Lemma sum_by_app {A} (f : A -> Q) a b :
  JS.sum_by f (a ++ b) == JS.sum_by f a + JS.sum_by f b.
Proof.
  induction b as [|x b IH] using rev_ind.
  - rewrite app_nil_r; unfold JS.sum_by at 3; cbn [fold_left]; ring.
  - rewrite app_assoc, !sum_by_snoc, IH; ring.
Qed.

Lemma sum_by_without {A} (f : A -> Q) arr k c :
  nth_error arr k = Some c ->
  JS.sum_by f (firstn k arr ++ skipn (S k) arr) == JS.sum_by f arr - f c.
Proof.
  intros H.
  assert (Hsplit : arr = firstn k arr ++ c :: skipn (S k) arr).
  { rewrite <- (firstn_skipn k arr) at 1; f_equal.
    revert k H; induction arr as [|y arr IH]; intros [|k] H; try discriminate.
    - injection H as ->; reflexivity.
    - exact (IH k H). }
  rewrite Hsplit at 3.
  rewrite !sum_by_app.
  change (c :: skipn (S k) arr) with ([c] ++ skipn (S k) arr).
  rewrite sum_by_app; change (JS.sum_by f [c]) with (0 + f c); ring.
Qed.

Lemma set_at_nth {A} (arr : list A) i x j :
  nth_error (JSArray.set_at arr i x) j
  = if (j =? i)%nat && (i <? length arr)%nat then Some x else nth_error arr j.
Proof.
  revert i j; induction arr as [|y arr IH]; intros i j.
  - replace (i <? length (@nil A))%nat with false by (destruct i; reflexivity).
    rewrite andb_false_r; destruct i; reflexivity.
  - destruct i as [|i], j as [|j]; try reflexivity.
    cbn [JSArray.set_at nth_error]; rewrite IH; reflexivity.
Qed.

(** X24: the scenario store.  [add] returns the index at which [get] finds
    the scenario just added, and leaves every earlier scenario in its place;
    [update] at a whole index in range replaces that scenario and no other,
    and keeps the number of scenarios; at any other index it changes
    nothing; [remove] at a whole index takes out the scenario there, so that
    the later ones move down by one, and changes nothing at or past the
    end. *)
Theorem scenario_store
    (Params : Type) (scenarios : list (ScenarioManager.Scenario Params))
    (nm now : string) (p : Params) :
  let new := {| ScenarioManager.name := nm; ScenarioManager.params := p;
                ScenarioManager.savedAt := now |} in
  (let (i, after) := ScenarioManager.add Params nm p now scenarios in
   i = length scenarios
   /\ ScenarioManager.get Params (JS.of_nat i) after = Some new
   /\ forall j, (j < i)%nat ->
         ScenarioManager.get Params (JS.of_nat j) after
         = ScenarioManager.get Params (JS.of_nat j) scenarios)
  /\ (forall i j,
        (i < length scenarios)%nat ->
        let after := ScenarioManager.update Params (JS.of_nat i) nm p now scenarios in
        length after = length scenarios
        /\ ScenarioManager.get Params (JS.of_nat j) after
           = if (j =? i)%nat then Some new
             else ScenarioManager.get Params (JS.of_nat j) scenarios)
  /\ (forall index,
        ScenarioManager.get Params index scenarios = None ->
        ScenarioManager.update Params index nm p now scenarios = scenarios)
  /\ (forall i j,
        ScenarioManager.get Params (JS.of_nat j)
          (ScenarioManager.remove Params (JS.of_nat i) scenarios)
        = ScenarioManager.get Params
            (JS.of_nat (if (j <? i)%nat then j else S j)) scenarios).
Proof.
  cbv zeta; unfold ScenarioManager.add, ScenarioManager.get,
    ScenarioManager.update, ScenarioManager.remove; cbv zeta.
  split; [|split; [|split]].
  - rewrite length_app; cbn [length].
    replace (length scenarios + 1 - 1)%nat with (length scenarios) by lia.
    split; [reflexivity|split].
    + rewrite (JSFacts.index_whole _ _ _ (Qeq_refl _)).
      rewrite nth_error_app2, Nat.sub_diag by lia; reflexivity.
    + intros j Hj.
      rewrite !(JSFacts.index_whole _ _ _ (Qeq_refl _)).
      apply nth_error_app1; exact Hj.
  - intros i j Hi.
    rewrite (JSFacts.index_whole _ _ i (Qeq_refl _)).
    destruct (nth_error scenarios i) as [old|] eqn:Hold;
      [|apply nth_error_None in Hold; lia].
    rewrite JSFacts.Qfloor_of_nat, Nat2Z.id.
    split.
    + apply Nat.le_antisymm.
      * destruct (Nat.le_gt_cases (length (JSArray.set_at scenarios i
                    {| ScenarioManager.name := nm; ScenarioManager.params := p;
                       ScenarioManager.savedAt := now |})) (length scenarios))
          as [H|H]; [exact H|exfalso].
        apply nth_error_Some in H; apply H.
        rewrite set_at_nth.
        replace (length scenarios =? i)%nat with false
          by (symmetry; apply Nat.eqb_neq; lia).
        apply nth_error_None; lia.
      * destruct (Nat.le_gt_cases (length scenarios) (length (JSArray.set_at scenarios i
                    {| ScenarioManager.name := nm; ScenarioManager.params := p;
                       ScenarioManager.savedAt := now |})))
          as [H|H]; [exact H|exfalso].
        apply nth_error_Some in H; apply H.
        pose proof (set_at_nth scenarios i
                      {| ScenarioManager.name := nm; ScenarioManager.params := p;
                         ScenarioManager.savedAt := now |}
                      (length (JSArray.set_at scenarios i
                         {| ScenarioManager.name := nm; ScenarioManager.params := p;
                            ScenarioManager.savedAt := now |}))) as Hn.
        rewrite (proj2 (nth_error_None _ _) (Nat.le_refl _)) in Hn.
        destruct ((_ =? i)%nat && (i <? length scenarios)%nat); [discriminate|].
        symmetry; exact Hn.
    + rewrite !(JSFacts.index_whole _ _ j (Qeq_refl _)), set_at_nth.
      replace (i <? length scenarios)%nat with true
        by (symmetry; apply Nat.ltb_lt; exact Hi).
      rewrite andb_true_r; reflexivity.
  - intros index ->; reflexivity.
  - intros i j.
    rewrite splice1_whole, !(JSFacts.index_whole _ _ _ (Qeq_refl _)).
    destruct (Nat.le_gt_cases (length scenarios) i) as [Hi|Hi].
    + rewrite firstn_all2, skipn_all2, app_nil_r by lia.
      destruct (j <? i)%nat eqn:Hj; [reflexivity|].
      apply Nat.ltb_ge in Hj.
      rewrite (proj2 (nth_error_None scenarios j)) by lia.
      symmetry; apply nth_error_None; lia.
    + assert (Hlen : length (firstn i scenarios) = i)
        by (rewrite length_firstn; lia).
      destruct (j <? i)%nat eqn:Hj.
      * pose proof (proj1 (Nat.ltb_lt _ _) Hj) as Hj'.
        rewrite nth_error_app1 by lia.
        rewrite nth_error_firstn, Hj; reflexivity.
      * apply Nat.ltb_ge in Hj.
        rewrite nth_error_app2 by lia.
        rewrite Hlen, nth_error_skipn; f_equal; lia.
Qed.

Lemma add_taken nm amt :
  String.eqb nm "" || JS.le amt 0 = false <-> nm <> ""%string /\ 0 < amt.
Proof.
  rewrite orb_false_iff, String.eqb_neq.
  split; intros [H1 H2]; (split; [exact H1|]).
  - apply JSFacts.le_false; exact H2.
  - apply JSFacts.le_intro_false; exact H2.
Qed.

(** X25: the custom costs.  [add] refuses an empty name and an amount of 0
    or less, and then changes nothing; a cost it takes raises [getTotal] by
    its amount.  [remove] at a whole index in range lowers the total by the
    amount of the cost there, and changes nothing at or past the end.  So,
    on costs that all carry a name and an amount above 0, every method keeps
    it that way, and the total is never negative. *)
Theorem custom_costs_total
    (costs : list RentalCalculator.CustomCost) (nm : string) (amt : Q) :
  let ok c := RentalCalculator.name c <> ""%string /\ 0 < RentalCalculator.amount c in
  (fst (CustomCostsManager.add nm amt costs) = false <-> nm = ""%string \/ amt <= 0)
  /\ (fst (CustomCostsManager.add nm amt costs) = false ->
      snd (CustomCostsManager.add nm amt costs) = costs)
  /\ (fst (CustomCostsManager.add nm amt costs) = true ->
      CustomCostsManager.getTotal (snd (CustomCostsManager.add nm amt costs))
      == CustomCostsManager.getTotal costs + amt)
  /\ (forall k c,
        nth_error costs k = Some c ->
        CustomCostsManager.getTotal (CustomCostsManager.remove (JS.of_nat k) costs)
        == CustomCostsManager.getTotal costs - RentalCalculator.amount c)
  /\ (forall k,
        (length costs <= k)%nat ->
        CustomCostsManager.remove (JS.of_nat k) costs = costs)
  /\ (Forall ok costs ->
      Forall ok (snd (CustomCostsManager.add nm amt costs))
      /\ (forall index, Forall ok (CustomCostsManager.remove index costs))
      /\ Forall ok (CustomCostsManager.clear costs)
      /\ 0 <= CustomCostsManager.getTotal costs).
Proof.
  cbv zeta; unfold CustomCostsManager.add, CustomCostsManager.getTotal,
    CustomCostsManager.remove, CustomCostsManager.clear.
  split; [|split; [|split; [|split; [|split]]]].
  - destruct (String.eqb nm "" || JS.le amt 0) eqn:E; cbn [fst].
    + split; [intros _|reflexivity].
      apply orb_true_iff in E; destruct E as [E|E].
      * left; apply String.eqb_eq; exact E.
      * right; apply JSFacts.le_true; exact E.
    + apply add_taken in E; destruct E as [E1 E2].
      split; [discriminate|intros [H|H]; [contradiction|lra]].
  - destruct (String.eqb nm "" || JS.le amt 0); cbn [fst snd];
      [reflexivity|discriminate].
  - destruct (String.eqb nm "" || JS.le amt 0); cbn [fst snd];
      [discriminate|intros _].
    rewrite sum_by_snoc; cbn [RentalCalculator.amount].
    rewrite JSFacts.or0_eq; reflexivity.
  - intros k c Hc; rewrite splice1_whole.
    rewrite (sum_by_without _ costs k c Hc), JSFacts.or0_eq; reflexivity.
  - intros k Hk; rewrite splice1_whole.
    rewrite firstn_all2, skipn_all2, app_nil_r by lia; reflexivity.
  - intros Hok; split; [|split; [|split]].
    + destruct (String.eqb nm "" || JS.le amt 0) eqn:E; cbn [snd]; [exact Hok|].
      apply add_taken in E.
      apply Forall_app; split; [exact Hok|].
      constructor; [exact E|constructor].
    + intros index; unfold JSArray.splice1; cbv zeta.
      apply Forall_forall; intros x Hx.
      apply In_without in Hx.
      rewrite Forall_forall in Hok; exact (Hok x Hx).
    + constructor.
    + induction costs as [|c costs IH] using rev_ind.
      * unfold JS.sum_by; simpl; lra.
      * apply Forall_app in Hok; destruct Hok as [Hok Hc].
        inversion Hc as [|? ? [_ Hpos] _]; subst.
        rewrite sum_by_snoc, JSFacts.or0_eq.
        specialize (IH Hok); lra.
Qed.


End Managers.

(** * The further properties on sample inputs *)


Lemma Qpow_at_zero x y : y == 0 -> Math_pow (MathPow := Qpow) x y == 1.
Proof.
  intros H; unfold Math_pow, Qpow.
  assert (Hf : Qfloor y = 0%Z) by (rewrite H; reflexivity).
  rewrite Hf.
  replace (JS.strict_eq y (inject_Z 0)) with true
    by (symmetry; apply Qeq_bool_iff; exact H).
  reflexivity.
Qed.

Section FurtherSamples.
Existing Instance Qpow.

Section OnSchedules.
Import LoanCalculator.

Lemma schedule_months_witness :
  exists r,
    calculateSchedule feeLoan = Some r
    /\ termMonths (summary r) = length (schedule r).
Proof.
  destruct (calculateSchedule_some feeLoan eq_refl) as [r Hr].
  exists r; split; [exact Hr|exact (proj1 (schedule_months feeLoan r Hr))].
Defined.

Lemma payment_split_witness :
  exists r e,
    calculateSchedule feeLoan = Some r
    /\ nth_error (schedule r) 0 = Some e
    /\ totalPaymentToLoan e
       == userOutOfPocket e + rentalContribution e + rentBasedExtra e.
Proof.
  destruct (calculateSchedule_some feeLoan eq_refl) as [r Hr].
  destruct (nth_error (schedule r) 0) as [e|] eqn:He.
  - exists r, e; split; [exact Hr|split; [exact He|]].
    exact (payment_split feeLoan r e Hr (nth_error_In _ _ He)).
  - exfalso; vm_compute in Hr; injection Hr as <-; discriminate He.
Defined.

Lemma summary_totals_witness :
  exists r,
    calculateSchedule feeLoan = Some r
    /\ totalInterest (summary r) == JS.sum_by interest (schedule r).
Proof.
  destruct (calculateSchedule_some feeLoan eq_refl) as [r Hr].
  exists r; split; [exact Hr|exact (proj1 (summary_totals feeLoan r Hr))].
Defined.




Lemma fixed_term_length_witness :
  exists r, calculateSchedule feeLoan = Some r /\ length (schedule r) = 3%nat.
Proof.
  destruct (calculateSchedule_some feeLoan eq_refl) as [r Hr].
  exists r; split; [exact Hr|exact (fixed_term_length feeLoan r Hr eq_refl)].
Defined.

Lemma rent_applied_in_full_witness :
  exists r e,
    calculateSchedule rentedLoan = Some r
    /\ nth_error (schedule r) 0 = Some e
    /\ rentalContribution e + rentBasedExtra e
       == calculateNetRent (sampleRental true None)
            (st_cumulativeInflationFactor (stateAt rentedLoan 0)).
Proof.
  destruct (calculateSchedule_some rentedLoan eq_refl) as [r Hr].
  destruct (nth_error (schedule r) 0) as [e|] eqn:He.
  - exists r, e; split; [exact Hr|split; [exact He|]].
    destruct (proj1 (rent_applied_in_full rentedLoan r 0%nat e Hr He)
                (sampleRental true None)) as (H & _);
      [reflexivity|reflexivity|vm_compute; reflexivity|exact H].
  - exfalso; vm_compute in Hr; injection Hr as <-; discriminate He.
Defined.


Lemma yearly_breakdown_points_witness :
  exists pt,
    nth_error (calculateYearlyBreakdown sampleSchedule 6000 0) 1 = Some pt
    /\ loanBalance pt == 0.
Proof.
  destruct (nth_error (calculateYearlyBreakdown sampleSchedule 6000 0) 1)
    as [pt|] eqn:Hpt; [|exfalso; vm_compute in Hpt; discriminate].
  exists pt; split; [reflexivity|].
  destruct (proj2 (yearly_breakdown_points sampleSchedule 6000 0) 1%nat pt Hpt)
    as (_ & _ & _ & _ & H).
  apply H; simpl; lia.
Defined.

Lemma sale_balance_on_timeline_witness :
  exists m pt,
    calculateInvestmentMetrics yearInvestment = Some m
    /\ nth_error (breakdownByYear m) 1 = Some pt
    /\ loanBalance pt == loanBalanceAtSale m.
Proof.
  destruct (calculateInvestmentMetrics yearInvestment) as [m|] eqn:Hm;
    [|exfalso; vm_compute in Hm; discriminate].
  destruct (sale_balance_on_timeline yearInvestment yearSchedule m 1 eq_refl Hm)
    as (pt & Hpt & Hb); [reflexivity|lia|vm_compute; lia|].
  exists m, pt; split; [reflexivity|split; [exact Hpt|exact Hb]].
Defined.

Lemma metrics_match_summary_witness :
  exists r m,
    calculateSchedule feeLoan = Some r
    /\ calculateInvestmentMetrics (investmentOn (schedule r) 50) = Some m
    /\ totalCashFromRent m == totalRentalContribution (summary r).
Proof.
  destruct (calculateSchedule_some feeLoan eq_refl) as [r Hr].
  destruct (calculateInvestmentMetrics (investmentOn (schedule r) 50))
    as [m|] eqn:Hm; [|exfalso; discriminate Hm].
  exists r, m; split; [exact Hr|split; [exact Hm|]].
  apply (metrics_match_summary feeLoan r (investmentOn (schedule r) 50) m
           Hr eq_refl Hm).
  destruct (calculateSchedule_run feeLoan r Hr) as (n & Hn & Hs & _).
  rewrite Hs, stateAt_length.
  apply Qle_trans with (JS.of_nat 600);
    [apply JSFacts.of_nat_le; exact Hn|vm_compute; discriminate].
Defined.


Lemma validated_loan_is_scheduled_witness :
  exists r,
    calculateSchedule feeLoan = Some r /\ (1 <= length (schedule r))%nat.
Proof.
  destruct (validated_loan_is_scheduled sampleLoanParams feeLoan) as (_ & _ & H).
  destruct (H eq_refl eq_refl eq_refl) as (r & Hr & Hlen).
  exists r; split; [exact Hr|exact (Hlen eq_refl)].
Defined.

End OnSchedules.

Section OnRentals.
Import RentalCalculator.

Lemma breakdown_consistent_witness :
  netRent (calculateMonthlyBreakdown sampleRentalConfig)
  == LoanCalculator.calculateNetRent (sampleRental true None)
       (JS.dflt 1 (inflationFactor sampleRentalConfig)).
Proof.
  apply (proj2 (breakdown_consistent sampleRentalConfig (sampleRental true None)));
    reflexivity.
Defined.

Lemma cashflow_balance_witness :
  0 <= userOutOfPocket (calculateCashflow sampleCashflowConfig).
Proof.
  destruct (cashflow_balance sampleCashflowConfig) as (_ & _ & _ & H & _).
  exact (proj1 (H eq_refl)).
Defined.


Lemma projection_rows_witness :
  exists row,
    nth_error (projectRentalIncome sampleProjection 2) 0 = Some row
    /\ monthlyNet row == netRent (calculateMonthlyBreakdown sampleRentalConfig).
Proof.
  destruct (nth_error (projectRentalIncome sampleProjection 2) 0)
    as [row|] eqn:Hrow; [|exfalso; vm_compute in Hrow; discriminate].
  exists row; split; [reflexivity|].
  destruct (projection_rows sampleProjection 2) as (_ & _ & H).
  exact (proj2 (H Qpow_at_zero row Hrow)).
Defined.

Lemma custom_costs_total_witness : 0 <= CustomCostsManager.getTotal sampleCosts.
Proof.
  destruct (custom_costs_total sampleCosts "waste" 5) as (_ & _ & _ & _ & _ & H).
  apply H; constructor; [split; [discriminate|reflexivity]|constructor].
Defined.

Lemma scenario_store_witness :
  ScenarioManager.get nat (JS.of_nat 0)
    (ScenarioManager.update nat (JS.of_nat 0) "second" 2%nat
       "2024-02-01T00:00:00.000Z" sampleScenarios)
  = Some {| ScenarioManager.name := "second";
            ScenarioManager.params := 2%nat;
            ScenarioManager.savedAt := "2024-02-01T00:00:00.000Z" |}.
Proof.
  destruct (scenario_store nat sampleScenarios "second" "2024-02-01T00:00:00.000Z" 2%nat)
    as (_ & H & _).
  exact (proj2 (H 0%nat 0%nat ltac:(simpl; lia))).
Defined.

End OnRentals.

Section OnLegacy.
Import LoanCalculations.


Lemma indexed_loan_without_inflation_witness :
  exists ri rs,
    calculateIndexedLoan 30301 (12 # 100) 0 (1 # 4) (Some (20300995 # 1000)) None
    = Some ri
    /\ calculateStandardLoan 30301 (12 # 100) (1 # 4) (Some (20300995 # 1000)) None
       = Some rs
    /\ totalInflation (summary ri) == 0.
Proof.
  destruct (calculateIndexedLoan 30301 (12 # 100) 0 (1 # 4)
              (Some (20300995 # 1000)) None)
    as [ri|] eqn:Hi; [|exfalso; vm_compute in Hi; discriminate].
  destruct (calculateStandardLoan 30301 (12 # 100) (1 # 4)
              (Some (20300995 # 1000)) None)
    as [rs|] eqn:Hs; [|exfalso; vm_compute in Hs; discriminate].
  exists ri, rs; split; [reflexivity|split; [reflexivity|]].
  assert (Hflat : monthlyInflation 0 == 0) by reflexivity.
  destruct (proj2 (indexed_loan_without_inflation 30301 (12 # 100) 0 (1 # 4)
                     (Some (20300995 # 1000)) None Hflat)
              ri rs Hi Hs) as (_ & _ & _ & H).
  exact H.
Defined.

Lemma equal_principal_loan_slices_witness :
  exists r,
    calculateEqualPrincipalLoan 1200 (12 # 100) (1 # 4) None = Some r
    /\ length (schedule r) = 3%nat.
Proof.
  destruct (equal_principal_loan_slices 1200 (12 # 100) (1 # 4) None 3)
    as (r & Hr & _ & Hlen & _); [reflexivity|lia|reflexivity|].
  exists r; split; [exact Hr|apply Hlen; vm_compute; reflexivity].
Defined.

Lemma rental_income_figures_witness :
  LoanCalculator.calculateNetRent (sampleRental true None) 1
  == JS.Math_max 0 (net (monthly (calculateRentalIncome sampleRentalParams))).
Proof.
  apply (proj2 (proj2 (rental_income_figures sampleRentalParams
                         (sampleRental true None))));
    reflexivity.
Defined.

Lemma simple_cashflow_witness :
  RentalCalculator.userOutOfPocket
    (RentalCalculator.calculateCashflow sampleCashflowConfig)
  == outOfPocket
       (calculateCashflow 400
          (RentalCalculator.netRent
             (RentalCalculator.calculateMonthlyBreakdown sampleRentalConfig))).
Proof.
  destruct (simple_cashflow 400
              (RentalCalculator.netRent
                 (RentalCalculator.calculateMonthlyBreakdown sampleRentalConfig)))
    as (_ & _ & _ & _ & _ & H).
  exact (proj1 (H sampleCashflowConfig eq_refl eq_refl eq_refl)).
Defined.

Lemma vaxtabaetur_estimate_witness :
  estimateVaxtabaetur (sampleHousehold 6000000)
  <= estimateVaxtabaetur (sampleHousehold 5000000).
Proof.
  destruct (vaxtabaetur_estimate 1000000 5000000 6000000 None None)
    as (_ & _ & _ & _ & H);
    [vm_compute; discriminate|vm_compute; discriminate|vm_compute; discriminate
    |exact H].
Defined.

End OnLegacy.

End FurtherSamples.
